(** * BidSync backend: the request handlers over a relational store

    A shallow embedding of the Express controllers of the marketplace
    backend (auth, project and bid controllers, the role middleware) over a
    model of the four tables of the migration (User, Project, Bid, File).

    - Tables are finite maps from the primary key [id] to the row.
    - A handler is a computation in a state-and-exception monad over the
      database and the list of sent emails.  A JavaScript [throw] inside the
      handler's [try] block ends the handler with the error handed to
      [next]; writes done before the throw stay (there is no transaction).
    - External collaborators (bcrypt, jsonwebtoken, the id generator of the
      ORM and its check of numbers, [String.prototype.toUpperCase],
      [parseFloat], [parseInt], the [Date] constructor) are the methods of
      the class [Externals]: the handlers and their properties hold for
      every implementation of them.  The listings need the order and the
      text search of the database as well: the class [QueryExternals]. *)

From stdpp Require Import gmap strings list fin_maps sorting pretty.

Open Scope string_scope.
Open Scope Z_scope.

(** ** Enumerations of the schema *)

Inductive UserRole := BUYER | SELLER.

#[global] Instance UserRole_eq_dec : EqDecision UserRole.
Proof. solve_decision. Defined.

Module ProjectStatus.
Inductive t := PENDING | IN_PROGRESS | COMPLETED.
#[global] Instance eq_dec : EqDecision t.
Proof. solve_decision. Defined.
End ProjectStatus.

Module BidStatus.
Inductive t := PENDING | ACCEPTED | REJECTED.
#[global] Instance eq_dec : EqDecision t.
Proof. solve_decision. Defined.
End BidStatus.

(** ** Rows of the four tables

    The key [id] is the key of the table map, the other columns are the
    fields of the row.  Timestamps are milliseconds since the epoch.  The
    numeric columns hold JavaScript numbers, whose carrier [Num] is left
    abstract: no handler computes with them. *)

Module User.
Record t := mk {
  email : string;
  password : string;
  name : string;
  role : UserRole;
  avatar : option string;
  createdAt : Z;
  updatedAt : Z }.
End User.

Module Project.
Record t {Num : Type} := mk {
  title : string;
  description : string;
  budgetMin : Num;
  budgetMax : Num;
  deadline : Z;
  status : ProjectStatus.t;
  createdAt : Z;
  updatedAt : Z;
  buyerId : string;
  sellerId : option string }.
Arguments t : clear implicits.
Arguments mk {Num}.
End Project.

Module Bid.
Record t {Num : Type} := mk {
  amount : Num;
  deliveryTime : Num;
  message : string;
  status : BidStatus.t;
  createdAt : Z;
  updatedAt : Z;
  projectId : string;
  sellerId : string }.
Arguments t : clear implicits.
Arguments mk {Num}.
End Bid.

Module File.
Record t {Num : Type} := mk {
  name : string;
  path : string;
  size : Num;
  mimeType : string;
  createdAt : Z;
  projectId : string }.
Arguments t : clear implicits.
Arguments mk {Num}.
End File.

(** ** Errors

    The handlers throw [Error] objects carrying a [message] and a
    [statusCode]; errors raised by the ORM carry no status code and the
    error middleware answers them with 500.  [kind] classifies each throw
    site in the taxonomy of the design (it is not a field of the JavaScript
    object). *)

Inductive ErrorKind :=
  | VALIDATION | UNAUTHORIZED | FORBIDDEN | NOT_FOUND | CONFLICT | PRECONDITION
  | INTERNAL.

#[global] Instance ErrorKind_eq_dec : EqDecision ErrorKind.
Proof. solve_decision. Defined.

Record JsError := mkError {
  kind : ErrorKind;
  statusCode : option Z;
  message : string }.

(** The error middleware: the response has the status
    [err.statusCode || 500] and the body [{ error: true, message }], where
    the message is [err.message || 'Internal Server Error'].  (In
    development mode the body also echoes the stack trace of the error,
    which is not modelled.) *)
Record ErrorResponse := mkErrorResponse {
  response_status : Z;
  response_message : string }.

Definition errorHandler (err : JsError) : ErrorResponse :=
  {| response_status := default 500 (statusCode err);
     response_message :=
       if String.eqb (message err) "" then "Internal Server Error" else message err |}.

(** The kinds that the design lists as error results of an operation. *)
Definition listed_kind (k : ErrorKind) : bool :=
  match k with INTERNAL => false | _ => true end.

Definition http_error (k : ErrorKind) (code : Z) (msg : string) : JsError :=
  {| kind := k; statusCode := Some code; message := msg |}.

(** An error of the ORM client (unique or foreign key violation, record not
    found, invalid argument). *)
Definition prisma_error (msg : string) : JsError :=
  {| kind := INTERNAL; statusCode := None; message := msg |}.

(** A [TypeError] of the JavaScript runtime (a property read on [null]). *)
Definition type_error (msg : string) : JsError :=
  {| kind := INTERNAL; statusCode := None; message := msg |}.

(** An error of another library, thrown without a status code. *)
Definition library_error (msg : string) : JsError :=
  {| kind := INTERNAL; statusCode := None; message := msg |}.

(** ** Emails handed to the mail transport

    The recipient, the subject and the plain text of a message (the HTML
    part is left out).  [sendEmail] never throws: a failure of the
    transport is logged and dropped. *)

Record Email := mkEmail {
  to : string;
  subject : string;
  text : string }.

Definition dquote : string := String (Ascii.ascii_of_nat 34) EmptyString.

(** JavaScript truthiness of an optional string field: [undefined] and the
    empty string are falsy. *)
Definition truthy (v : option string) : bool :=
  match v with
  | Some s => negb (String.eqb s "")
  | None => false
  end.

(** The string held by a field, [""] standing for a missing one (only read
    after the field was tested truthy). *)
Definition str (v : option string) : string := default "" v.

(** ASCII upper-casing: what [toUpperCase] does on ASCII strings. *)
Definition ascii_upper (c : Ascii.ascii) : Ascii.ascii :=
  let n := Ascii.nat_of_ascii c in
  if ((97 <=? n) && (n <=? 122))%nat then Ascii.ascii_of_nat (n - 32) else c.

Fixpoint ascii_toUpperCase (s : string) : string :=
  match s with
  | EmptyString => EmptyString
  | String c s' => String (ascii_upper c) (ascii_toUpperCase s')
  end.

(** A body field that the handlers parse as a number. *)
Inductive JsVal {Num : Type} :=
  | JUndefined
  | JString (s : string)
  | JNumber (x : Num).
Arguments JsVal : clear implicits.

(** ** Requests

    [req.user] is the row that the authentication middleware selected for
    the bearer of the token; the bodies are the fields that the handlers
    destructure from [req.body], [None] for a missing one. *)

Module ReqUser.
Record t := mk {
  id : string;
  email : string;
  name : string;
  role : UserRole;
  avatar : option string }.
End ReqUser.

Module RegisterBody.
Record t := mk {
  name : option string;
  email : option string;
  password : option string;
  role : option string }.
End RegisterBody.

Module LoginBody.
Record t := mk {
  email : option string;
  password : option string }.
End LoginBody.

Module Budget.
Record t {Num : Type} := mk {
  min : option Num;
  max : option Num }.
Arguments t : clear implicits.
Arguments mk {Num}.
End Budget.

Module ProjectBody.
Record t {Num : Type} := mk {
  title : option string;
  description : option string;
  budget : option (Budget.t Num);
  deadline : option string }.
Arguments t : clear implicits.
Arguments mk {Num}.
End ProjectBody.

Module SelectBidBody.
Record t := mk {
  bidId : option string;
  sellerId : option string }.
End SelectBidBody.

Module BidBody.
Record t {Num : Type} := mk {
  projectId : option string;
  amount : JsVal Num;
  deliveryTime : JsVal Num;
  message : option string }.
Arguments t : clear implicits.
Arguments mk {Num}.
End BidBody.

(** A file stored by the multipart middleware. *)
Module Upload.
Record t {Num : Type} := mk {
  originalname : string;
  path : string;
  size : Num;
  mimetype : string }.
Arguments t : clear implicits.
Arguments mk {Num}.
End Upload.

(** ** Responses *)

(** A related user as selected by an [include]: id, name and, when
    selected, email. *)
Module UserRef.
Record t := mk {
  id : string;
  name : string;
  email : option string }.
End UserRef.

Module PublicUser.
Record t := mk {
  id : string;
  name : string;
  email : string;
  role : UserRole;
  avatar : option string;
  createdAt : Z }.
End PublicUser.

Record AuthPayload := mkAuthPayload {
  token : string;
  user : PublicUser.t }.

Module FileView.
Record t {Num : Type} := mk {
  id : string;
  name : string;
  url : string;
  size : Num;
  mimeType : string }.
Arguments t : clear implicits.
Arguments mk {Num}.
End FileView.

(** A project as sent back: the row (whose [budgetMin] and [budgetMax] the
    handlers regroup as [budget]) with the included relations; a relation
    that is null or not included is [None]. *)
Module ProjectView.
Record t {Num : Type} := mk {
  id : string;
  row : Project.t Num;
  buyer : option UserRef.t;
  seller : option UserRef.t;
  files : option (list (FileView.t Num)) }.
Arguments t : clear implicits.
Arguments mk {Num}.
End ProjectView.

Module BidView.
Record t {Num : Type} := mk {
  id : string;
  row : Bid.t Num;
  seller : option UserRef.t;
  project : option (string * string) }.
Arguments t : clear implicits.
Arguments mk {Num}.
End BidView.

(** The last segment of a path: [path.split('/').pop()]. *)
Fixpoint basename_from (acc s : string) : string :=
  match s with
  | EmptyString => acc
  | String c s' =>
      if Ascii.eqb c (Ascii.ascii_of_nat 47) then basename_from EmptyString s'
      else basename_from (acc ++ String c EmptyString) s'
  end.

Definition basename (s : string) : string := basename_from EmptyString s.

(** What [jwt.verify] does with a token: it returns the payload, of which
    the authentication middleware reads [userId] ([JwtNoUserId] is a
    verified payload that holds no [userId]), or throws one of the three
    errors of the library, of which the middleware recognises
    [JsonWebTokenError] and [TokenExpiredError] by name. *)
Inductive JwtResult :=
  | JwtOk (userId : string)
  | JwtNoUserId
  | JsonWebTokenError
  | TokenExpiredError
  | NotBeforeError.

(** [header.split(' ')[1]]: the second of the segments separated by a
    space, [""] standing for a missing one. *)
Fixpoint first_segment (s : string) : string :=
  match s with
  | EmptyString => EmptyString
  | String c s' =>
      if Ascii.eqb c (Ascii.ascii_of_nat 32) then EmptyString
      else String c (first_segment s')
  end.

Fixpoint second_segment (s : string) : string :=
  match s with
  | EmptyString => EmptyString
  | String c s' =>
      if Ascii.eqb c (Ascii.ascii_of_nat 32) then first_segment s'
      else second_segment s'
  end.

(** ** The database and the world *)

Record Store {Num : Type} := mkStore {
  users : gmap string User.t;
  projects : gmap string (Project.t Num);
  bids : gmap string (Bid.t Num);
  files : gmap string (File.t Num) }.
Arguments Store : clear implicits.
Arguments mkStore {Num}.

Record World {Num : Type} := mkWorld {
  db : Store Num;
  outbox : list Email }.
Arguments World : clear implicits.
Arguments mkWorld {Num}.

(** ** External collaborators

    What the handlers call and this repository does not define: JavaScript
    numbers and built-ins, bcrypt, jsonwebtoken, the id generator of the
    ORM and its check of a number against the type of a column. *)
Class Externals (Num : Type) := {
  (** truthiness of a number (false at 0 and NaN) *)
  num_truthy : Num -> bool;
  toUpperCase : string -> string;
  parseFloat : JsVal Num -> Num;
  parseInt : JsVal Num -> Num;
  (** [new Date(s)]: [None] is the Invalid Date, which the ORM refuses *)
  newDate : string -> option Z;
  (** whether the ORM accepts a number for an INTEGER column (an integer
      of 32 bits: not NaN, not beyond the range) and for a DOUBLE
      PRECISION column (every finite number; [parseFloat] also gives NaN
      and the infinities) *)
  fits_Int : Num -> bool;
  fits_Float : Num -> bool;
  (** [bcrypt.hash password salt] and [bcrypt.compare password hash] *)
  bcrypt_hash : string -> string -> string;
  bcrypt_compare : string -> string -> bool;
  (** [jwt.sign] of the payload [{userId, role}] at a given time *)
  jwt_sign : string -> UserRole -> Z -> string;
  (** [jwt.verify] of a token at a given time *)
  jwt_verify : string -> Z -> JwtResult;
  (** the id that the ORM generates, at a given time, for the row that is
      inserted next in a store *)
  uuid : Z -> Store Num -> string }.

(** ** The handler monad *)

Inductive Outcome (A : Type) :=
  | Return (a : A)
  | Throw (e : JsError).
Arguments Return {A} a.
Arguments Throw {A} e.

Definition Handler (Num : Type) (A : Type) : Type :=
  World Num -> Outcome A * World Num.

#[global] Instance M_ret {Num : Type} : MRet (Handler Num) := fun A a w => (Return a, w).

#[global] Instance M_bind {Num : Type} : MBind (Handler Num) := fun A B f m w =>
  match m w with
  | (Return a, w') => f a w'
  | (Throw e, w') => (Throw e, w')
  end.

Section Backend.

Context {Num : Type} `{!Externals Num}.

#[local] Abbreviation M := (Handler Num).

Definition js_truthy (v : JsVal Num) : bool :=
  match v with
  | JUndefined => false
  | JString s => negb (String.eqb s "")
  | JNumber x => num_truthy x
  end.

Definition throw {A : Type} (e : JsError) : M A := fun w => (Throw e, w).

(** [if (c) { throw e }] *)
Definition throw_if (c : bool) (e : JsError) : M unit :=
  if c then throw e else mret tt.

(** [if (!x) { throw e }] for the result of a query. *)
Definition found {A : Type} (x : option A) (e : JsError) : M A :=
  match x with
  | Some a => mret a
  | None => throw e
  end.

Definition read {A : Type} (f : Store Num -> A) : M A :=
  fun w => (Return (f (db w)), w).

Definition write (f : Store Num -> Store Num) : M unit :=
  fun w => (Return tt, {| db := f (db w); outbox := outbox w |}).

Definition sendEmail (mail : Email) : M unit :=
  fun w => (Return tt, {| db := db w; outbox := outbox w ++ [mail] |}).

(** ** The ORM client

    Each call is one statement: it either does its write or throws without
    writing.  A write is refused when a number that a handler parsed does
    not fit its column ([Bid.amount] is DOUBLE PRECISION, [Bid.deliveryTime]
    and [File.size] are INTEGER in the migration), and when it breaks the
    primary key, the unique index on [User.email] or a foreign key of the
    migration.
    [createdAt] defaults to the current time; [updatedAt], which is NOT
    NULL without a default in the migration and which no handler sets, is
    stamped by the client on every write. *)

Definition with_users (f : gmap string User.t -> gmap string User.t) (s : Store Num) : Store Num :=
  {| users := f (users s); projects := projects s; bids := bids s; files := files s |}.

Definition with_projects
    (f : gmap string (Project.t Num) -> gmap string (Project.t Num)) (s : Store Num) : Store Num :=
  {| users := users s; projects := f (projects s); bids := bids s; files := files s |}.

Definition with_bids (f : gmap string (Bid.t Num) -> gmap string (Bid.t Num)) (s : Store Num) : Store Num :=
  {| users := users s; projects := projects s; bids := f (bids s); files := files s |}.

Definition with_files (f : gmap string (File.t Num) -> gmap string (File.t Num)) (s : Store Num) : Store Num :=
  {| users := users s; projects := projects s; bids := bids s; files := f (files s) |}.

(** The first row of a table that satisfies [P], with its key. *)
Definition find_first {A : Type} (P : string -> A -> bool) (t : gmap string A)
    : option (string * A) :=
  List.find (fun kv => P kv.1 kv.2) (map_to_list t).

(** *** [prisma.user] *)

Definition user_findUnique (i : string) : M (option User.t) :=
  read (fun s => users s !! i).

Definition user_findUnique_email (e : string) : M (option (string * User.t)) :=
  read (fun s => find_first (fun _ u => bool_decide (User.email u = e)) (users s)).

Definition user_create (now : Z) (name email password : string) (role : UserRole)
    : M (string * User.t) :=
  s ← read (fun s => s);
  let i := uuid now s in
  throw_if (bool_decide (is_Some (users s !! i)))
    (prisma_error "Unique constraint failed on the fields: (id)");;
  throw_if (bool_decide (is_Some
      (find_first (fun _ u => bool_decide (User.email u = email)) (users s))))
    (prisma_error "Unique constraint failed on the fields: (email)");;
  let row := {| User.email := email; User.password := password; User.name := name;
                User.role := role; User.avatar := None;
                User.createdAt := now; User.updatedAt := now |} in
  write (with_users (insert i row));;
  mret (i, row).

(** *** [prisma.project] *)

Definition project_findUnique (i : string) : M (option (Project.t Num)) :=
  read (fun s => projects s !! i).

Definition project_create (now : Z) (title description : string)
    (budgetMin budgetMax : option Num) (deadline : option Z)
    (status : ProjectStatus.t) (buyer : string) : M (string * Project.t Num) :=
  s ← read (fun s => s);
  match budgetMin, budgetMax, deadline with
  | Some bmin, Some bmax, Some dl =>
      throw_if (bool_decide (users s !! buyer = None))
        (prisma_error "No User record was found for a connect on Project.buyer");;
      let i := uuid now s in
      throw_if (bool_decide (is_Some (projects s !! i)))
        (prisma_error "Unique constraint failed on the fields: (id)");;
      let row := {| Project.title := title; Project.description := description;
                    Project.budgetMin := bmin; Project.budgetMax := bmax;
                    Project.deadline := dl; Project.status := status;
                    Project.createdAt := now; Project.updatedAt := now;
                    Project.buyerId := buyer; Project.sellerId := None |} in
      write (with_projects (insert i row));;
      mret (i, row)
  | _, _, _ => throw (prisma_error "Invalid prisma.project.create() invocation")
  end.

(** The [data] of [prisma.project.update]: a field left [undefined] is not
    written.  [pd_deadline] is [Some None] for an Invalid Date. *)
Record ProjectData := mkProjectData {
  pd_title : option string;
  pd_description : option string;
  pd_budgetMin : option Num;
  pd_budgetMax : option Num;
  pd_deadline : option (option Z);
  pd_status : option ProjectStatus.t;
  pd_sellerId : option string }.

Definition project_set (now : Z) (d : ProjectData) (p : Project.t Num) : Project.t Num :=
  {| Project.title := default (Project.title p) (pd_title d);
     Project.description := default (Project.description p) (pd_description d);
     Project.budgetMin := default (Project.budgetMin p) (pd_budgetMin d);
     Project.budgetMax := default (Project.budgetMax p) (pd_budgetMax d);
     Project.deadline :=
       match pd_deadline d with Some (Some dl) => dl | _ => Project.deadline p end;
     Project.status := default (Project.status p) (pd_status d);
     Project.createdAt := Project.createdAt p;
     Project.updatedAt := now;
     Project.buyerId := Project.buyerId p;
     Project.sellerId :=
       match pd_sellerId d with Some sl => Some sl | None => Project.sellerId p end |}.

(** [data: { status: ..., sellerId: ... }] *)
Definition project_status_data (st : ProjectStatus.t) (sellerId : option string)
    : ProjectData :=
  {| pd_title := None; pd_description := None; pd_budgetMin := None;
     pd_budgetMax := None; pd_deadline := None;
     pd_status := Some st; pd_sellerId := sellerId |}.

Definition project_update (now : Z) (i : string) (d : ProjectData) : M (Project.t Num) :=
  s ← read (fun s => s);
  throw_if (bool_decide (pd_deadline d = Some None))
    (prisma_error "Invalid value for argument deadline: Provided Date object is invalid");;
  p ← found (projects s !! i) (prisma_error "Record to update not found");
  throw_if (match pd_sellerId d with
            | Some sl => bool_decide (users s !! sl = None)
            | None => false
            end)
    (prisma_error "Foreign key constraint failed on the field: Project_sellerId_fkey");;
  let p' := project_set now d p in
  write (with_projects (insert i p'));;
  mret p'.

(** [Bid_projectId_fkey] is ON DELETE RESTRICT and [File_projectId_fkey] is
    ON DELETE CASCADE in the migration. *)
Definition project_delete (i : string) : M unit :=
  s ← read (fun s => s);
  _ ← found (projects s !! i) (prisma_error "Record to delete does not exist");
  throw_if (bool_decide (is_Some
      (find_first (fun _ b => bool_decide (Bid.projectId b = i)) (bids s))))
    (prisma_error "Foreign key constraint failed on the field: Bid_projectId_fkey");;
  write (fun s => with_files (filter (fun kv => File.projectId kv.2 ≠ i))
                    (with_projects (delete i) s)).

(** *** [prisma.bid] *)

Definition bid_findUnique (i : string) : M (option (Bid.t Num)) :=
  read (fun s => bids s !! i).

Definition bid_findFirst (P : string -> Bid.t Num -> bool) : M (option (string * Bid.t Num)) :=
  read (fun s => find_first P (bids s)).

(** [orderBy: { createdAt: 'desc' }] *)
Definition createdAt_desc (a b : string * Bid.t Num) : Prop :=
  Bid.createdAt b.2 <= Bid.createdAt a.2.

#[global] Instance createdAt_desc_dec a b : Decision (createdAt_desc a b).
Proof. unfold createdAt_desc. apply _. Defined.

Definition bid_findMany (P : string -> Bid.t Num -> bool) : M (list (string * Bid.t Num)) :=
  read (fun s => merge_sort createdAt_desc
                   (List.filter (fun kv => P kv.1 kv.2) (map_to_list (bids s)))).

Definition bid_create (now : Z) (amount deliveryTime : Num) (message : string)
    (status : BidStatus.t) (project seller : string) : M (string * Bid.t Num) :=
  s ← read (fun s => s);
  throw_if (negb (fits_Float amount))
    (prisma_error "Invalid value for argument amount: not a Float");;
  throw_if (negb (fits_Int deliveryTime))
    (prisma_error "Invalid value for argument deliveryTime: not an Int");;
  throw_if (bool_decide (projects s !! project = None))
    (prisma_error "No Project record was found for a connect on Bid.project");;
  throw_if (bool_decide (users s !! seller = None))
    (prisma_error "No User record was found for a connect on Bid.seller");;
  let i := uuid now s in
  throw_if (bool_decide (is_Some (bids s !! i)))
    (prisma_error "Unique constraint failed on the fields: (id)");;
  let row := {| Bid.amount := amount; Bid.deliveryTime := deliveryTime;
                Bid.message := message; Bid.status := status;
                Bid.createdAt := now; Bid.updatedAt := now;
                Bid.projectId := project; Bid.sellerId := seller |} in
  write (with_bids (insert i row));;
  mret (i, row).

Record BidData := mkBidData {
  bd_amount : option Num;
  bd_deliveryTime : option Num;
  bd_message : option string;
  bd_status : option BidStatus.t }.

Definition bid_set (now : Z) (d : BidData) (b : Bid.t Num) : Bid.t Num :=
  {| Bid.amount := default (Bid.amount b) (bd_amount d);
     Bid.deliveryTime := default (Bid.deliveryTime b) (bd_deliveryTime d);
     Bid.message := default (Bid.message b) (bd_message d);
     Bid.status := default (Bid.status b) (bd_status d);
     Bid.createdAt := Bid.createdAt b;
     Bid.updatedAt := now;
     Bid.projectId := Bid.projectId b;
     Bid.sellerId := Bid.sellerId b |}.

(** [data: { status: ... }], the only data that [selectBid] writes to
    bids, with [update] and with [updateMany]. *)
Definition bid_status_data (st : BidStatus.t) : BidData :=
  {| bd_amount := None; bd_deliveryTime := None; bd_message := None;
     bd_status := Some st |}.

(** The numbers of the [data] fit their columns. *)
Definition bid_data_fits (d : BidData) : bool :=
  match bd_amount d with Some x => fits_Float x | None => true end
  && match bd_deliveryTime d with Some x => fits_Int x | None => true end.

Definition bid_update (now : Z) (i : string) (d : BidData) : M (Bid.t Num) :=
  s ← read (fun s => s);
  throw_if (negb (bid_data_fits d))
    (prisma_error "Invalid value for argument amount or deliveryTime");;
  b ← found (bids s !! i) (prisma_error "Record to update not found");
  let b' := bid_set now d b in
  write (with_bids (insert i b'));;
  mret b'.

Definition bid_updateMany (now : Z) (P : string -> Bid.t Num -> bool) (d : BidData) : M unit :=
  write (with_bids (map_imap (fun i b => Some (if P i b then bid_set now d b else b)))).

Definition bid_delete (i : string) : M unit :=
  s ← read (fun s => s);
  _ ← found (bids s !! i) (prisma_error "Record to delete does not exist");
  write (with_bids (delete i)).

(** *** [prisma.file] *)

Definition file_create (now : Z) (name path : string) (size : Num) (mimeType : string)
    (project : string) : M (string * File.t Num) :=
  s ← read (fun s => s);
  throw_if (negb (fits_Int size))
    (prisma_error "Invalid value for argument size: not an Int");;
  throw_if (bool_decide (projects s !! project = None))
    (prisma_error "No Project record was found for a connect on File.project");;
  let i := uuid now s in
  throw_if (bool_decide (is_Some (files s !! i)))
    (prisma_error "Unique constraint failed on the fields: (id)");;
  let row := {| File.name := name; File.path := path; File.size := size;
                File.mimeType := mimeType; File.createdAt := now;
                File.projectId := project |} in
  write (with_files (insert i row));;
  mret (i, row).

(** ** Auth controller *)

Definition role_of_string (s : string) : option UserRole :=
  if String.eqb s "BUYER" then Some BUYER
  else if String.eqb s "SELLER" then Some SELLER
  else None.

Definition generateToken (now : Z) (userId : string) (role : UserRole) : string :=
  jwt_sign userId role now.

Definition register (now : Z) (salt : string) (body : RegisterBody.t) : M AuthPayload :=
  let name := RegisterBody.name body in
  let email := RegisterBody.email body in
  let password := RegisterBody.password body in
  let role := RegisterBody.role body in
  throw_if (negb (truthy name) || negb (truthy email)
            || negb (truthy password) || negb (truthy role))
    (http_error VALIDATION 400 "All fields are required");;
  throw_if (negb (bool_decide (toUpperCase (str role) ∈ ["BUYER"; "SELLER"])))
    (http_error VALIDATION 400 "Role must be either BUYER or SELLER");;
  existingUser ← user_findUnique_email (str email);
  throw_if (bool_decide (is_Some existingUser))
    (http_error CONFLICT 409 "User with this email already exists");;
  let hashedPassword := bcrypt_hash (str password) salt in
  dbRole ← found (role_of_string (toUpperCase (str role)))
             (prisma_error "Invalid value for argument role");
  user ← user_create now (str name) (str email) hashedPassword dbRole;
  let token := generateToken now user.1 (User.role user.2) in
  mret {| token := token;
          user := {| PublicUser.id := user.1; PublicUser.name := User.name user.2;
                     PublicUser.email := User.email user.2;
                     PublicUser.role := User.role user.2;
                     PublicUser.avatar := None;
                     PublicUser.createdAt := User.createdAt user.2 |} |}.

Definition login (now : Z) (body : LoginBody.t) : M AuthPayload :=
  let email := LoginBody.email body in
  let password := LoginBody.password body in
  throw_if (negb (truthy email) || negb (truthy password))
    (http_error VALIDATION 400 "Email and password are required");;
  user ← user_findUnique_email (str email);
  user ← found user (http_error UNAUTHORIZED 401 "Invalid credentials");
  let isPasswordValid := bcrypt_compare (str password) (User.password user.2) in
  throw_if (negb isPasswordValid)
    (http_error UNAUTHORIZED 401 "Invalid credentials");;
  let token := generateToken now user.1 (User.role user.2) in
  mret {| token := token;
          user := {| PublicUser.id := user.1; PublicUser.name := User.name user.2;
                     PublicUser.email := User.email user.2;
                     PublicUser.role := User.role user.2;
                     PublicUser.avatar := User.avatar user.2;
                     PublicUser.createdAt := User.createdAt user.2 |} |}.

(** ** Role middleware *)

Definition requireBuyer (user : ReqUser.t) : M unit :=
  throw_if (bool_decide (ReqUser.role user ≠ BUYER))
    (http_error FORBIDDEN 403 "Access denied. Buyers only").

Definition requireSeller (user : ReqUser.t) : M unit :=
  throw_if (bool_decide (ReqUser.role user ≠ SELLER))
    (http_error FORBIDDEN 403 "Access denied. Sellers only").

Definition requireProjectOwner (user : ReqUser.t) (projectId : string) : M unit :=
  project ← project_findUnique projectId;
  project ← found project (http_error NOT_FOUND 404 "Project not found");
  throw_if (bool_decide (Project.buyerId project ≠ ReqUser.id user))
    (http_error FORBIDDEN 403 "Access denied. You do not own this project").

(** ** Project controller *)

(** The relation selected by [include: { buyer: { select: ... } }]. *)
Definition user_ref (withEmail : bool) (i : string) : M (option UserRef.t) :=
  read (fun s =>
    u ← users s !! i;
    Some {| UserRef.id := i; UserRef.name := User.name u;
            UserRef.email := if withEmail then Some (User.email u) else None |}).

Definition seller_ref (withEmail : bool) (i : option string) : M (option UserRef.t) :=
  match i with
  | Some i => user_ref withEmail i
  | None => mret None
  end.

Definition createProject (now : Z) (user : ReqUser.t) (body : ProjectBody.t Num)
    : M (ProjectView.t Num) :=
  throw_if (bool_decide (ReqUser.role user ≠ BUYER))
    (http_error FORBIDDEN 403 "Only buyers can create projects");;
  let title := ProjectBody.title body in
  let description := ProjectBody.description body in
  let budget := ProjectBody.budget body in
  let deadline := ProjectBody.deadline body in
  throw_if (negb (truthy title) || negb (truthy description)
            || negb (bool_decide (is_Some budget)) || negb (truthy deadline))
    (http_error VALIDATION 400 "All fields are required");;
  project ← project_create now (str title) (str description)
              (budget ≫= Budget.min) (budget ≫= Budget.max)
              (newDate (str deadline)) ProjectStatus.PENDING (ReqUser.id user);
  mret {| ProjectView.id := project.1; ProjectView.row := project.2;
          ProjectView.buyer :=
            Some {| UserRef.id := ReqUser.id user; UserRef.name := ReqUser.name user;
                    UserRef.email := None |};
          ProjectView.seller := None; ProjectView.files := None |}.

(** The [updateData] that [updateProject] builds from the body: a field is
    set when the body holds a truthy value for it. *)
Definition project_updateData (body : ProjectBody.t Num) : ProjectData :=
  let title := ProjectBody.title body in
  let description := ProjectBody.description body in
  let budget := ProjectBody.budget body in
  let deadline := ProjectBody.deadline body in
  {| pd_title := if truthy title then title else None;
     pd_description := if truthy description then description else None;
     pd_budgetMin := budget ≫= Budget.min;
     pd_budgetMax := budget ≫= Budget.max;
     pd_deadline := if truthy deadline then Some (newDate (str deadline)) else None;
     pd_status := None;
     pd_sellerId := None |}.

Definition updateProject (now : Z) (user : ReqUser.t) (projectId : string)
    (body : ProjectBody.t Num) : M (ProjectView.t Num) :=
  project ← project_findUnique projectId;
  project ← found project (http_error NOT_FOUND 404 "Project not found");
  throw_if (bool_decide (Project.buyerId project ≠ ReqUser.id user))
    (http_error FORBIDDEN 403 "You are not authorized to update this project");;
  throw_if (bool_decide (Project.status project ≠ ProjectStatus.PENDING))
    (http_error PRECONDITION 400
       "Cannot update a project that is already in progress or completed");;
  updatedProject ← project_update now projectId (project_updateData body);
  buyer ← user_ref false (Project.buyerId updatedProject);
  seller ← seller_ref false (Project.sellerId updatedProject);
  mret {| ProjectView.id := projectId; ProjectView.row := updatedProject;
          ProjectView.buyer := buyer; ProjectView.seller := seller;
          ProjectView.files := None |}.

Definition deleteProject (user : ReqUser.t) (projectId : string) : M string :=
  project ← project_findUnique projectId;
  project ← found project (http_error NOT_FOUND 404 "Project not found");
  throw_if (bool_decide (Project.buyerId project ≠ ReqUser.id user))
    (http_error FORBIDDEN 403 "You are not authorized to delete this project");;
  throw_if (bool_decide (Project.status project ≠ ProjectStatus.PENDING))
    (http_error PRECONDITION 400
       "Cannot delete a project that is already in progress or completed");;
  project_delete projectId;;
  mret "Project deleted successfully".

(** [where: { projectId, sellerId }] *)
Definition bid_of (projectId sellerId : string) (i : string) (b : Bid.t Num) : bool :=
  bool_decide (Bid.projectId b = projectId) && bool_decide (Bid.sellerId b = sellerId).

(** A bid of the list with its [seller] relation; the email is selected
    only for the project owner. *)
Definition bid_with_seller (withEmail : bool) (s : Store Num) (kv : string * Bid.t Num)
    : BidView.t Num :=
  {| BidView.id := kv.1; BidView.row := kv.2;
     BidView.seller :=
       (u ← users s !! Bid.sellerId kv.2;
        Some {| UserRef.id := Bid.sellerId kv.2; UserRef.name := User.name u;
                UserRef.email := if withEmail then Some (User.email u) else None |});
     BidView.project := None |}.

Definition getProjectBids (user : ReqUser.t) (projectId : string)
    : M (list (BidView.t Num)) :=
  project ← project_findUnique projectId;
  project ← found project (http_error NOT_FOUND 404 "Project not found");
  let isOwner := bool_decide (Project.buyerId project = ReqUser.id user) in
  throw_if (negb isOwner && bool_decide (ReqUser.role user ≠ SELLER))
    (http_error FORBIDDEN 403 "You are not authorized to view these bids");;
  (if negb isOwner && bool_decide (ReqUser.role user = SELLER) then
     hasBid ← bid_findFirst (bid_of projectId (ReqUser.id user));
     throw_if (negb (bool_decide (is_Some hasBid)))
       (http_error FORBIDDEN 403 "You are not authorized to view these bids")
   else mret tt);;
  bids ← bid_findMany (fun _ b => bool_decide (Bid.projectId b = projectId));
  s ← read (fun s => s);
  mret (List.map (bid_with_seller isOwner s) bids).

(** [where: { projectId, id: { not: bidId } }] *)
Definition other_bids_of (projectId bidId : string) (i : string) (b : Bid.t Num) : bool :=
  bool_decide (Bid.projectId b = projectId) && bool_decide (i ≠ bidId).

(** [where: { id: bidId, projectId, sellerId }] *)
Definition bid_matches (bidId projectId sellerId : string) (i : string) (b : Bid.t Num)
    : bool :=
  bool_decide (i = bidId)
  && bool_decide (Bid.projectId b = projectId)
  && bool_decide (Bid.sellerId b = sellerId).

Definition selectBid (now : Z) (user : ReqUser.t) (projectId : string)
    (body : SelectBidBody.t) : M (ProjectView.t Num) :=
  let bidId := SelectBidBody.bidId body in
  let sellerId := SelectBidBody.sellerId body in
  throw_if (negb (truthy bidId) || negb (truthy sellerId))
    (http_error VALIDATION 400 "Bid ID and Seller ID are required");;
  project ← project_findUnique projectId;
  project ← found project (http_error NOT_FOUND 404 "Project not found");
  throw_if (bool_decide (Project.buyerId project ≠ ReqUser.id user))
    (http_error FORBIDDEN 403 "You are not authorized to select a bid for this project");;
  throw_if (bool_decide (Project.status project ≠ ProjectStatus.PENDING))
    (http_error PRECONDITION 400
       "Cannot select a bid for a project that is already in progress or completed");;
  bid ← bid_findFirst (bid_matches (str bidId) projectId (str sellerId));
  bid ← found bid (http_error NOT_FOUND 404 "Bid not found or does not match the project");
  bidSeller ← user_findUnique (Bid.sellerId bid.2);
  updatedProject ← project_update now projectId
    (project_status_data ProjectStatus.IN_PROGRESS (Some (str sellerId)));
  buyer ← user_ref true (Project.buyerId updatedProject);
  seller ← seller_ref true (Project.sellerId updatedProject);
  bid_update now (str bidId) (bid_status_data BidStatus.ACCEPTED);;
  bid_updateMany now (other_bids_of projectId (str bidId))
    (bid_status_data BidStatus.REJECTED);;
  match bidSeller with
  | Some sl =>
      if negb (String.eqb (User.email sl) "") then
        sendEmail
          {| to := User.email sl;
             subject := "Your bid for " ++ dquote ++ Project.title project ++ dquote
                        ++ " has been accepted!";
             text := "Congratulations! Your bid for the project " ++ dquote
                     ++ Project.title project ++ dquote
                     ++ " has been accepted. You can now start working on the project." |}
      else mret tt
  | None => mret tt
  end;;
  mret {| ProjectView.id := projectId; ProjectView.row := updatedProject;
          ProjectView.buyer := buyer; ProjectView.seller := seller;
          ProjectView.files := None |}.

Definition completeProject (now : Z) (user : ReqUser.t) (projectId : string)
    : M (ProjectView.t Num) :=
  project ← project_findUnique projectId;
  project ← found project (http_error NOT_FOUND 404 "Project not found");
  projectSeller ← read (fun s => sl ← Project.sellerId project; users s !! sl);
  throw_if (bool_decide (Project.buyerId project ≠ ReqUser.id user))
    (http_error FORBIDDEN 403 "Only the project owner can mark it as completed");;
  throw_if (bool_decide (Project.status project ≠ ProjectStatus.IN_PROGRESS))
    (http_error PRECONDITION 400
       "Only projects that are in progress can be marked as completed");;
  updatedProject ← project_update now projectId
    (project_status_data ProjectStatus.COMPLETED None);
  buyer ← user_ref true (Project.buyerId updatedProject);
  seller ← seller_ref true (Project.sellerId updatedProject);
  match projectSeller with
  | Some sl =>
      if negb (String.eqb (User.email sl) "") then
        sendEmail
          {| to := User.email sl;
             subject := "Project " ++ dquote ++ Project.title project ++ dquote
                        ++ " has been marked as completed";
             text := "The project " ++ dquote ++ Project.title project ++ dquote
                     ++ " has been marked as completed by the client. Thank you for your work!" |}
      else mret tt
  | None => mret tt
  end;;
  mret {| ProjectView.id := projectId; ProjectView.row := updatedProject;
          ProjectView.buyer := buyer; ProjectView.seller := seller;
          ProjectView.files := None |}.

Definition file_view (i : string) (f : File.t Num) : FileView.t Num :=
  {| FileView.id := i; FileView.name := File.name f;
     FileView.url := "/uploads/" ++ basename (File.path f);
     FileView.size := File.size f; FileView.mimeType := File.mimeType f |}.

(** The [for (const file of req.files)] loop: one insert per file. *)
Fixpoint save_files (now : Z) (projectId : string) (fs : list (Upload.t Num))
    : M (list (FileView.t Num)) :=
  match fs with
  | [] => mret []
  | file :: fs' =>
      fileRecord ← file_create now (Upload.originalname file) (Upload.path file)
                     (Upload.size file) (Upload.mimetype file) projectId;
      rest ← save_files now projectId fs';
      mret (file_view fileRecord.1 fileRecord.2 :: rest)
  end.

Definition uploadProjectFiles (now : Z) (user : ReqUser.t) (projectId : string)
    (reqFiles : option (list (Upload.t Num))) : M (ProjectView.t Num) :=
  project ← project_findUnique projectId;
  project ← found project (http_error NOT_FOUND 404 "Project not found");
  let isAuthorized :=
    bool_decide (ReqUser.id user = Project.buyerId project)
    || (truthy (Project.sellerId project)
        && bool_decide (Some (ReqUser.id user) = Project.sellerId project)) in
  throw_if (negb isAuthorized)
    (http_error FORBIDDEN 403 "You are not authorized to upload files to this project");;
  throw_if (match reqFiles with Some (_ :: _) => false | _ => true end)
    (http_error VALIDATION 400 "No files uploaded");;
  _ ← save_files now projectId (default [] reqFiles);
  updatedProject ← project_findUnique projectId;
  updatedProject ← found updatedProject
    (type_error "Cannot read properties of null (reading 'files')");
  buyer ← user_ref false (Project.buyerId updatedProject);
  seller ← seller_ref false (Project.sellerId updatedProject);
  projectFiles ← read (fun s =>
    List.filter (fun kv => bool_decide (File.projectId kv.2 = projectId))
      (map_to_list (files s)));
  let formattedFiles := List.map (fun kv => file_view kv.1 kv.2) projectFiles in
  mret {| ProjectView.id := projectId; ProjectView.row := updatedProject;
          ProjectView.buyer := buyer; ProjectView.seller := seller;
          ProjectView.files := Some formattedFiles |}.

(** ** Bid controller *)

Definition createBid (now : Z) (user : ReqUser.t) (body : BidBody.t Num)
    : M (BidView.t Num) :=
  throw_if (bool_decide (ReqUser.role user ≠ SELLER))
    (http_error FORBIDDEN 403 "Only sellers can create bids");;
  let projectId := BidBody.projectId body in
  let amount := BidBody.amount body in
  let deliveryTime := BidBody.deliveryTime body in
  let message := BidBody.message body in
  throw_if (negb (truthy projectId) || negb (js_truthy amount)
            || negb (js_truthy deliveryTime) || negb (truthy message))
    (http_error VALIDATION 400 "All fields are required");;
  project ← project_findUnique (str projectId);
  project ← found project (http_error NOT_FOUND 404 "Project not found");
  projectBuyer ← user_findUnique (Project.buyerId project);
  throw_if (bool_decide (Project.status project ≠ ProjectStatus.PENDING))
    (http_error PRECONDITION 400
       "Cannot bid on a project that is already in progress or completed");;
  existingBid ← bid_findFirst (bid_of (str projectId) (ReqUser.id user));
  throw_if (bool_decide (is_Some existingBid))
    (http_error CONFLICT 400 "You have already placed a bid on this project");;
  bid ← bid_create now (parseFloat amount) (parseInt deliveryTime) (str message)
          BidStatus.PENDING (str projectId) (ReqUser.id user);
  seller ← user_ref true (Bid.sellerId bid.2);
  match projectBuyer with
  | Some br =>
      if negb (String.eqb (User.email br) "") then
        sendEmail
          {| to := User.email br;
             subject := "New bid on your project " ++ dquote ++ Project.title project
                        ++ dquote;
             text := "A new bid has been placed on your project " ++ dquote
                     ++ Project.title project ++ dquote ++ ". Check it out!" |}
      else mret tt
  | None => mret tt
  end;;
  mret {| BidView.id := bid.1; BidView.row := bid.2; BidView.seller := seller;
          BidView.project := None |}.

(** [bid.status !== 'PENDING' || bid.project.status !== 'PENDING'], where
    [bid.project] is the relation included by the query: the right operand
    is only read when the left one is false. *)
Definition bid_not_pending (bid : Bid.t Num) : M bool :=
  if bool_decide (Bid.status bid ≠ BidStatus.PENDING) then mret true
  else
    project ← project_findUnique (Bid.projectId bid);
    project ← found project
      (type_error "Cannot read properties of null (reading 'status')");
    mret (bool_decide (Project.status project ≠ ProjectStatus.PENDING)).

(** The [updateData] that [updateBid] builds from the body. *)
Definition bid_updateData (body : BidBody.t Num) : BidData :=
  let amount := BidBody.amount body in
  let deliveryTime := BidBody.deliveryTime body in
  let message := BidBody.message body in
  {| bd_amount := if js_truthy amount then Some (parseFloat amount) else None;
     bd_deliveryTime :=
       if js_truthy deliveryTime then Some (parseInt deliveryTime) else None;
     bd_message := if truthy message then message else None;
     bd_status := None |}.

Definition updateBid (now : Z) (user : ReqUser.t) (bidId : string) (body : BidBody.t Num)
    : M (BidView.t Num) :=
  bid ← bid_findUnique bidId;
  bid ← found bid (http_error NOT_FOUND 404 "Bid not found");
  throw_if (bool_decide (Bid.sellerId bid ≠ ReqUser.id user))
    (http_error FORBIDDEN 403 "You are not authorized to update this bid");;
  notPending ← bid_not_pending bid;
  throw_if notPending
    (http_error PRECONDITION 400
       "Cannot update a bid that has already been accepted or rejected");;
  updatedBid ← bid_update now bidId (bid_updateData body);
  seller ← user_ref false (Bid.sellerId updatedBid);
  project ← read (fun s =>
    p ← projects s !! Bid.projectId updatedBid;
    Some (Bid.projectId updatedBid, Project.title p));
  mret {| BidView.id := bidId; BidView.row := updatedBid; BidView.seller := seller;
          BidView.project := project |}.

Definition deleteBid (user : ReqUser.t) (bidId : string) : M string :=
  bid ← bid_findUnique bidId;
  bid ← found bid (http_error NOT_FOUND 404 "Bid not found");
  throw_if (bool_decide (Bid.sellerId bid ≠ ReqUser.id user))
    (http_error FORBIDDEN 403 "You are not authorized to delete this bid");;
  notPending ← bid_not_pending bid;
  throw_if notPending
    (http_error PRECONDITION 400
       "Cannot delete a bid that has already been accepted or rejected");;
  bid_delete bidId;;
  mret "Bid deleted successfully".

(** ** Authentication middleware *)

Definition authenticate (now : Z) (authorization : option string) : M ReqUser.t :=
  throw_if (negb (truthy authorization)
            || negb (String.prefix "Bearer " (str authorization)))
    (http_error UNAUTHORIZED 401 "Authorization token required");;
  let token := second_segment (str authorization) in
  match jwt_verify token now with
  | JwtOk userId =>
      user ← user_findUnique userId;
      user ← found user (http_error UNAUTHORIZED 401 "User not found");
      mret {| ReqUser.id := userId; ReqUser.email := User.email user;
              ReqUser.name := User.name user; ReqUser.role := User.role user;
              ReqUser.avatar := User.avatar user |}
  | JwtNoUserId =>
      throw (prisma_error "Argument where needs at least one of id or email arguments")
  | JsonWebTokenError => throw (http_error UNAUTHORIZED 401 "Invalid token")
  | TokenExpiredError => throw (http_error UNAUTHORIZED 401 "Token expired")
  | NotBeforeError => throw (library_error "jwt not active")
  end.

(** ** Routes

    The operations of the system.  A public operation runs its controller;
    a protected one runs the authentication middleware, the role
    middleware of its route and then its controller.  The routes that only
    read (the project and bid listings of a user, a project or a bid by
    id, the profile) write nothing and are served apart, by [serve_read]
    below, except the listing of the bids of a project. *)

Inductive PublicOp :=
  | Register (now : Z) (salt : string) (body : RegisterBody.t)
  | Login (now : Z) (body : LoginBody.t).

Inductive ProtectedOp :=
  | CreateProject (now : Z) (body : ProjectBody.t Num)
  | UpdateProject (now : Z) (projectId : string) (body : ProjectBody.t Num)
  | DeleteProject (projectId : string)
  | GetProjectBids (projectId : string)
  | SelectBid (now : Z) (projectId : string) (body : SelectBidBody.t)
  | CompleteProject (now : Z) (projectId : string)
  | UploadProjectFiles (now : Z) (projectId : string)
      (reqFiles : option (list (Upload.t Num)))
  | CreateBid (now : Z) (body : BidBody.t Num)
  | UpdateBid (now : Z) (bidId : string) (body : BidBody.t Num)
  | DeleteBid (bidId : string).

(** The outcome of a handler without its payload. *)
Definition done_ {A : Type} (m : M A) : M unit := m ;; mret tt.

Definition public (op : PublicOp) : M unit :=
  match op with
  | Register now salt body => done_ (register now salt body)
  | Login now body => done_ (login now body)
  end.

Definition controller (user : ReqUser.t) (op : ProtectedOp) : M unit :=
  match op with
  | CreateProject now body => done_ (createProject now user body)
  | UpdateProject now projectId body => done_ (updateProject now user projectId body)
  | DeleteProject projectId => done_ (deleteProject user projectId)
  | GetProjectBids projectId => done_ (getProjectBids user projectId)
  | SelectBid now projectId body => done_ (selectBid now user projectId body)
  | CompleteProject now projectId => done_ (completeProject now user projectId)
  | UploadProjectFiles now projectId reqFiles =>
      done_ (uploadProjectFiles now user projectId reqFiles)
  | CreateBid now body => done_ (createBid now user body)
  | UpdateBid now bidId body => done_ (updateBid now user bidId body)
  | DeleteBid bidId => done_ (deleteBid user bidId)
  end.

Definition middleware (user : ReqUser.t) (op : ProtectedOp) : M unit :=
  match op with
  | CreateProject _ _ => requireBuyer user
  | UpdateProject _ projectId _ | DeleteProject projectId
  | SelectBid _ projectId _ | CompleteProject _ projectId =>
      requireProjectOwner user projectId
  | CreateBid _ _ | UpdateBid _ _ _ | DeleteBid _ => requireSeller user
  | GetProjectBids _ | UploadProjectFiles _ _ _ => mret tt
  end.

Inductive Request :=
  | Public (op : PublicOp)
  | Protected (now : Z) (authorization : option string) (op : ProtectedOp).

Definition serve (r : Request) : M unit :=
  match r with
  | Public op => public op
  | Protected now authorization op =>
      user ← authenticate now authorization;
      middleware user op;;
      controller user op
  end.

Definition init : World Num :=
  {| db := {| users := ∅; projects := ∅; bids := ∅; files := ∅ |}; outbox := [] |}.

(** The states of the system: those that requests lead to from the empty
    database. *)
Inductive reachable : World Num -> Prop :=
  | reachable_init : reachable init
  | reachable_serve w r : reachable w -> reachable (serve r w).2.

(** [user] is what the authentication middleware attaches to a request in
    store [s]. *)
Definition authenticated (s : Store Num) (user : ReqUser.t) : Prop :=
  exists u, users s !! ReqUser.id user = Some u
            /\ ReqUser.role user = User.role u
            /\ ReqUser.email user = User.email u
            /\ ReqUser.name user = User.name u.

(** ** The transitions of the store

    What a request can do to the database, as a transition system that the
    handlers refine: [effect user s s'] for a handler run on behalf of
    [user], [public_effect s s'] for the two routes without
    authentication. *)

Inductive public_effect (s : Store Num) : Store Num -> Prop :=
  | public_none : public_effect s s
  | public_register now u :
      users s !! uuid now s = None ->
      find_first (fun _ u' => bool_decide (User.email u' = User.email u)) (users s) = None ->
      User.email u <> "" ->
      public_effect s (with_users (insert (uuid now s) u) s).

Inductive effect (user : ReqUser.t) (s : Store Num) : Store Num -> Prop :=
  | effect_none : effect user s s
  | effect_createProject now p :
      ReqUser.role user = BUYER ->
      is_Some (users s !! ReqUser.id user) ->
      projects s !! uuid now s = None ->
      Project.status p = ProjectStatus.PENDING ->
      Project.buyerId p = ReqUser.id user ->
      Project.sellerId p = None ->
      effect user s (with_projects (insert (uuid now s) p) s)
  | effect_updateProject now projectId body p :
      projects s !! projectId = Some p ->
      Project.buyerId p = ReqUser.id user ->
      Project.status p = ProjectStatus.PENDING ->
      effect user s
        (with_projects (insert projectId (project_set now (project_updateData body) p)) s)
  | effect_deleteProject projectId p :
      projects s !! projectId = Some p ->
      Project.buyerId p = ReqUser.id user ->
      Project.status p = ProjectStatus.PENDING ->
      find_first (fun _ b => bool_decide (Bid.projectId b = projectId)) (bids s) = None ->
      effect user s
        (with_files (filter (fun kv => File.projectId kv.2 ≠ projectId))
           (with_projects (delete projectId) s))
  | effect_selectBid now projectId bid seller p b :
      projects s !! projectId = Some p ->
      Project.buyerId p = ReqUser.id user ->
      Project.status p = ProjectStatus.PENDING ->
      bids s !! bid = Some b ->
      Bid.projectId b = projectId ->
      Bid.sellerId b = seller ->
      is_Some (users s !! seller) ->
      effect user s
        (with_bids (map_imap (fun i b' =>
                      Some (if other_bids_of projectId bid i b'
                            then bid_set now (bid_status_data BidStatus.REJECTED) b'
                            else b')))
           (with_bids (insert bid (bid_set now (bid_status_data BidStatus.ACCEPTED) b))
              (with_projects
                 (insert projectId
                    (project_set now
                       (project_status_data ProjectStatus.IN_PROGRESS (Some seller)) p))
                 s)))
  | effect_completeProject now projectId p :
      projects s !! projectId = Some p ->
      Project.buyerId p = ReqUser.id user ->
      Project.status p = ProjectStatus.IN_PROGRESS ->
      effect user s
        (with_projects
           (insert projectId
              (project_set now (project_status_data ProjectStatus.COMPLETED None) p)) s)
  | effect_upload fs :
      effect user s (with_files (fun _ => fs) s)
  | effect_createBid now projectId p b :
      ReqUser.role user = SELLER ->
      projects s !! projectId = Some p ->
      Project.status p = ProjectStatus.PENDING ->
      find_first (bid_of projectId (ReqUser.id user)) (bids s) = None ->
      is_Some (users s !! ReqUser.id user) ->
      bids s !! uuid now s = None ->
      Bid.status b = BidStatus.PENDING ->
      Bid.projectId b = projectId ->
      Bid.sellerId b = ReqUser.id user ->
      effect user s (with_bids (insert (uuid now s) b) s)
  | effect_updateBid now bidId body b p :
      bids s !! bidId = Some b ->
      Bid.sellerId b = ReqUser.id user ->
      Bid.status b = BidStatus.PENDING ->
      projects s !! Bid.projectId b = Some p ->
      Project.status p = ProjectStatus.PENDING ->
      effect user s (with_bids (insert bidId (bid_set now (bid_updateData body) b)) s)
  | effect_deleteBid bidId b p :
      bids s !! bidId = Some b ->
      Bid.sellerId b = ReqUser.id user ->
      Bid.status b = BidStatus.PENDING ->
      projects s !! Bid.projectId b = Some p ->
      Project.status p = ProjectStatus.PENDING ->
      effect user s (with_bids (delete bidId) s).

(** The order of the project lifecycle. *)
Definition status_next (a b : ProjectStatus.t) : bool :=
  match a, b with
  | ProjectStatus.PENDING, ProjectStatus.IN_PROGRESS
  | ProjectStatus.IN_PROGRESS, ProjectStatus.COMPLETED => true
  | _, _ => false
  end.

(** A status stays or moves one step forward. *)
Definition status_forward (a b : ProjectStatus.t) : Prop :=
  a = b \/ status_next a b = true.

(** [views] lists the bids of the project in store [s]: every bid of the
    project has a view, and every view is a bid of the project with its
    seller, whose email is shown exactly when [withEmail]. *)
Definition lists_bids (s : Store Num) (projectId : string) (withEmail : bool)
    (views : list (BidView.t Num)) : Prop :=
  (forall i b, bids s !! i = Some b -> Bid.projectId b = projectId ->
     exists v, v ∈ views /\ BidView.id v = i /\ BidView.row v = b)
  /\ (forall v, v ∈ views ->
        exists b u,
          bids s !! BidView.id v = Some b
          /\ Bid.projectId b = projectId
          /\ BidView.row v = b
          /\ users s !! Bid.sellerId b = Some u
          /\ BidView.seller v
             = Some {| UserRef.id := Bid.sellerId b; UserRef.name := User.name u;
                       UserRef.email :=
                         if withEmail then Some (User.email u) else None |}).

(** ** Consistency of the store *)

(** The owner of a project is a registered buyer. *)
Definition owner_is_buyer (s : Store Num) : Prop :=
  forall i p, projects s !! i = Some p ->
    exists u, users s !! Project.buyerId p = Some u /\ User.role u = BUYER.

(** The seller of a bid is a registered user. *)
Definition bid_seller_exists (s : Store Num) : Prop :=
  forall i b, bids s !! i = Some b -> is_Some (users s !! Bid.sellerId b).

(** No seller holds two bids on one project. *)
Definition one_bid_per_seller (s : Store Num) : Prop :=
  forall i j bi bj,
    bids s !! i = Some bi -> bids s !! j = Some bj ->
    Bid.projectId bi = Bid.projectId bj -> Bid.sellerId bi = Bid.sellerId bj ->
    i = j.

Definition consistent (s : Store Num) : Prop :=
  owner_is_buyer s /\ bid_seller_exists s /\ one_bid_per_seller s.

End Backend.

(** * The handlers that only read

    The listings of the project and bid controllers, the lookups by id and
    the profile.  Their queries need three more collaborators: the case
    conversion of JavaScript, the case-insensitive [contains] of the ORM
    and the order of the database on text and on numbers. *)

Class QueryExternals (Num : Type) := {
  toLowerCase : string -> string;
  (** [{ contains: needle, mode: 'insensitive' }] on a column value *)
  contains_insensitive : string -> string -> bool;
  text_leb : string -> string -> bool;
  num_leb : Num -> Num -> bool }.

(** [s.split(sep)[0]] and [s.split(sep)[1]], [""] standing for a missing
    second segment. *)
Fixpoint split_0 (sep : Ascii.ascii) (s : string) : string :=
  match s with
  | EmptyString => EmptyString
  | String c s' => if Ascii.eqb c sep then EmptyString else String c (split_0 sep s')
  end.

Fixpoint split_1 (sep : Ascii.ascii) (s : string) : string :=
  match s with
  | EmptyString => EmptyString
  | String c s' => if Ascii.eqb c sep then split_0 sep s' else split_1 sep s'
  end.

Definition underscore : Ascii.ascii := Ascii.ascii_of_nat 95.

(** The query string of [GET /projects]. *)
Module ProjectQuery.
Record t := mk {
  status : option string;
  search : option string;
  sort : option string }.
End ProjectQuery.

(** A project of a listing or of a lookup by id: the row with the included
    relations, the count of its bids and its file rows, each [None] when
    the handler does not select it. *)
Module ProjectItem.
Record t {Num : Type} := mk {
  id : string;
  row : Project.t Num;
  buyer : option UserRef.t;
  seller : option UserRef.t;
  bidCount : option nat;
  files : option (list (string * File.t Num)) }.
Arguments t : clear implicits.
Arguments mk {Num}.
End ProjectItem.

(** The project of a bid as selected by the bid controller; the deadline,
    the budget and the buyer are selected by the listing of a seller's
    bids only. *)
Module ProjectSummary.
Record t {Num : Type} := mk {
  id : string;
  title : string;
  status : ProjectStatus.t;
  buyerId : string;
  deadline : option Z;
  budgetMin : option Num;
  budgetMax : option Num;
  buyer : option UserRef.t }.
Arguments t : clear implicits.
Arguments mk {Num}.
End ProjectSummary.

Module BidDetail.
Record t {Num : Type} := mk {
  id : string;
  row : Bid.t Num;
  seller : option UserRef.t;
  project : ProjectSummary.t Num }.
Arguments t : clear implicits.
Arguments mk {Num}.
End BidDetail.

(** [new Map(entries)]: a key keeps the place of its first entry and the
    value of its last one. *)
Fixpoint map_set {A : Type} (k : string) (v : A) (l : list (string * A))
    : list (string * A) :=
  match l with
  | [] => [(k, v)]
  | (k', v') :: l' =>
      if String.eqb k' k then (k, v) :: l' else (k', v') :: map_set k v l'
  end.

Definition js_Map {A : Type} (entries : list (string * A)) : list (string * A) :=
  fold_left (fun acc kv => map_set kv.1 kv.2 acc) entries [].

Section Reads.

Context {Num : Type} `{!Externals Num} `{!QueryExternals Num}.

#[local] Abbreviation M := (Handler Num).

(** *** [prisma.project.findMany] *)

Definition status_of_string (s : string) : option ProjectStatus.t :=
  if String.eqb s "PENDING" then Some ProjectStatus.PENDING
  else if String.eqb s "IN_PROGRESS" then Some ProjectStatus.IN_PROGRESS
  else if String.eqb s "COMPLETED" then Some ProjectStatus.COMPLETED
  else None.

(** The [where] of the project listings. *)
Record ProjectWhere := mkProjectWhere {
  pw_status : option string;
  pw_search : option string;
  pw_buyerId : option string;
  pw_sellerId : option string }.

Definition holds_if {A : Type} (c : option A) (P : A -> bool) : bool :=
  match c with
  | Some a => P a
  | None => true
  end.

Definition project_matches (wh : ProjectWhere) (kv : string * Project.t Num) : bool :=
  holds_if (pw_status wh)
    (fun st => bool_decide (status_of_string st = Some (Project.status kv.2)))
  && holds_if (pw_search wh)
       (fun q => contains_insensitive (Project.title kv.2) q
                 || contains_insensitive (Project.description kv.2) q)
  && holds_if (pw_buyerId wh) (fun b => bool_decide (Project.buyerId kv.2 = b))
  && holds_if (pw_sellerId wh) (fun sl => bool_decide (Project.sellerId kv.2 = Some sl)).

(** The order of the enum values is the order of their declaration. *)
Definition status_rank (st : ProjectStatus.t) : Z :=
  match st with
  | ProjectStatus.PENDING => 0
  | ProjectStatus.IN_PROGRESS => 1
  | ProjectStatus.COMPLETED => 2
  end.

(** Ascending order on a nullable column: nulls come last. *)
Definition nulls_last {A : Type} (leb : A -> A -> bool) (a b : option A) : bool :=
  match a, b with
  | Some x, Some y => leb x y
  | _, None => true
  | None, Some _ => false
  end.

(** The ascending order of the rows on a column, [None] for a name that is
    not a column of the table. *)
Definition project_column_leb (field : string)
    : option (string * Project.t Num -> string * Project.t Num -> bool) :=
  if String.eqb field "id" then Some (fun a b => text_leb a.1 b.1)
  else if String.eqb field "title" then
    Some (fun a b => text_leb (Project.title a.2) (Project.title b.2))
  else if String.eqb field "description" then
    Some (fun a b => text_leb (Project.description a.2) (Project.description b.2))
  else if String.eqb field "budgetMin" then
    Some (fun a b => num_leb (Project.budgetMin a.2) (Project.budgetMin b.2))
  else if String.eqb field "budgetMax" then
    Some (fun a b => num_leb (Project.budgetMax a.2) (Project.budgetMax b.2))
  else if String.eqb field "deadline" then
    Some (fun a b => Project.deadline a.2 <=? Project.deadline b.2)
  else if String.eqb field "status" then
    Some (fun a b => status_rank (Project.status a.2) <=? status_rank (Project.status b.2))
  else if String.eqb field "createdAt" then
    Some (fun a b => Project.createdAt a.2 <=? Project.createdAt b.2)
  else if String.eqb field "updatedAt" then
    Some (fun a b => Project.updatedAt a.2 <=? Project.updatedAt b.2)
  else if String.eqb field "buyerId" then
    Some (fun a b => text_leb (Project.buyerId a.2) (Project.buyerId b.2))
  else if String.eqb field "sellerId" then
    Some (fun a b => nulls_last text_leb (Project.sellerId a.2) (Project.sellerId b.2))
  else None.

(** [orderBy: { [field]: direction }] *)
Definition project_order (orderBy : string * string)
    : option (string * Project.t Num -> string * Project.t Num -> bool) :=
  leb ← project_column_leb orderBy.1;
  if String.eqb orderBy.2 "asc" then Some leb
  else if String.eqb orderBy.2 "desc" then Some (fun a b => leb b a)
  else None.

(** The client refuses a [where] whose status is no value of the enum and
    an [orderBy] that names no column or no direction. *)
Definition project_findMany (wh : ProjectWhere) (orderBy : string * string)
    : M (list (string * Project.t Num)) :=
  throw_if (match pw_status wh with
            | Some st => bool_decide (status_of_string st = None)
            | None => false
            end)
    (prisma_error "Invalid value for argument status. Expected ProjectStatus");;
  leb ← found (project_order orderBy)
          (prisma_error "Invalid value for argument orderBy");
  read (fun s => merge_sort (fun a b => Is_true (leb a b))
                   (List.filter (project_matches wh) (map_to_list (projects s)))).

(** ** Project controller: listings *)

Definition bid_count (s : Store Num) (projectId : string) : nat :=
  length (List.filter (fun kv => bool_decide (Bid.projectId kv.2 = projectId))
            (map_to_list (bids s))).

Definition project_files (s : Store Num) (projectId : string)
    : list (string * File.t Num) :=
  List.filter (fun kv => bool_decide (File.projectId kv.2 = projectId))
    (map_to_list (files s)).

Definition included_user (withEmail : bool) (s : Store Num) (i : string)
    : option UserRef.t :=
  u ← users s !! i;
  Some {| UserRef.id := i; UserRef.name := User.name u;
          UserRef.email := if withEmail then Some (User.email u) else None |}.

(** The three shapes of the projects of [getAllProjects]. *)
Definition buyer_item (s : Store Num) (kv : string * Project.t Num) : ProjectItem.t Num :=
  {| ProjectItem.id := kv.1; ProjectItem.row := kv.2;
     ProjectItem.buyer := included_user true s (Project.buyerId kv.2);
     ProjectItem.seller := Project.sellerId kv.2 ≫= included_user true s;
     ProjectItem.bidCount := Some (bid_count s kv.1);
     ProjectItem.files := Some (project_files s kv.1) |}.

Definition pending_item (s : Store Num) (kv : string * Project.t Num) : ProjectItem.t Num :=
  {| ProjectItem.id := kv.1; ProjectItem.row := kv.2;
     ProjectItem.buyer := included_user false s (Project.buyerId kv.2);
     ProjectItem.seller := None;
     ProjectItem.bidCount := Some (bid_count s kv.1);
     ProjectItem.files := None |}.

Definition assigned_item (s : Store Num) (kv : string * Project.t Num)
    : ProjectItem.t Num :=
  {| ProjectItem.id := kv.1; ProjectItem.row := kv.2;
     ProjectItem.buyer := included_user false s (Project.buyerId kv.2);
     ProjectItem.seller := Project.sellerId kv.2 ≫= included_user false s;
     ProjectItem.bidCount := None;
     ProjectItem.files := None |}.

(** The [orderBy] that [getAllProjects] builds from [sort]. *)
Definition project_orderBy (sort : option string) : string * string :=
  if truthy sort then
    let field := split_0 underscore (str sort) in
    let direction := split_1 underscore (str sort) in
    if negb (String.eqb field "") && negb (String.eqb direction "")
    then (field, toLowerCase direction)
    else ("createdAt", "desc")
  else ("createdAt", "desc").

Definition getAllProjects (user : ReqUser.t) (query : ProjectQuery.t)
    : M (list (ProjectItem.t Num)) :=
  let status := ProjectQuery.status query in
  let search := ProjectQuery.search query in
  let filter_status := if truthy status then Some (toUpperCase (str status)) else None in
  let filter_search := if truthy search then search else None in
  let orderBy := project_orderBy (ProjectQuery.sort query) in
  if bool_decide (ReqUser.role user = BUYER) then
    projects ← project_findMany
      {| pw_status := filter_status; pw_search := filter_search;
         pw_buyerId := Some (ReqUser.id user); pw_sellerId := None |} orderBy;
    s ← read (fun s => s);
    mret (List.map (buyer_item s) projects)
  else if bool_decide (ReqUser.role user = SELLER) then
    pendingProjects ← project_findMany
      {| pw_status := Some "PENDING"; pw_search := filter_search;
         pw_buyerId := None; pw_sellerId := None |} orderBy;
    sellerProjects ← project_findMany
      {| pw_status := None; pw_search := None;
         pw_buyerId := None; pw_sellerId := Some (ReqUser.id user) |} orderBy;
    s ← read (fun s => s);
    let projects :=
      (List.map (pending_item s) pendingProjects
       ++ List.map (assigned_item s) sellerProjects)%list in
    mret (List.map snd (js_Map (List.map (fun p => (ProjectItem.id p, p)) projects)))
  else mret [].

Definition getProjectById (projectId : string) : M (ProjectItem.t Num) :=
  project ← project_findUnique projectId;
  project ← found project (http_error NOT_FOUND 404 "Project not found");
  s ← read (fun s => s);
  mret {| ProjectItem.id := projectId; ProjectItem.row := project;
          ProjectItem.buyer := included_user true s (Project.buyerId project);
          ProjectItem.seller := Project.sellerId project ≫= included_user true s;
          ProjectItem.bidCount := None;
          ProjectItem.files := Some (project_files s projectId) |}.

(** ** Bid controller: listing and lookup *)

(** A bid of [getSellerBids] with its project; [None] when the project
    relation is null, on which the handler's formatting throws. *)
Definition seller_bid (s : Store Num) (kv : string * Bid.t Num)
    : option (BidDetail.t Num) :=
  p ← projects s !! Bid.projectId kv.2;
  Some {| BidDetail.id := kv.1; BidDetail.row := kv.2; BidDetail.seller := None;
          BidDetail.project :=
            {| ProjectSummary.id := Bid.projectId kv.2;
               ProjectSummary.title := Project.title p;
               ProjectSummary.status := Project.status p;
               ProjectSummary.buyerId := Project.buyerId p;
               ProjectSummary.deadline := Some (Project.deadline p);
               ProjectSummary.budgetMin := Some (Project.budgetMin p);
               ProjectSummary.budgetMax := Some (Project.budgetMax p);
               ProjectSummary.buyer := included_user false s (Project.buyerId p) |} |}.

Definition getSellerBids (user : ReqUser.t) : M (list (BidDetail.t Num)) :=
  throw_if (bool_decide (ReqUser.role user ≠ SELLER))
    (http_error FORBIDDEN 403 "Only sellers can access their bids");;
  bids ← bid_findMany (fun _ b => bool_decide (Bid.sellerId b = ReqUser.id user));
  s ← read (fun s => s);
  found (mapM (seller_bid s) bids)
    (type_error "Cannot read properties of null (reading 'budgetMin')").

Definition getBidById (user : ReqUser.t) (bidId : string) : M (BidDetail.t Num) :=
  bid ← bid_findUnique bidId;
  bid ← found bid (http_error NOT_FOUND 404 "Bid not found");
  s ← read (fun s => s);
  let isOwner := bool_decide (Bid.sellerId bid = ReqUser.id user) in
  project ← found (projects s !! Bid.projectId bid)
    (type_error "Cannot read properties of null (reading 'buyerId')");
  let isProjectOwner := bool_decide (Project.buyerId project = ReqUser.id user) in
  throw_if (negb isOwner && negb isProjectOwner)
    (http_error FORBIDDEN 403 "You are not authorized to view this bid");;
  mret {| BidDetail.id := bidId; BidDetail.row := bid;
          BidDetail.seller := included_user true s (Bid.sellerId bid);
          BidDetail.project :=
            {| ProjectSummary.id := Bid.projectId bid;
               ProjectSummary.title := Project.title project;
               ProjectSummary.status := Project.status project;
               ProjectSummary.buyerId := Project.buyerId project;
               ProjectSummary.deadline := None;
               ProjectSummary.budgetMin := None;
               ProjectSummary.budgetMax := None;
               ProjectSummary.buyer := None |} |}.

(** ** Auth controller: profile *)

Definition getProfile (user : ReqUser.t) : M ReqUser.t := mret user.

(** ** The routes that only read

    The project and bid routers put [authenticate] before every route and
    [requireSeller] before the listing of a seller's bids.  The router of
    the auth controller is not among the sources: [getProfile] answers
    with the user that the authentication middleware attached to the
    request, so its route is taken to be behind [authenticate] as well. *)

Inductive ReadOp :=
  | GetAllProjects (query : ProjectQuery.t)
  | GetProjectById (projectId : string)
  | GetSellerBids
  | GetBidById (bidId : string)
  | GetProfile.

Definition read_controller (user : ReqUser.t) (op : ReadOp) : M unit :=
  match op with
  | GetAllProjects query => done_ (getAllProjects user query)
  | GetProjectById projectId => done_ (getProjectById projectId)
  | GetSellerBids => done_ (getSellerBids user)
  | GetBidById bidId => done_ (getBidById user bidId)
  | GetProfile => done_ (getProfile user)
  end.

Definition read_middleware (user : ReqUser.t) (op : ReadOp) : M unit :=
  match op with
  | GetSellerBids => requireSeller user
  | _ => mret tt
  end.

Definition serve_read (now : Z) (authorization : option string) (op : ReadOp) : M unit :=
  user ← authenticate now authorization;
  read_middleware user op;;
  read_controller user op.

End Reads.

(** ** The lifecycle of projects and bids

    What the handlers maintain between the status of a project, its
    assigned seller and the statuses of its bids. *)

Section Lifecycle.

Context {Num : Type}.

Implicit Types (s : Store Num).

(** A project has a seller exactly when it has left PENDING. *)
Definition seller_iff_started s : Prop :=
  forall i p, projects s !! i = Some p ->
    (Project.sellerId p = None <-> Project.status p = ProjectStatus.PENDING).

(** The project of a bid is in the store. *)
Definition bid_project_exists s : Prop :=
  forall i b, bids s !! i = Some b -> is_Some (projects s !! Bid.projectId b).

(** A bid is PENDING exactly as long as its project is. *)
Definition bids_follow_project s : Prop :=
  forall i b p, bids s !! i = Some b -> projects s !! Bid.projectId b = Some p ->
    (Bid.status b = BidStatus.PENDING <-> Project.status p = ProjectStatus.PENDING).

(** The seller of an ACCEPTED bid is the seller assigned to its project. *)
Definition accepted_is_assigned s : Prop :=
  forall i b p, bids s !! i = Some b -> projects s !! Bid.projectId b = Some p ->
    Bid.status b = BidStatus.ACCEPTED -> Project.sellerId p = Some (Bid.sellerId b).

(** A project that has left PENDING has an ACCEPTED bid. *)
Definition started_has_accepted s : Prop :=
  forall i p, projects s !! i = Some p -> Project.status p <> ProjectStatus.PENDING ->
    exists j b, bids s !! j = Some b /\ Bid.projectId b = i
                /\ Bid.status b = BidStatus.ACCEPTED.

Definition lifecycle s : Prop :=
  seller_iff_started s /\ bid_project_exists s /\ bids_follow_project s
  /\ accepted_is_assigned s /\ started_has_accepted s.

(** No two users share an email. *)
Definition email_unique s : Prop :=
  forall i j ui uj, users s !! i = Some ui -> users s !! j = Some uj ->
    User.email ui = User.email uj -> i = j.

End Lifecycle.

(** * A sample deployment

    A concrete choice of the external collaborators, with numbers carried
    by [Z], and the scenario of the design: buyer B posts a project, the
    sellers S1 and S2 bid on it, B selects the bid of S1 and completes the
    project.  The properties below are run on it. *)

Module Demo.

(** Ids are drawn in sequence: [id0], [id1], ... *)
Definition next_id (now : Z) (s : Store Z) : string :=
  "id" ++ pretty (size (users s) + size (projects s) + size (bids s) + size (files s))%nat.

Definition number_of (v : JsVal Z) : Z :=
  match v with
  | JNumber x => x
  | _ => 0
  end.

#[global] Instance externals : Externals Z := {|
  num_truthy := fun x => negb (x =? 0);
  toUpperCase := ascii_toUpperCase;
  parseFloat := number_of;
  parseInt := number_of;
  newDate := fun s => if String.eqb s "" then None else Some (Z.of_nat (String.length s));
  fits_Int := fun x => bool_decide (-2147483648 <= x < 2147483648);
  fits_Float := fun _ => true;
  bcrypt_hash := fun password salt => password ++ "$" ++ salt;
  bcrypt_compare := fun password hash => String.prefix (password ++ "$") hash;
  jwt_sign := fun userId _ _ => userId;
  jwt_verify := fun token _ =>
    if String.eqb token "" then JsonWebTokenError
    else if String.eqb token "early" then NotBeforeError
    else JwtOk token;
  uuid := next_id |}.

Definition after (rq : @Request Z) (w : World Z) : World Z := (serve rq w).2.

Definition registration (name email role : string) : @Request Z :=
  Public (Register 1 "salt"
    {| RegisterBody.name := Some name; RegisterBody.email := Some email;
       RegisterBody.password := Some "secret"; RegisterBody.role := Some role |}).

(** B, S1 and S2 register: they get the ids [id0], [id1] and [id2]. *)
Definition w_users : World Z :=
  after (registration "S2" "s2@example.org" "SELLER")
    (after (registration "S1" "s1@example.org" "SELLER")
       (after (registration "B" "b@example.org" "BUYER") init)).

Definition B : ReqUser.t :=
  {| ReqUser.id := "id0"; ReqUser.email := "b@example.org"; ReqUser.name := "B";
     ReqUser.role := BUYER; ReqUser.avatar := None |}.

Definition S1 : ReqUser.t :=
  {| ReqUser.id := "id1"; ReqUser.email := "s1@example.org"; ReqUser.name := "S1";
     ReqUser.role := SELLER; ReqUser.avatar := None |}.

Definition S2 : ReqUser.t :=
  {| ReqUser.id := "id2"; ReqUser.email := "s2@example.org"; ReqUser.name := "S2";
     ReqUser.role := SELLER; ReqUser.avatar := None |}.

(** B posts the project [id3] with budget 100 to 200. *)
Definition w_project : World Z :=
  after (Protected 2 (Some "Bearer id0")
           (CreateProject 2
              {| ProjectBody.title := Some "Logo"; ProjectBody.description := Some "A logo";
                 ProjectBody.budget := Some {| Budget.min := Some 100; Budget.max := Some 200 |};
                 ProjectBody.deadline := Some "2030-01-01" |}))
    w_users.

Definition bid_body (amount days : Z) : BidBody.t Z :=
  {| BidBody.projectId := Some "id3"; BidBody.amount := JNumber amount;
     BidBody.deliveryTime := JNumber days; BidBody.message := Some "I can do it" |}.

(** S1 bids 150 in 3 days (bid [id4]), S2 bids 180 in 5 days (bid [id5]). *)
Definition w_bids : World Z :=
  after (Protected 4 (Some "Bearer id2") (CreateBid 4 (bid_body 180 5)))
    (after (Protected 3 (Some "Bearer id1") (CreateBid 3 (bid_body 150 3))) w_project).

Definition select_S1 : SelectBidBody.t :=
  {| SelectBidBody.bidId := Some "id4"; SelectBidBody.sellerId := Some "id1" |}.

(** B selects the bid of S1, then completes the project. *)
Definition w_selected : World Z :=
  after (Protected 5 (Some "Bearer id0") (SelectBid 5 "id3" select_S1)) w_bids.

Definition w_completed : World Z :=
  after (Protected 6 (Some "Bearer id0") (CompleteProject 6 "id3")) w_selected.

(** A third seller S3 registers (id [id6]) while the project is PENDING and
    places no bid. *)
Definition w_third : World Z :=
  after (registration "S3" "s3@example.org" "SELLER") w_bids.

Definition S3 : ReqUser.t :=
  {| ReqUser.id := "id6"; ReqUser.email := "s3@example.org"; ReqUser.name := "S3";
     ReqUser.role := SELLER; ReqUser.avatar := None |}.

(** B renames the project while it is PENDING. *)
Definition rename_body : ProjectBody.t Z :=
  {| ProjectBody.title := Some "Logo v2"; ProjectBody.description := None;
     ProjectBody.budget := None; ProjectBody.deadline := None |}.

(** The collaborators of the queries: ASCII case folding, substring search
    and the orders of [String] and [Z]. *)
Definition ascii_lower (c : Ascii.ascii) : Ascii.ascii :=
  let n := Ascii.nat_of_ascii c in
  if ((65 <=? n) && (n <=? 90))%nat then Ascii.ascii_of_nat (n + 32) else c.

Fixpoint ascii_toLowerCase (s : string) : string :=
  match s with
  | EmptyString => EmptyString
  | String c s' => String (ascii_lower c) (ascii_toLowerCase s')
  end.

#[global] Instance query_externals : QueryExternals Z := {|
  toLowerCase := ascii_toLowerCase;
  contains_insensitive := fun value needle =>
    bool_decide (is_Some (String.index 0 (ascii_toLowerCase needle)
                            (ascii_toLowerCase value)));
  text_leb := String.leb;
  num_leb := Z.leb |}.

(** After the selection B posts a second project [id6], on which S2 places
    the bid [id7]. *)
Definition w_second : World Z :=
  after (Protected 8 (Some "Bearer id2")
           (CreateBid 8
              {| BidBody.projectId := Some "id6"; BidBody.amount := JNumber 90;
                 BidBody.deliveryTime := JNumber 2; BidBody.message := Some "Mine" |}))
    (after (Protected 7 (Some "Bearer id0")
              (CreateProject 7
                 {| ProjectBody.title := Some "Website";
                    ProjectBody.description := Some "A landing page";
                    ProjectBody.budget :=
                      Some {| Budget.min := Some 300; Budget.max := Some 500 |};
                    ProjectBody.deadline := Some "2030-06-01" |}))
       w_selected).

Definition no_query : ProjectQuery.t :=
  {| ProjectQuery.status := None; ProjectQuery.search := None;
     ProjectQuery.sort := None |}.

(** The registration of B, a file that B attaches to the project and a
    rewording of a bid that also sends an amount of 0. *)
Definition B_body : RegisterBody.t :=
  {| RegisterBody.name := Some "B"; RegisterBody.email := Some "b@example.org";
     RegisterBody.password := Some "secret"; RegisterBody.role := Some "BUYER" |}.

Definition sketch : Upload.t Z :=
  {| Upload.originalname := "sketch.png"; Upload.path := "uploads/1700-sketch.png";
     Upload.size := 2048; Upload.mimetype := "image/png" |}.

Definition reword_body : BidBody.t Z :=
  {| BidBody.projectId := Some "id6"; BidBody.amount := JNumber 0;
     BidBody.deliveryTime := JUndefined; BidBody.message := Some "Two days less" |}.

End Demo.

(** * Properties *)

(** Running a handler: unfold the monad and split on every test. *)
Create HintDb prisma discriminated.

#[global] Hint Unfold user_findUnique user_findUnique_email user_create
  project_findUnique project_create project_update project_delete
  bid_findUnique bid_findFirst bid_findMany bid_create bid_update bid_updateMany
  bid_delete bid_not_pending file_create user_ref seller_ref : prisma.

Ltac munfold :=
  repeat autounfold with prisma in *;
  unfold done_, throw_if, found, throw, read, write, sendEmail in *;
  unfold mbind, M_bind, mret, M_ret in *.

Ltac mcases :=
  repeat (simpl in *; simplify_eq;
          try match goal with
              | H : context [match ?x with _ => _ end] |- _ => destruct x eqn:?
              | H : context [if ?x then _ else _] |- _ => destruct x eqn:?
              end).

Lemma find_first_Some {A : Type} (P : string -> A -> bool) (t : gmap string A) k v :
  find_first P t = Some (k, v) -> t !! k = Some v /\ P k v = true.
Proof.
  unfold find_first. intros H. apply List.find_some in H as [Hin HP].
  split; [|exact HP].
  apply elem_of_map_to_list. by apply list_elem_of_In.
Qed.

Lemma find_first_None {A : Type} (P : string -> A -> bool) (t : gmap string A) :
  find_first P t = None <-> forall k v, t !! k = Some v -> P k v = false.
Proof.
  unfold find_first. split.
  - intros H k v Hkv.
    apply (List.find_none _ _ H (k, v)).
    apply list_elem_of_In. by apply elem_of_map_to_list.
  - intros H. destruct (List.find _ _) as [[k v]|] eqn:E; [|done].
    apply List.find_some in E as [Hin HP]. simpl in HP.
    apply list_elem_of_In, elem_of_map_to_list in Hin.
    rewrite (H _ _ Hin) in HP. discriminate.
Qed.

Lemma truthy_Some v : truthy v = true -> exists x, v = Some x /\ x <> "" /\ str v = x.
Proof.
  destruct v as [x|]; simpl; [|done]. intros Hx. exists x. split; [done|]. split; [|done].
  intros ->. done.
Qed.

(** Turning the tests passed on a path into facts. *)
Ltac mfacts :=
  repeat match goal with
       | H : _ || _ = false |- _ => apply orb_false_elim in H as [? ?]
       | H : _ && _ = true |- _ => apply andb_prop in H as [? ?]
       | H : negb _ = false |- _ => apply negb_false_iff in H
       | H : negb _ = true |- _ => apply negb_true_iff in H
       | H : truthy _ = true |- _ => apply truthy_Some in H as (? & ? & ? & ?)
       | H : bool_decide _ = false |- _ => apply bool_decide_eq_false in H
       | H : bool_decide _ = true |- _ => apply bool_decide_eq_true in H
       | H : ¬ _ ≠ _ |- _ => apply dec_stable in H
       | H : ¬ is_Some _ |- _ => apply eq_None_not_Some in H
       | H : ?x ≠ None |- _ => apply not_eq_None_Some in H
       | H : find_first _ _ = Some (_, _) |- _ => apply find_first_Some in H as [? ?]
       | H : find_first _ _ = Some ?x |- _ => destruct x
       | H : ?x = Some _, H' : ?x = Some _ |- _ => rewrite H in H'
       | H : ?x = Some _, H' : ?x = None |- _ => rewrite H in H'
       | _ => progress (simpl in *; simplify_eq)
       end.

Ltac unchanged := left; eexists; split; reflexivity.

Section Properties.

Context {Num : Type} `{!Externals Num}.

#[local] Abbreviation M := (Handler Num).

Implicit Types (w : World Num) (s : Store Num) (user : ReqUser.t) (e : JsError).
Implicit Types (now : Z) (projectId bidId : string).


(** ** What each handler does to the world

    Every handler either throws and leaves the world as it was, or returns
    after the writes listed here. *)

Lemma login_spec now body w r w' :
  login now body w = (r, w') -> w' = w.
Proof.
  unfold login. munfold. intros H. mcases; done.
Qed.

Lemma register_spec now salt body w r w' :
  register now salt body w = (r, w') ->
  (exists e, r = Throw e /\ w' = w)
  \/ (exists v u,
        r = Return v
        /\ truthy (RegisterBody.name body) = true
        /\ truthy (RegisterBody.email body) = true
        /\ truthy (RegisterBody.password body) = true
        /\ truthy (RegisterBody.role body) = true
        /\ toUpperCase (str (RegisterBody.role body)) ∈ ["BUYER"; "SELLER"]
        /\ RegisterBody.email body = Some (User.email u)
        /\ User.email u <> ""
        /\ role_of_string (toUpperCase (str (RegisterBody.role body))) = Some (User.role u)
        /\ find_first (fun _ u' => bool_decide (User.email u' = User.email u))
             (users (db w)) = None
        /\ users (db w) !! uuid now (db w) = None
        /\ w' = {| db := with_users (insert (uuid now (db w)) u) (db w);
                   outbox := outbox w |}).
Proof.
  unfold register. munfold. intros H0.
  mcases; try unchanged.
  right. eexists _, (User.mk _ _ _ _ _ _ _). simpl.
  repeat match goal with
         | H : _ || _ = false |- _ => apply orb_false_elim in H as [? ?]
         | H : negb _ = false |- _ => apply negb_false_iff in H
         end.
  split; [done|]. do 4 (split; [done|]).
  split; [by eapply bool_decide_eq_true_1|].
  mfacts. repeat (split; [done|]). done.
Qed.

Lemma selectBid_spec now user projectId body w r w' :
  selectBid now user projectId body w = (r, w') ->
  (exists e, r = Throw e /\ w' = w)
  \/ (exists v bid seller p b,
        r = Return v
        /\ SelectBidBody.bidId body = Some bid
        /\ SelectBidBody.sellerId body = Some seller
        /\ projects (db w) !! projectId = Some p
        /\ Project.buyerId p = ReqUser.id user
        /\ Project.status p = ProjectStatus.PENDING
        /\ bids (db w) !! bid = Some b
        /\ Bid.projectId b = projectId
        /\ Bid.sellerId b = seller
        /\ is_Some (users (db w) !! seller)
        /\ db w' =
             with_bids (map_imap (fun i b' =>
                          Some (if other_bids_of projectId bid i b'
                                then bid_set now (bid_status_data BidStatus.REJECTED) b'
                                else b')))
               (with_bids (insert bid (bid_set now (bid_status_data BidStatus.ACCEPTED) b))
                  (with_projects
                     (insert projectId
                        (project_set now
                           (project_status_data ProjectStatus.IN_PROGRESS (Some seller)) p))
                     (db w)))).
Proof.
  unfold selectBid. munfold. intros H0.
  mcases; try unchanged.
  all: mfacts; unfold bid_matches in *; mfacts.
  all: right; do 5 eexists; repeat (split; [done|]); done.
Qed.

Lemma createProject_spec now user body w r w' :
  createProject now user body w = (r, w') ->
  (exists e, r = Throw e /\ w' = w)
  \/ (exists v p,
        r = Return v
        /\ ReqUser.role user = BUYER
        /\ is_Some (users (db w) !! ReqUser.id user)
        /\ projects (db w) !! uuid now (db w) = None
        /\ Project.status p = ProjectStatus.PENDING
        /\ Project.buyerId p = ReqUser.id user
        /\ Project.sellerId p = None
        /\ w' = {| db := with_projects (insert (uuid now (db w)) p) (db w);
                   outbox := outbox w |}).
Proof.
  unfold createProject. munfold. intros H0.
  mcases; try unchanged.
  mfacts. right. eexists _, (Project.mk _ _ _ _ _ _ _ _ _ _). simpl.
  repeat (split; [done|]). done.
Qed.

Lemma updateProject_spec now user projectId body w r w' :
  updateProject now user projectId body w = (r, w') ->
  (exists e, r = Throw e /\ w' = w)
  \/ (exists v p,
        r = Return v
        /\ projects (db w) !! projectId = Some p
        /\ Project.buyerId p = ReqUser.id user
        /\ Project.status p = ProjectStatus.PENDING
        /\ ProjectView.row v = project_set now (project_updateData body) p
        /\ w' = {| db := with_projects
                           (insert projectId (project_set now (project_updateData body) p))
                           (db w);
                   outbox := outbox w |}).
Proof.
  unfold updateProject. munfold. intros H0.
  mcases; try unchanged.
  all: mfacts; right; do 2 eexists; repeat (split; [done|]); done.
Qed.

Lemma deleteProject_spec user projectId w r w' :
  deleteProject user projectId w = (r, w') ->
  (exists e, r = Throw e /\ w' = w)
  \/ (exists v p,
        r = Return v
        /\ projects (db w) !! projectId = Some p
        /\ Project.buyerId p = ReqUser.id user
        /\ Project.status p = ProjectStatus.PENDING
        /\ find_first (fun _ b => bool_decide (Bid.projectId b = projectId))
             (bids (db w)) = None
        /\ w' = {| db := with_files (filter (fun kv => File.projectId kv.2 ≠ projectId))
                           (with_projects (delete projectId) (db w));
                   outbox := outbox w |}).
Proof.
  unfold deleteProject. munfold. intros H0.
  mcases; try unchanged.
  all: mfacts; right; do 2 eexists; repeat (split; [done|]); done.
Qed.

Lemma completeProject_spec now user projectId w r w' :
  completeProject now user projectId w = (r, w') ->
  (exists e, r = Throw e /\ w' = w)
  \/ (exists v p,
        r = Return v
        /\ projects (db w) !! projectId = Some p
        /\ Project.buyerId p = ReqUser.id user
        /\ Project.status p = ProjectStatus.IN_PROGRESS
        /\ db w' = with_projects
                     (insert projectId
                        (project_set now
                           (project_status_data ProjectStatus.COMPLETED None) p))
                     (db w)).
Proof.
  unfold completeProject. munfold. intros H0.
  mcases; try unchanged.
  all: mfacts; right; do 2 eexists; repeat (split; [done|]); done.
Qed.

Lemma getProjectBids_reads user projectId w r w' :
  getProjectBids user projectId w = (r, w') -> w' = w.
Proof.
  unfold getProjectBids. munfold. intros H0. mcases; done.
Qed.

Lemma save_files_spec now projectId (fs : list (Upload.t Num)) w r w' :
  save_files now projectId fs w = (r, w') ->
  users (db w') = users (db w)
  /\ projects (db w') = projects (db w)
  /\ bids (db w') = bids (db w)
  /\ outbox w' = outbox w
  /\ (forall e, r = Throw e -> kind e = INTERNAL).
Proof.
  revert w r w'. induction fs as [|f fs IH]; intros w r w' H0.
  - simpl in H0. munfold. simplify_eq. done.
  - simpl in H0. munfold.
    destruct (negb (fits_Int (Upload.size f)));
      [simplify_eq; repeat split; try done; by intros ? [= <-]|].
    simpl in H0.
    destruct (bool_decide (projects (db w) !! projectId = None));
      [simplify_eq; repeat split; try done; by intros ? [= <-]|].
    destruct (bool_decide (is_Some (files (db w) !! uuid now (db w))));
      [simplify_eq; repeat split; try done; by intros ? [= <-]|].
    simpl in H0.
    destruct (save_files now projectId fs _) as [r1 w1] eqn:E1.
    apply IH in E1 as (Hu & Hp & Hb & Ho & He). simpl in *.
    destruct r1; simplify_eq; repeat split; try done.
    all: try (intros e' [= ->]; by apply He).
Qed.

Lemma uploadProjectFiles_spec now user projectId reqFiles w r w' :
  uploadProjectFiles now user projectId reqFiles w = (r, w') ->
  users (db w') = users (db w)
  /\ projects (db w') = projects (db w)
  /\ bids (db w') = bids (db w)
  /\ outbox w' = outbox w
  /\ (forall e, r = Throw e -> listed_kind (kind e) = true -> w' = w).
Proof.
  unfold uploadProjectFiles. munfold. intros H0.
  destruct (projects (db w) !! projectId) as [p|] eqn:Hp; [|by simplify_eq].
  simpl in H0.
  destruct (negb _); [by simplify_eq|].
  destruct (match reqFiles with Some (_ :: _) => false | _ => true end);
    [by simplify_eq|].
  simpl in H0.
  destruct (save_files now projectId (default [] reqFiles) w) as [r1 w1] eqn:E1.
  apply save_files_spec in E1 as (Hu & Hpr & Hb & Ho & He).
  destruct r1 as [a|e1].
  - destruct (projects (db w1) !! projectId) as [t|]; simpl in H0;
      [destruct (Project.sellerId t); simpl in H0|]; simplify_eq;
      repeat split; try done.
    intros e' [= <-] Hk. discriminate.
  - simplify_eq. repeat split; try done.
    intros e' [= <-] Hk. rewrite (He e1 eq_refl) in Hk. discriminate.
Qed.

Lemma createBid_spec now user body w r w' :
  createBid now user body w = (r, w') ->
  (exists e, r = Throw e /\ w' = w)
  \/ (exists v pid p b,
        r = Return v
        /\ ReqUser.role user = SELLER
        /\ BidBody.projectId body = Some pid
        /\ projects (db w) !! pid = Some p
        /\ Project.status p = ProjectStatus.PENDING
        /\ find_first (bid_of pid (ReqUser.id user)) (bids (db w)) = None
        /\ is_Some (users (db w) !! ReqUser.id user)
        /\ bids (db w) !! uuid now (db w) = None
        /\ Bid.status b = BidStatus.PENDING
        /\ Bid.projectId b = pid
        /\ Bid.sellerId b = ReqUser.id user
        /\ db w' = with_bids (insert (uuid now (db w)) b) (db w)).
Proof.
  unfold createBid. munfold. intros H0.
  mcases; try unchanged.
  all: mfacts; right; eexists _, _, _, (Bid.mk _ _ _ _ _ _ _ _); simpl.
  all: repeat (split; [done|]); done.
Qed.

Lemma updateBid_spec now user bidId body w r w' :
  updateBid now user bidId body w = (r, w') ->
  (exists e, r = Throw e /\ w' = w)
  \/ (exists v b p,
        r = Return v
        /\ bids (db w) !! bidId = Some b
        /\ Bid.sellerId b = ReqUser.id user
        /\ Bid.status b = BidStatus.PENDING
        /\ projects (db w) !! Bid.projectId b = Some p
        /\ Project.status p = ProjectStatus.PENDING
        /\ w' = {| db := with_bids
                           (insert bidId (bid_set now (bid_updateData body) b)) (db w);
                   outbox := outbox w |}).
Proof.
  unfold updateBid. munfold. intros H0.
  mcases; try unchanged.
  all: mfacts; right; do 3 eexists; repeat (split; [done|]); done.
Qed.

Lemma deleteBid_spec user bidId w r w' :
  deleteBid user bidId w = (r, w') ->
  (exists e, r = Throw e /\ w' = w)
  \/ (exists v b p,
        r = Return v
        /\ bids (db w) !! bidId = Some b
        /\ Bid.sellerId b = ReqUser.id user
        /\ Bid.status b = BidStatus.PENDING
        /\ projects (db w) !! Bid.projectId b = Some p
        /\ Project.status p = ProjectStatus.PENDING
        /\ w' = {| db := with_bids (delete bidId) (db w); outbox := outbox w |}).
Proof.
  unfold deleteBid. munfold. intros H0.
  mcases; try unchanged.
  all: mfacts; right; do 3 eexists; repeat (split; [done|]); done.
Qed.

Lemma authenticate_spec now authorization w r w' :
  authenticate now authorization w = (r, w') ->
  w' = w /\ (forall user, r = Return user -> authenticated (db w) user).
Proof.
  unfold authenticate, authenticated. munfold. intros H0.
  mcases; split; try done.
  intros user [= <-]. eexists. split; [done|]. done.
Qed.

Lemma middleware_reads user (op : ProtectedOp) w r w' :
  middleware user op w = (r, w') -> w' = w.
Proof.
  destruct op; simpl; unfold requireBuyer, requireSeller, requireProjectOwner;
    munfold; intros H0; mcases; done.
Qed.

(** ** The handlers refine the transition system *)

Lemma done_spec {A : Type} (m : M A) w r w' :
  done_ m w = (r, w') ->
  exists r0, m w = (r0, w')
             /\ match r0 with Return _ => r = Return tt | Throw e => r = Throw e end.
Proof.
  unfold done_. munfold. destruct (m w) as [[a|e] w1]; intros [= <- <-]; eexists; split; done.
Qed.

Lemma public_refines (op : PublicOp) w r w' :
  public op w = (r, w') -> public_effect (db w) (db w').
Proof.
  destruct op as [now salt body|now body]; simpl; intros (r0 & H0 & _)%done_spec.
  - apply register_spec in H0
      as [(e & -> & ->)|(v & u & -> & _ & _ & _ & _ & _ & ? & ? & ? & ? & ? & ->)];
      [constructor|]. simpl. by constructor.
  - apply login_spec in H0 as ->. constructor.
Qed.

Lemma controller_refines user (op : ProtectedOp) w r w' :
  controller user op w = (r, w') -> effect user (db w) (db w').
Proof.
  destruct op; simpl; intros (r0 & H0 & _)%done_spec.
  - apply createProject_spec in H0 as [(e & -> & ->)|(v & p & -> & ? & ? & ? & ? & ? & ? & ->)];
      [constructor|]. simpl. by constructor.
  - apply updateProject_spec in H0 as [(e & -> & ->)|(v & p & -> & ? & ? & ? & ? & ->)];
      [constructor|]. simpl. by constructor.
  - apply deleteProject_spec in H0 as [(e & -> & ->)|(v & p & -> & ? & ? & ? & ? & ->)];
      [constructor|]. simpl. by econstructor.
  - apply getProjectBids_reads in H0 as ->. constructor.
  - apply selectBid_spec in H0
      as [(e & -> & ->)|(v & bid & seller & p & b & -> & ? & ? & ? & ? & ? & ? & ? & ? & ? & ->)];
      [constructor|]. by constructor.
  - apply completeProject_spec in H0 as [(e & -> & ->)|(v & p & -> & ? & ? & ? & ->)];
      [constructor|]. by constructor.
  - apply uploadProjectFiles_spec in H0 as (Hu & Hp & Hb & _).
    destruct (db w) as [us ps bs fs] eqn:E, (db w') as [us' ps' bs' fs'] eqn:E'.
    simpl in *. subst.
    apply (effect_upload user {| users := us; projects := ps; bids := bs; files := fs |} fs').
  - apply createBid_spec in H0
      as [(e & -> & ->)|(v & pid & p & b & -> & ? & ? & ? & ? & ? & ? & ? & ? & ? & ? & ->)];
      [constructor|]. by econstructor.
  - apply updateBid_spec in H0 as [(e & -> & ->)|(v & b & p & -> & ? & ? & ? & ? & ? & ->)];
      [constructor|]. simpl. by econstructor.
  - apply deleteBid_spec in H0 as [(e & -> & ->)|(v & b & p & -> & ? & ? & ? & ? & ? & ->)];
      [constructor|]. simpl. by econstructor.
Qed.

Lemma serve_refines (rq : Request) w r w' :
  serve rq w = (r, w') ->
  public_effect (db w) (db w')
  \/ exists user, authenticated (db w) user /\ effect user (db w) (db w').
Proof.
  destruct rq as [op|now authorization op]; simpl.
  - intros H0. left. by eapply public_refines.
  - munfold.
    destruct (authenticate now authorization w) as [[user|e] w1] eqn:Ha.
    + apply authenticate_spec in Ha as [-> Hau].
      destruct (middleware user op w) as [[[]|e] w1] eqn:Hm.
      * apply middleware_reads in Hm as ->. intros H0. right. exists user.
        split; [by apply Hau|]. by eapply controller_refines.
      * apply middleware_reads in Hm as ->. intros [= <- <-]. left. constructor.
    + apply authenticate_spec in Ha as [-> _]. intros [= <- <-]. left. constructor.
Qed.

(** ** What a transition does to each table *)

Lemma lookup_imap_total {A : Type} (g : string -> A -> A) (m : gmap string A) i :
  map_imap (fun k a => Some (g k a)) m !! i = g i <$> m !! i.
Proof. rewrite map_lookup_imap. by destruct (m !! i). Qed.

Lemma effect_users user s s' : effect user s s' -> users s' = users s.
Proof. by destruct 1. Qed.

Lemma public_effect_projects s s' : public_effect s s' -> projects s' = projects s.
Proof. by destruct 1. Qed.

Lemma public_effect_bids s s' : public_effect s s' -> bids s' = bids s.
Proof. by destruct 1. Qed.

Lemma public_effect_users s s' i u :
  public_effect s s' -> users s !! i = Some u -> users s' !! i = Some u.
Proof.
  destruct 1 as [|now u' Hfresh _ _]; [done|]. simpl. intros Hi.
  rewrite lookup_insert_ne; [done|]. intros <-. congruence.
Qed.

Lemma effect_projects user s s' i :
  effect user s s' ->
  projects s' !! i = projects s !! i
  \/ (exists p', projects s !! i = None /\ projects s' !! i = Some p'
        /\ Project.status p' = ProjectStatus.PENDING
        /\ Project.buyerId p' = ReqUser.id user
        /\ ReqUser.role user = BUYER)
  \/ (exists p p', projects s !! i = Some p /\ projects s' !! i = Some p'
        /\ Project.buyerId p' = Project.buyerId p
        /\ Project.buyerId p = ReqUser.id user
        /\ Project.status p <> ProjectStatus.COMPLETED
        /\ status_forward (Project.status p) (Project.status p'))
  \/ (exists p, projects s !! i = Some p /\ projects s' !! i = None
        /\ Project.buyerId p = ReqUser.id user
        /\ Project.status p = ProjectStatus.PENDING).
Proof.
  destruct 1; simpl; try (by left).
  - destruct (decide (i = uuid now s)) as [->|Hne].
    + right; left. rewrite lookup_insert_eq. by eexists.
    + left. by rewrite lookup_insert_ne.
  - destruct (decide (i = projectId)) as [->|Hne].
    + right; right; left. rewrite lookup_insert_eq. do 2 eexists.
      repeat (split; [done|]). split; [congruence|]. by left.
    + left. by rewrite lookup_insert_ne.
  - destruct (decide (i = projectId)) as [->|Hne].
    + right; right; right. rewrite lookup_delete_eq. by eexists.
    + left. by rewrite lookup_delete_ne.
  - destruct (decide (i = projectId)) as [->|Hne].
    + right; right; left. rewrite lookup_insert_eq. do 2 eexists.
      repeat (split; [done|]). split; [congruence|]. right. simpl.
      match goal with H : Project.status _ = _ |- _ => by rewrite H end.
    + left. by rewrite lookup_insert_ne.
  - destruct (decide (i = projectId)) as [->|Hne].
    + right; right; left. rewrite lookup_insert_eq. do 2 eexists.
      repeat (split; [done|]). split; [congruence|]. right. simpl.
      match goal with H : Project.status _ = _ |- _ => by rewrite H end.
    + left. by rewrite lookup_insert_ne.
Qed.

Lemma effect_bids user s s' i :
  effect user s s' ->
  bids s' !! i = bids s !! i
  \/ (exists b', bids s !! i = None /\ bids s' !! i = Some b'
        /\ (forall j, bids s !! j = None -> is_Some (bids s' !! j) -> j = i)
        /\ Bid.sellerId b' = ReqUser.id user
        /\ is_Some (users s !! ReqUser.id user)
        /\ find_first (bid_of (Bid.projectId b') (ReqUser.id user)) (bids s) = None)
  \/ (exists b b', bids s !! i = Some b /\ bids s' !! i = Some b'
        /\ Bid.projectId b' = Bid.projectId b
        /\ Bid.sellerId b' = Bid.sellerId b)
  \/ (exists b, bids s !! i = Some b /\ bids s' !! i = None).
Proof.
  destruct 1; simpl; try (by left).
  - rewrite lookup_imap_total.
    destruct (decide (i = bid)) as [->|Hne].
    + right; right; left. rewrite lookup_insert_eq. simpl.
      do 2 eexists. split; [done|]. split; [done|]. by destruct (other_bids_of _ _ _ _).
    + rewrite lookup_insert_ne; [|done].
      destruct (bids s !! i) as [b0|] eqn:E; [|by left].
      right; right; left. simpl. do 2 eexists. split; [done|]. split; [done|].
      by destruct (other_bids_of _ _ _ _).
  - destruct (decide (i = uuid now s)) as [->|Hne].
    + right; left. rewrite lookup_insert_eq. eexists. do 2 (split; [done|]).
      split.
      { intros j Hj [x Hx]. destruct (decide (j = uuid now s)) as [->|Hj']; [done|].
        rewrite lookup_insert_ne in Hx by done. congruence. }
      repeat (split; [done|]). by subst.
    + left. by rewrite lookup_insert_ne.
  - destruct (decide (i = bidId)) as [->|Hne].
    + right; right; left. rewrite lookup_insert_eq. by do 2 eexists.
    + left. by rewrite lookup_insert_ne.
  - destruct (decide (i = bidId)) as [->|Hne].
    + right; right; right. rewrite lookup_delete_eq. by eexists.
    + left. by rewrite lookup_delete_ne.
Qed.

(** ** Reachable stores are consistent *)

Lemma bid_origin user s s' i b' :
  effect user s s' -> bids s' !! i = Some b' ->
  (exists b, bids s !! i = Some b
             /\ Bid.projectId b' = Bid.projectId b /\ Bid.sellerId b' = Bid.sellerId b)
  \/ (bids s !! i = None
      /\ (forall j, bids s !! j = None -> is_Some (bids s' !! j) -> j = i)
      /\ Bid.sellerId b' = ReqUser.id user
      /\ is_Some (users s !! ReqUser.id user)
      /\ find_first (bid_of (Bid.projectId b') (ReqUser.id user)) (bids s) = None).
Proof.
  intros He Hi.
  destruct (effect_bids user s s' i He)
    as [E|[(b1 & ? & E & ?)|[(b & b1 & ? & E & ? & ?)|(b & ? & E)]]];
    rewrite E in Hi; simplify_eq.
  - left. by eexists.
  - by right.
  - left. by eexists.
Qed.

Lemma consistent_init : consistent (db (init : World Num)).
Proof. repeat split; intros ?; intros; simpl in *; by simplify_map_eq. Qed.

Lemma public_effect_consistent s s' :
  public_effect s s' -> consistent s -> consistent s'.
Proof.
  intros He (Ho & Hs & Hu).
  pose proof (public_effect_projects _ _ He) as Hp.
  pose proof (public_effect_bids _ _ He) as Hb.
  repeat split.
  - intros i p Hi. rewrite Hp in Hi. destruct (Ho i p Hi) as (u & Hu1 & Hu2).
    exists u. split; [|done]. by eapply public_effect_users.
  - intros i b Hi. rewrite Hb in Hi. destruct (Hs i b Hi) as [u Hu1].
    exists u. by eapply public_effect_users.
  - intros i j bi bj. rewrite Hb. apply Hu.
Qed.

Lemma effect_consistent user s s' :
  authenticated s user -> effect user s s' -> consistent s -> consistent s'.
Proof.
  intros (u & Hu1 & Hu2 & _) He (Ho & Hs & Hu).
  pose proof (effect_users _ _ _ He) as Hus.
  repeat split.
  - intros i p' Hi. rewrite Hus.
    destruct (effect_projects user s s' i He)
      as [E|[(p1 & ? & E & ? & Hb & Hr)|[(p & p1 & Hp & E & Hb & ?)|(p & ? & E & ?)]]];
      rewrite E in Hi; simplify_eq.
    + by eapply Ho.
    + exists u. rewrite Hb. split; [done|]. congruence.
    + rewrite Hb. by eapply Ho.
  - intros i b' Hi. rewrite Hus.
    destruct (bid_origin _ _ _ _ _ He Hi) as [(b & Hb & _ & ->)|(_ & _ & -> & ? & _)];
      [by eapply Hs|done].
  - intros i j bi bj Hi Hj Hp Hsl.
    destruct (bid_origin _ _ _ _ _ He Hi)
      as [(b1 & Hb1 & Hp1 & Hs1)|(Hn1 & Hnew1 & Hs1 & _ & Hf1)];
      destruct (bid_origin _ _ _ _ _ He Hj)
        as [(b2 & Hb2 & Hp2 & Hs2)|(Hn2 & Hnew2 & Hs2 & _ & Hf2)];
      [|exfalso..|by apply Hnew2].
    + eapply Hu; [done|done|congruence|congruence].
    + pose proof (proj1 (find_first_None _ _) Hf2 _ _ Hb1) as Hc.
      unfold bid_of in Hc. rewrite <- Hp1, Hp, <- Hs1, Hsl, Hs2 in Hc.
      by rewrite !bool_decide_eq_true_2 in Hc.
    + pose proof (proj1 (find_first_None _ _) Hf1 _ _ Hb2) as Hc.
      unfold bid_of in Hc. rewrite <- Hp2, <- Hp, <- Hs2, <- Hsl, Hs1 in Hc.
      by rewrite !bool_decide_eq_true_2 in Hc.
Qed.

Lemma reachable_consistent w : reachable w -> consistent (db w).
Proof.
  induction 1 as [|w rq Hw IH]; [apply consistent_init|].
  destruct (serve rq w) as [r w'] eqn:E. simpl.
  apply serve_refines in E as [He|(user & Ha & He)].
  - by eapply public_effect_consistent.
  - by eapply effect_consistent.
Qed.

(** * The claims *)

(** C1. For a project in status PENDING and a bid whose (id, project,
    seller) triple matches the request, a successful [selectBid] leaves the
    project IN_PROGRESS with [sellerId] set to the chosen seller, the
    chosen bid ACCEPTED and every other bid of the project REJECTED: the
    bids of the project are the same as before, and the ACCEPTED one is
    exactly the chosen one. *)
Theorem selectBid_accepts_exactly_one now user projectId bid seller w p b v w' :
  projects (db w) !! projectId = Some p ->
  Project.status p = ProjectStatus.PENDING ->
  bids (db w) !! bid = Some b ->
  Bid.projectId b = projectId ->
  Bid.sellerId b = seller ->
  selectBid now user projectId
    {| SelectBidBody.bidId := Some bid; SelectBidBody.sellerId := Some seller |} w
    = (Return v, w') ->
  (exists p', projects (db w') !! projectId = Some p'
              /\ Project.status p' = ProjectStatus.IN_PROGRESS
              /\ Project.sellerId p' = Some seller)
  /\ (exists b', bids (db w') !! bid = Some b'
                 /\ Bid.projectId b' = projectId
                 /\ Bid.status b' = BidStatus.ACCEPTED)
  /\ (forall i b0, bids (db w) !! i = Some b0 -> Bid.projectId b0 = projectId ->
        i <> bid ->
        exists b', bids (db w') !! i = Some b'
                   /\ Bid.projectId b' = projectId
                   /\ Bid.status b' = BidStatus.REJECTED)
  /\ (forall i b', bids (db w') !! i = Some b' -> Bid.projectId b' = projectId ->
        is_Some (bids (db w) !! i)
        /\ (Bid.status b' = BidStatus.ACCEPTED <-> i = bid)
        /\ (i <> bid -> Bid.status b' = BidStatus.REJECTED)).
Proof.
  intros Hp Hst Hb Hbp Hbs H0.
  apply selectBid_spec in H0
    as [(e & ? & _)|(v0 & bid0 & seller0 & p0 & b0 & _ & Hi1 & Hi2 & Hp0 & _ & _
                     & Hb0 & _ & _ & _ & ->)]; [done|].
  simpl in Hi1, Hi2. injection Hi1 as <-. injection Hi2 as <-.
  rewrite Hp in Hp0. injection Hp0 as <-. rewrite Hb in Hb0. injection Hb0 as <-.
  simpl.
  split; [|split; [|split]].
  - rewrite lookup_insert_eq. by eexists.
  - rewrite lookup_imap_total, lookup_insert_eq. simpl. eexists. split; [done|].
    unfold other_bids_of.
    rewrite (bool_decide_eq_false_2 (bid ≠ bid)) by (intros Hc; by apply Hc).
    by rewrite andb_false_r.
  - intros i bi Hi Hpi Hne.
    rewrite lookup_imap_total, lookup_insert_ne by done. rewrite Hi. simpl.
    eexists. split; [done|]. unfold other_bids_of.
    by rewrite !bool_decide_eq_true_2.
  - intros i b' Hi Hpi.
    rewrite lookup_imap_total in Hi.
    destruct (decide (i = bid)) as [->|Hne].
    + rewrite lookup_insert_eq in Hi. simpl in Hi. unfold other_bids_of in Hi.
      rewrite (bool_decide_eq_false_2 (bid ≠ bid)) in Hi by (intros Hc; by apply Hc).
      rewrite andb_false_r in Hi. simplify_eq. by rewrite Hb.
    + rewrite lookup_insert_ne in Hi by done.
      destruct (bids (db w) !! i) as [bi|] eqn:Ei; [|done]. simpl in Hi.
      unfold other_bids_of in Hi.
      rewrite (bool_decide_eq_true_2 (i ≠ bid)), andb_true_r in Hi by done.
      case_bool_decide as Hpj; simplify_eq.
      split; [done|]. simpl. split; [|done]. split; [done|]. intros ->. done.
Qed.

(** C10. Whenever an operation returns one of the listed error results
    (VALIDATION, UNAUTHORIZED, FORBIDDEN, NOT_FOUND, CONFLICT,
    PRECONDITION), the world (database and sent emails) is exactly as
    before the call.  This holds for the two public controllers, for every
    protected controller run for any user, and for every request served
    through the middleware. *)
Theorem error_leaves_store_unchanged :
  (forall (op : PublicOp) w e w',
     public op w = (Throw e, w') -> listed_kind (kind e) = true -> w' = w)
  /\ (forall user (op : ProtectedOp) w e w',
        controller user op w = (Throw e, w') -> listed_kind (kind e) = true -> w' = w)
  /\ (forall (rq : Request) w e w',
        serve rq w = (Throw e, w') -> listed_kind (kind e) = true -> w' = w).
Proof.
  assert (Hpub : forall (op : PublicOp) w e w',
            public op w = (Throw e, w') -> listed_kind (kind e) = true -> w' = w).
  { intros [now salt body|now body] w e w'; simpl; intros (r0 & H0 & Hr)%done_spec Hk.
    - apply register_spec in H0 as [(e0 & -> & ->)|(v & u & -> & _)]; done.
    - by apply login_spec in H0. }
  assert (Hctl : forall user (op : ProtectedOp) w e w',
            controller user op w = (Throw e, w') -> listed_kind (kind e) = true -> w' = w).
  { intros user op w e w'.
    destruct op; simpl; intros (r0 & H0 & Hr)%done_spec Hk.
    - apply createProject_spec in H0 as [(e0 & -> & ->)|(v & p & -> & _)]; done.
    - apply updateProject_spec in H0 as [(e0 & -> & ->)|(v & p & -> & _)]; done.
    - apply deleteProject_spec in H0 as [(e0 & -> & ->)|(v & p & -> & _)]; done.
    - by apply getProjectBids_reads in H0.
    - apply selectBid_spec in H0 as [(e0 & -> & ->)|(v & ? & ? & ? & ? & -> & _)]; done.
    - apply completeProject_spec in H0 as [(e0 & -> & ->)|(v & p & -> & _)]; done.
    - apply uploadProjectFiles_spec in H0 as (_ & _ & _ & _ & He).
      destruct r0 as [v|e0]; [done|]. injection Hr as ->. by apply (He e0).
    - apply createBid_spec in H0 as [(e0 & -> & ->)|(v & ? & ? & ? & -> & _)]; done.
    - apply updateBid_spec in H0 as [(e0 & -> & ->)|(v & ? & ? & -> & _)]; done.
    - apply deleteBid_spec in H0 as [(e0 & -> & ->)|(v & ? & ? & -> & _)]; done. }
  split; [exact Hpub|]. split; [exact Hctl|].
  intros [op|now authorization op] w e w'; simpl; [by apply Hpub|].
  munfold.
  destruct (authenticate now authorization w) as [[user|e0] w1] eqn:Ha;
    apply authenticate_spec in Ha as [-> _]; [|by intros [= <- <-]].
  destruct (middleware user op w) as [[[]|e0] w1] eqn:Hm;
    apply middleware_reads in Hm as ->; [|by intros [= <- <-]].
  apply Hctl.
Qed.

Lemma effect_status_forward user s s' i p :
  effect user s s' -> projects s !! i = Some p ->
  match projects s' !! i with
  | Some p' => status_forward (Project.status p) (Project.status p')
  | None => Project.status p = ProjectStatus.PENDING
  end.
Proof.
  intros He Hi.
  destruct (effect_projects user s s' i He)
    as [E|[(p1 & ? & E & _)|[(p0 & p1 & ? & E & _ & _ & _ & Hf)|(p0 & ? & E & _ & ?)]]];
    rewrite E; simplify_eq.
  - rewrite Hi. by left.
  - done.
  - done.
Qed.

Lemma effect_new_project_pending user s s' i p' :
  effect user s s' -> projects s !! i = None -> projects s' !! i = Some p' ->
  Project.status p' = ProjectStatus.PENDING.
Proof.
  intros He Hi Hi'.
  destruct (effect_projects user s s' i He)
    as [E|[(p1 & ? & E & ? & _)|[(p0 & p1 & ? & E & _)|(p0 & ? & E & _)]]];
    rewrite E in Hi'; simplify_eq. done.
Qed.

(** C2 (amended). For every state and every operation, the status of a
    project stays or moves one step forward along PENDING, IN_PROGRESS,
    COMPLETED (never backward, never from PENDING to COMPLETED); a project
    that an operation removes was PENDING and a project that it adds is
    PENDING.  COMPLETED is terminal: update, delete and selectBid on a
    completed project always fail and change nothing, with PRECONDITION
    when the caller is the owning buyer and with FORBIDDEN for any other
    caller (for selectBid, when bidId and sellerId are supplied: without
    them it answers VALIDATION). *)
Theorem project_status_moves_forward :
  (forall (rq : Request) w i p,
     projects (db w) !! i = Some p ->
     match projects (db (serve rq w).2) !! i with
     | Some p' => status_forward (Project.status p) (Project.status p')
     | None => Project.status p = ProjectStatus.PENDING
     end)
  /\ (forall (rq : Request) w i p',
        projects (db w) !! i = None -> projects (db (serve rq w).2) !! i = Some p' ->
        Project.status p' = ProjectStatus.PENDING)
  /\ (forall user (op : ProtectedOp) w i p,
        projects (db w) !! i = Some p ->
        match projects (db (controller user op w).2) !! i with
        | Some p' => status_forward (Project.status p) (Project.status p')
        | None => Project.status p = ProjectStatus.PENDING
        end)
  /\ (forall now user projectId w p,
        projects (db w) !! projectId = Some p ->
        Project.status p = ProjectStatus.COMPLETED ->
        (forall body, exists e,
            updateProject now user projectId body w = (Throw e, w)
            /\ (Project.buyerId p = ReqUser.id user ->
                kind e = PRECONDITION /\ statusCode e = Some 400)
            /\ (Project.buyerId p <> ReqUser.id user ->
                kind e = FORBIDDEN /\ statusCode e = Some 403))
        /\ (exists e,
              deleteProject user projectId w = (Throw e, w)
              /\ (Project.buyerId p = ReqUser.id user ->
                  kind e = PRECONDITION /\ statusCode e = Some 400)
              /\ (Project.buyerId p <> ReqUser.id user ->
                  kind e = FORBIDDEN /\ statusCode e = Some 403))
        /\ (forall body, exists e,
              selectBid now user projectId body w = (Throw e, w)
              /\ (truthy (SelectBidBody.bidId body) = false
                  \/ truthy (SelectBidBody.sellerId body) = false ->
                  kind e = VALIDATION /\ statusCode e = Some 400)
              /\ (truthy (SelectBidBody.bidId body) = true ->
                  truthy (SelectBidBody.sellerId body) = true ->
                  (Project.buyerId p = ReqUser.id user ->
                   kind e = PRECONDITION /\ statusCode e = Some 400)
                  /\ (Project.buyerId p <> ReqUser.id user ->
                      kind e = FORBIDDEN /\ statusCode e = Some 403)))).
Proof.
  split; [|split; [|split]].
  - intros rq w i p Hi.
    destruct (serve rq w) as [r w'] eqn:E. simpl.
    apply serve_refines in E as [He|(user & _ & He)].
    + rewrite (public_effect_projects _ _ He), Hi. by left.
    + by eapply effect_status_forward.
  - intros rq w i p' Hi Hi'.
    destruct (serve rq w) as [r w'] eqn:E. simpl in Hi'.
    apply serve_refines in E as [He|(user & _ & He)].
    + rewrite (public_effect_projects _ _ He) in Hi'. congruence.
    + by eapply effect_new_project_pending.
  - intros user op w i p Hi.
    destruct (controller user op w) as [r w'] eqn:E. simpl.
    apply controller_refines in E. by eapply effect_status_forward.
  - intros now user projectId w p Hp Hst.
    split; [|split].
    + intros body. unfold updateProject. munfold. rewrite Hp. simpl.
      case_bool_decide as Ho; simpl.
      * eexists. split; [done|]. split; [by intros ?|done].
      * rewrite Hst. simpl. eexists. split; [done|]. split; [done|by intros ?].
    + unfold deleteProject. munfold. rewrite Hp. simpl.
      case_bool_decide as Ho; simpl.
      * eexists. split; [done|]. split; [by intros ?|done].
      * rewrite Hst. simpl. eexists. split; [done|]. split; [done|by intros ?].
    + intros body. unfold selectBid. munfold.
      destruct (truthy (SelectBidBody.bidId body)) eqn:H1;
        [destruct (truthy (SelectBidBody.sellerId body)) eqn:H2|]; simpl.
      * rewrite Hp. simpl.
        case_bool_decide as Ho; simpl.
        -- eexists. split; [done|]. split; [by intros [?|?]|].
           intros _ _. split; [by intros ?|done].
        -- rewrite Hst. simpl. eexists. split; [done|]. split; [by intros [?|?]|].
           intros _ _. split; [done|by intros ?].
      * eexists. split; [done|]. split; [done|by intros ? ?].
      * eexists. split; [done|]. split; [done|by intros ?].
Qed.

Lemma find_first_is_Some {A : Type} (P : string -> A -> bool) (t : gmap string A) k v :
  t !! k = Some v -> P k v = true -> is_Some (find_first P t).
Proof.
  intros Hk HP. destruct (find_first P t) eqn:E; [done|].
  rewrite (proj1 (find_first_None P t) E k v Hk) in HP. discriminate.
Qed.

(** C3 (amended). If a user with email [e] exists, [register] with email
    [e] always fails and creates no user: with CONFLICT (409) when the
    four fields are present and the role is valid, with VALIDATION (400)
    otherwise.  In particular, sending a registration that succeeded a
    second time yields CONFLICT. *)
Theorem register_email_taken :
  (forall now salt body w i u,
     users (db w) !! i = Some u ->
     RegisterBody.email body = Some (User.email u) ->
     exists e,
       register now salt body w = (Throw e, w)
       /\ (kind e = CONFLICT \/ kind e = VALIDATION)
       /\ (truthy (RegisterBody.name body) = true ->
           truthy (RegisterBody.email body) = true ->
           truthy (RegisterBody.password body) = true ->
           truthy (RegisterBody.role body) = true ->
           toUpperCase (str (RegisterBody.role body)) ∈ ["BUYER"; "SELLER"] ->
           e = http_error CONFLICT 409 "User with this email already exists")
       /\ (truthy (RegisterBody.name body) = false
           \/ truthy (RegisterBody.email body) = false
           \/ truthy (RegisterBody.password body) = false
           \/ truthy (RegisterBody.role body) = false
           \/ toUpperCase (str (RegisterBody.role body)) ∉ ["BUYER"; "SELLER"] ->
           kind e = VALIDATION /\ statusCode e = Some 400))
  /\ (forall now salt body w v w' now' salt',
        register now salt body w = (Return v, w') ->
        register now' salt' body w'
        = (Throw (http_error CONFLICT 409 "User with this email already exists"), w')).
Proof.
  assert (Htaken : forall now salt body w i u,
            users (db w) !! i = Some u ->
            RegisterBody.email body = Some (User.email u) ->
            truthy (RegisterBody.name body) = true ->
            truthy (RegisterBody.email body) = true ->
            truthy (RegisterBody.password body) = true ->
            truthy (RegisterBody.role body) = true ->
            toUpperCase (str (RegisterBody.role body)) ∈ ["BUYER"; "SELLER"] ->
            register now salt body w
            = (Throw (http_error CONFLICT 409 "User with this email already exists"), w)).
  { intros now salt body w i u Hi He Hn Hm Hpw Hr Hrole.
    unfold register. munfold. rewrite Hn, Hm, Hpw, Hr. simpl.
    rewrite (bool_decide_eq_true_2 _ Hrole). simpl.
    rewrite bool_decide_eq_true_2; [done|].
    apply (find_first_is_Some _ _ i u Hi). rewrite He. simpl.
    by apply bool_decide_eq_true_2. }
  split.
  - intros now salt body w i u Hi He.
    destruct (truthy (RegisterBody.name body)) eqn:Hn;
      [destruct (truthy (RegisterBody.email body)) eqn:Hm;
       [destruct (truthy (RegisterBody.password body)) eqn:Hpw;
        [destruct (truthy (RegisterBody.role body)) eqn:Hr;
         [destruct (decide (toUpperCase (str (RegisterBody.role body)) ∈ ["BUYER"; "SELLER"]))
            as [Hrole|Hrole]|]|]|]|].
    1: { eexists. split; [by eapply Htaken|]. split; [by left|]. split; [done|].
         by intros [?|[?|[?|[?|?]]]]. }
    all: unfold register; munfold; rewrite ?Hn, ?Hm, ?Hpw, ?Hr; simpl;
      rewrite ?(bool_decide_eq_false_2 _ Hrole); simpl;
      eexists; (split; [done|]); (split; [by right|]); split; done.
  - intros now salt body w v w' now' salt' H0.
    apply register_spec in H0
      as [(e & ? & _)|(v0 & u & _ & Hn & Hm & Hpw & Hr & Hrole & He & _ & _ & _ & _ & ->)];
      [done|].
    apply (Htaken now' salt' body _ (uuid now (db w)) u); try done.
    simpl. by rewrite lookup_insert_eq.
Qed.

(** C4 (amended). If any of name, email, password, role is absent (or
    empty), or the supplied role, upper-cased, is not BUYER or SELLER,
    then [register] fails with VALIDATION (400) and creates no user.  The
    role is compared after upper-casing: a role such as "buyer" is
    accepted. *)
Theorem register_rejects_invalid_fields now salt body w :
  truthy (RegisterBody.name body) = false
  \/ truthy (RegisterBody.email body) = false
  \/ truthy (RegisterBody.password body) = false
  \/ truthy (RegisterBody.role body) = false
  \/ toUpperCase (str (RegisterBody.role body)) ∉ ["BUYER"; "SELLER"] ->
  exists e,
    register now salt body w = (Throw e, w)
    /\ kind e = VALIDATION /\ statusCode e = Some 400.
Proof.
  intros Hbad. unfold register. munfold.
  destruct (negb (truthy (RegisterBody.name body))
            || negb (truthy (RegisterBody.email body))
            || negb (truthy (RegisterBody.password body))
            || negb (truthy (RegisterBody.role body))) eqn:Hv; simpl.
  - by eexists.
  - apply orb_false_elim in Hv as [Hv Hr]. apply orb_false_elim in Hv as [Hv Hpw].
    apply orb_false_elim in Hv as [Hn Hm].
    apply negb_false_iff in Hn, Hm, Hpw, Hr.
    destruct Hbad as [Hb|[Hb|[Hb|[Hb|Hb]]]]; try congruence.
    rewrite (bool_decide_eq_false_2 _ Hb). simpl. by eexists.
Qed.

(** C5. A login that fails because no user has the email and a login that
    fails because the stored hash does not match the password return the
    same result: UNAUTHORIZED (401) with the message "Invalid
    credentials", which the error middleware answers with status 401 and
    that message; neither changes the world. *)
Theorem login_failures_indistinguishable now1 now2 body1 body2 w1 w2 :
  truthy (LoginBody.email body1) = true ->
  truthy (LoginBody.password body1) = true ->
  (forall i u, users (db w1) !! i = Some u ->
     User.email u <> str (LoginBody.email body1)) ->
  truthy (LoginBody.email body2) = true ->
  truthy (LoginBody.password body2) = true ->
  (exists i u, users (db w2) !! i = Some u
               /\ User.email u = str (LoginBody.email body2)) ->
  (forall i u, users (db w2) !! i = Some u ->
     User.email u = str (LoginBody.email body2) ->
     bcrypt_compare (str (LoginBody.password body2)) (User.password u) = false) ->
  login now1 body1 w1
  = (Throw (http_error UNAUTHORIZED 401 "Invalid credentials"), w1)
  /\ login now2 body2 w2
     = (Throw (http_error UNAUTHORIZED 401 "Invalid credentials"), w2)
  /\ (login now1 body1 w1).1 = (login now2 body2 w2).1
  /\ errorHandler (http_error UNAUTHORIZED 401 "Invalid credentials")
     = {| response_status := 401; response_message := "Invalid credentials" |}.
Proof.
  intros He1 Hp1 Hunknown He2 Hp2 (i & u & Hi & Hu) Hmismatch.
  assert (login now1 body1 w1
          = (Throw (http_error UNAUTHORIZED 401 "Invalid credentials"), w1)) as H1.
  { unfold login. munfold. rewrite He1, Hp1. simpl.
    replace (find_first _ (users (db w1))) with (@None (string * User.t)); [done|].
    symmetry. apply find_first_None. intros k v Hk.
    apply bool_decide_eq_false_2. by apply Hunknown in Hk. }
  assert (login now2 body2 w2
          = (Throw (http_error UNAUTHORIZED 401 "Invalid credentials"), w2)) as H2.
  { unfold login. munfold. rewrite He2, Hp2. simpl.
    destruct (find_first _ (users (db w2))) as [[k v]|] eqn:E; simpl; [|done].
    apply find_first_Some in E as [Hk Hv]. apply bool_decide_eq_true_1 in Hv.
    by rewrite (Hmismatch k v Hk Hv). }
  split; [exact H1|]. split; [exact H2|]. split; [by rewrite H1, H2|done].
Qed.



Lemma project_bids_elem s projectId i (b : Bid.t Num) :
  (i, b) ∈ merge_sort createdAt_desc
             (List.filter (fun kv => bool_decide (Bid.projectId kv.2 = projectId))
                (map_to_list (bids s)))
  <-> bids s !! i = Some b /\ Bid.projectId b = projectId.
Proof.
  rewrite merge_sort_Permutation, list_elem_of_In, List.filter_In, <- list_elem_of_In.
  simpl. by rewrite elem_of_map_to_list, bool_decide_eq_true.
Qed.

Lemma listing_lists_bids s projectId withEmail :
  bid_seller_exists s ->
  lists_bids s projectId withEmail
    (List.map (bid_with_seller withEmail s)
       (merge_sort createdAt_desc
          (List.filter (fun kv => bool_decide (Bid.projectId kv.2 = projectId))
             (map_to_list (bids s))))).
Proof.
  intros Hs. split.
  - intros i b Hi Hp. exists (bid_with_seller withEmail s (i, b)).
    split; [|done]. apply list_elem_of_In, List.in_map, list_elem_of_In.
    by apply project_bids_elem.
  - intros v Hv. apply list_elem_of_In, List.in_map_iff in Hv as ([i b] & <- & Hin).
    apply list_elem_of_In in Hin.
    apply project_bids_elem in Hin as [Hi Hp]. simpl in *.
    destruct (Hs i b Hi) as [u Hu]. exists b, u. rewrite Hu. done.
Qed.

(** C8. In a reachable state, for an authenticated user and an existing
    project, listing the bids of the project succeeds and shows the
    sellers' emails when the user is the owning buyer; it succeeds and
    hides them when the user is a seller holding a bid on the project; it
    fails with FORBIDDEN (403) for a seller who neither owns the project
    nor has a bid on it. *)
Theorem getProjectBids_visibility user projectId w p :
  reachable w ->
  authenticated (db w) user ->
  projects (db w) !! projectId = Some p ->
  (Project.buyerId p = ReqUser.id user ->
     exists views, getProjectBids user projectId w = (Return views, w)
                   /\ lists_bids (db w) projectId true views)
  /\ (ReqUser.role user = SELLER ->
      (exists i b, bids (db w) !! i = Some b
                   /\ Bid.projectId b = projectId
                   /\ Bid.sellerId b = ReqUser.id user) ->
      exists views, getProjectBids user projectId w = (Return views, w)
                    /\ lists_bids (db w) projectId false views)
  /\ (ReqUser.role user = SELLER ->
      Project.buyerId p <> ReqUser.id user ->
      (forall i b, bids (db w) !! i = Some b -> Bid.projectId b = projectId ->
         Bid.sellerId b <> ReqUser.id user) ->
      getProjectBids user projectId w
      = (Throw (http_error FORBIDDEN 403 "You are not authorized to view these bids"), w)).
Proof.
  intros Hw (u & Hu & Hrole & _) Hp.
  destruct (reachable_consistent w Hw) as (Ho & Hs & _).
  split; [|split].
  - intros Hown. eexists. split; [|by apply listing_lists_bids].
    unfold getProjectBids. munfold. rewrite Hp. simpl.
    by rewrite (bool_decide_eq_true_2 _ Hown).
  - intros Hsel (i & b & Hi & Hbp & Hbs).
    assert (Project.buyerId p <> ReqUser.id user) as Hne.
    { intros Hown. destruct (Ho _ _ Hp) as (u' & Hu' & Hb).
      rewrite Hown, Hu in Hu'. injection Hu' as <-. congruence. }
    eexists. split; [|by apply listing_lists_bids].
    unfold getProjectBids. munfold. rewrite Hp. simpl.
    rewrite (bool_decide_eq_false_2 _ Hne). simpl.
    rewrite (bool_decide_eq_false_2 (ReqUser.role user ≠ SELLER)) by (intros Hc; by apply Hc).
    rewrite (bool_decide_eq_true_2 _ Hsel). simpl.
    rewrite bool_decide_eq_true_2; [done|].
    apply (find_first_is_Some _ _ i b Hi). unfold bid_of.
    by rewrite !bool_decide_eq_true_2.
  - intros Hsel Hne Hnobid.
    unfold getProjectBids. munfold. rewrite Hp. simpl.
    rewrite (bool_decide_eq_false_2 _ Hne). simpl.
    rewrite (bool_decide_eq_false_2 (ReqUser.role user ≠ SELLER)) by (intros Hc; by apply Hc).
    rewrite (bool_decide_eq_true_2 _ Hsel). simpl.
    rewrite bool_decide_eq_false_2; [done|].
    intros [[k v] Hf]. apply find_first_Some in Hf as [Hk Hv].
    unfold bid_of in Hv. apply andb_prop in Hv as [H1 H2].
    apply bool_decide_eq_true_1 in H1, H2. by eapply Hnobid.
Qed.

(** C9. For a PENDING project and an update request by its owning buyer,
    however the request ends, each of title, description, budget and
    deadline that the request does not provide keeps its value, and the
    status, the buyer, the seller and the creation time of the project,
    every other project, the other tables and the sent emails are
    unchanged; when the update succeeds, a provided title or description
    is the new one.  If the project is not PENDING the update fails with
    PRECONDITION (400) and nothing changes. *)
Theorem updateProject_changes_only_provided_fields now user projectId body w p :
  projects (db w) !! projectId = Some p ->
  Project.buyerId p = ReqUser.id user ->
  (Project.status p = ProjectStatus.PENDING ->
   forall r w', updateProject now user projectId body w = (r, w') ->
     exists p',
       projects (db w') !! projectId = Some p'
       /\ (ProjectBody.title body = None -> Project.title p' = Project.title p)
       /\ (ProjectBody.description body = None ->
           Project.description p' = Project.description p)
       /\ (ProjectBody.budget body = None ->
           Project.budgetMin p' = Project.budgetMin p
           /\ Project.budgetMax p' = Project.budgetMax p)
       /\ (ProjectBody.deadline body = None -> Project.deadline p' = Project.deadline p)
       /\ Project.status p' = Project.status p
       /\ Project.buyerId p' = Project.buyerId p
       /\ Project.sellerId p' = Project.sellerId p
       /\ Project.createdAt p' = Project.createdAt p
       /\ (forall j, j <> projectId -> projects (db w') !! j = projects (db w) !! j)
       /\ users (db w') = users (db w)
       /\ bids (db w') = bids (db w)
       /\ files (db w') = files (db w)
       /\ outbox w' = outbox w
       /\ (forall v, r = Return v ->
             (forall t, ProjectBody.title body = Some t -> t <> "" ->
                Project.title p' = t)
             /\ (forall t, ProjectBody.description body = Some t -> t <> "" ->
                   Project.description p' = t)))
  /\ (Project.status p <> ProjectStatus.PENDING ->
      updateProject now user projectId body w
      = (Throw (http_error PRECONDITION 400
                  "Cannot update a project that is already in progress or completed"), w)).
Proof.
  intros Hp Hown. split.
  - intros Hst r w' H0.
    apply updateProject_spec in H0 as [(e & -> & ->)|(v & p0 & -> & Hp0 & _ & _ & _ & ->)].
    + exists p. do 14 (split; [done|]). intros v0 [=].
    + rewrite Hp in Hp0. injection Hp0 as <-. simpl.
      eexists. split; [by rewrite lookup_insert_eq|]. simpl.
      split; [by intros ->|]. split; [by intros ->|].
      split; [by intros ->|]. split; [by intros ->|].
      do 4 (split; [done|]).
      split; [by intros j Hj; rewrite lookup_insert_ne|].
      do 4 (split; [done|]).
      intros _ _. split; intros t -> Ht; simpl;
        by rewrite (proj2 (String.eqb_neq t "") Ht).
  - intros Hst. unfold updateProject. munfold. rewrite Hp. simpl.
    rewrite (bool_decide_eq_false_2 (Project.buyerId p ≠ ReqUser.id user))
      by (intros Hc; by apply Hc).
    simpl. by rewrite (bool_decide_eq_true_2 _ Hst).
Qed.

End Properties.

(** * The claims on the sample deployment *)

(** The selection of the scenario satisfies the hypotheses of C1: the
    project becomes IN_PROGRESS for S1, the bid of S1 is ACCEPTED and the
    bid of S2 is REJECTED. *)
Lemma selectBid_accepts_exactly_one_witness :
  exists p b v,
    projects (db Demo.w_bids) !! "id3" = Some p
    /\ Project.status p = ProjectStatus.PENDING
    /\ bids (db Demo.w_bids) !! "id4" = Some b
    /\ Bid.projectId b = "id3"
    /\ Bid.sellerId b = "id1"
    /\ selectBid 5 Demo.B "id3" Demo.select_S1 Demo.w_bids = (Return v, Demo.w_selected)
    /\ (exists p', projects (db Demo.w_selected) !! "id3" = Some p'
                   /\ Project.status p' = ProjectStatus.IN_PROGRESS
                   /\ Project.sellerId p' = Some "id1")
    /\ (exists b', bids (db Demo.w_selected) !! "id4" = Some b'
                   /\ Bid.projectId b' = "id3"
                   /\ Bid.status b' = BidStatus.ACCEPTED)
    /\ (forall i b', bids (db Demo.w_selected) !! i = Some b' -> Bid.projectId b' = "id3" ->
          i <> "id4" -> Bid.status b' = BidStatus.REJECTED).
Proof.
  assert (exists v, selectBid 5 Demo.B "id3" Demo.select_S1 Demo.w_bids
                    = (Return v, Demo.w_selected)) as [v Hv]
    by (eexists; vm_compute; reflexivity).
  eexists _, _, v.
  assert (projects (db Demo.w_bids) !! "id3"
          = Some (Project.mk "Logo" "A logo" 100 200 10 ProjectStatus.PENDING 2 2 "id0" None))
    as Hp by (vm_compute; reflexivity).
  assert (bids (db Demo.w_bids) !! "id4"
          = Some (Bid.mk 150 3 "I can do it" BidStatus.PENDING 3 3 "id3" "id1"))
    as Hb by (vm_compute; reflexivity).
  split; [exact Hp|]. split; [reflexivity|]. split; [exact Hb|].
  split; [reflexivity|]. split; [reflexivity|]. split; [exact Hv|].
  destruct (selectBid_accepts_exactly_one 5 Demo.B "id3" "id4" "id1" Demo.w_bids _ _ v
              Demo.w_selected Hp eq_refl Hb eq_refl eq_refl Hv) as (H1 & H2 & _ & H4).
  split; [exact H1|]. split; [exact H2|].
  intros i b' Hi Hpi Hne. destruct (H4 i b' Hi Hpi) as (_ & _ & H5). exact (H5 Hne).
Defined.

(** The scenario moves the project forward one step at a time, and the
    completed project refuses update, delete and selectBid by its owner
    with PRECONDITION. *)
Lemma project_status_moves_forward_witness :
  (exists p p', projects (db Demo.w_bids) !! "id3" = Some p
                /\ projects (db Demo.w_selected) !! "id3" = Some p'
                /\ status_forward (Project.status p) (Project.status p'))
  /\ (exists p e, projects (db Demo.w_completed) !! "id3" = Some p
                  /\ Project.status p = ProjectStatus.COMPLETED
                  /\ deleteProject Demo.B "id3" Demo.w_completed = (Throw e, Demo.w_completed)
                  /\ kind e = PRECONDITION /\ statusCode e = Some 400).
Proof.
  destruct (@project_status_moves_forward Z Demo.externals) as (H1 & _ & _ & H4).
  assert (projects (db Demo.w_bids) !! "id3"
          = Some (Project.mk "Logo" "A logo" 100 200 10 ProjectStatus.PENDING 2 2 "id0" None))
    as Hp by (vm_compute; reflexivity).
  assert (projects (db Demo.w_completed) !! "id3"
          = Some (Project.mk "Logo" "A logo" 100 200 10 ProjectStatus.COMPLETED 2 6 "id0"
                    (Some "id1")))
    as Hc by (vm_compute; reflexivity).
  split.
  - pose proof (H1 (Protected 5 (Some "Bearer id0") (SelectBid 5 "id3" Demo.select_S1))
                  Demo.w_bids "id3" _ Hp) as Hf.
    change ((serve _ Demo.w_bids).2) with Demo.w_selected in Hf.
    assert (projects (db Demo.w_selected) !! "id3"
            = Some (Project.mk "Logo" "A logo" 100 200 10 ProjectStatus.IN_PROGRESS 2 5 "id0"
                      (Some "id1")))
      as Hs by (vm_compute; reflexivity).
    rewrite Hs in Hf. eexists _, _. split; [exact Hp|]. split; [exact Hs|]. exact Hf.
  - destruct (H4 6 Demo.B "id3" Demo.w_completed _ Hc eq_refl)
      as (_ & (e & He & Hk & _) & _).
    eexists _, e. split; [exact Hc|]. split; [reflexivity|]. split; [exact He|].
    apply Hk. reflexivity.
Defined.

(** C2 as stated fails for a caller who is not the owner: on the completed
    project of the scenario, an update by the seller S1 is refused with
    FORBIDDEN (403), by the controller and by the route, and not with
    PRECONDITION. *)
Lemma completed_update_by_other_user_is_forbidden :
  (exists p, projects (db Demo.w_completed) !! "id3" = Some p
             /\ Project.status p = ProjectStatus.COMPLETED)
  /\ updateProject 7 Demo.S1 "id3"
       {| ProjectBody.title := Some "New"; ProjectBody.description := None;
          ProjectBody.budget := None; ProjectBody.deadline := None |} Demo.w_completed
     = (Throw (http_error FORBIDDEN 403 "You are not authorized to update this project"),
        Demo.w_completed)
  /\ serve (Protected 7 (Some "Bearer id1")
              (UpdateProject 7 "id3"
                 {| ProjectBody.title := Some "New"; ProjectBody.description := None;
                    ProjectBody.budget := None; ProjectBody.deadline := None |}))
       Demo.w_completed
     = (Throw (http_error FORBIDDEN 403 "Access denied. You do not own this project"),
        Demo.w_completed).
Proof.
  split; [eexists; split; [vm_compute; reflexivity|reflexivity]|].
  split; vm_compute; reflexivity.
Qed.

(** B is registered in the scenario: registering with the email of B
    again is refused with CONFLICT. *)
Lemma register_email_taken_witness :
  exists u,
    users (db Demo.w_users) !! "id0" = Some u
    /\ User.email u = "b@example.org"
    /\ register 8 "pepper"
         {| RegisterBody.name := Some "B again"; RegisterBody.email := Some "b@example.org";
            RegisterBody.password := Some "other"; RegisterBody.role := Some "seller" |}
         Demo.w_users
       = (Throw (http_error CONFLICT 409 "User with this email already exists"),
          Demo.w_users).
Proof.
  assert (users (db Demo.w_users) !! "id0"
          = Some (User.mk "b@example.org" "secret$salt" "B" BUYER None 1 1))
    as Hu by (vm_compute; reflexivity).
  eexists. split; [exact Hu|]. split; [reflexivity|].
  destruct (proj1 (@register_email_taken Z Demo.externals) 8 "pepper"
              {| RegisterBody.name := Some "B again";
                 RegisterBody.email := Some "b@example.org";
                 RegisterBody.password := Some "other";
                 RegisterBody.role := Some "seller" |}
              Demo.w_users "id0" _ Hu eq_refl) as (e & He & _ & Hc & _).
  rewrite He. f_equal. f_equal.
  apply Hc; try reflexivity. vm_compute. apply list_elem_of_further, list_elem_of_here.
Defined.

(** C3 as stated fails for a request that does not pass validation: with
    the email of B but no name, [register] answers VALIDATION (400), not
    CONFLICT. *)
Lemma register_taken_email_without_name_is_validation :
  (exists u, users (db Demo.w_users) !! "id0" = Some u /\ User.email u = "b@example.org")
  /\ register 8 "pepper"
       {| RegisterBody.name := None; RegisterBody.email := Some "b@example.org";
          RegisterBody.password := Some "secret"; RegisterBody.role := Some "BUYER" |}
       Demo.w_users
     = (Throw (http_error VALIDATION 400 "All fields are required"), Demo.w_users).
Proof.
  split; [eexists; split; vm_compute; reflexivity|].
  vm_compute. reflexivity.
Qed.

(** A registration with the role "ADMIN" is refused with VALIDATION. *)
Lemma register_rejects_invalid_fields_witness :
  (toUpperCase "ADMIN" ∉ ["BUYER"; "SELLER"])
  /\ exists e,
       register 1 "salt"
         {| RegisterBody.name := Some "A"; RegisterBody.email := Some "a@example.org";
            RegisterBody.password := Some "secret"; RegisterBody.role := Some "ADMIN" |}
         (init : World Z)
       = (Throw e, init)
       /\ kind e = VALIDATION /\ statusCode e = Some 400.
Proof.
  assert (toUpperCase "ADMIN" ∉ ["BUYER"; "SELLER"]) as Hr.
  { vm_compute. intros Hin. apply list_elem_of_In in Hin. simpl in Hin.
    destruct Hin as [Hin|[Hin|[]]]; discriminate Hin. }
  split; [exact Hr|].
  apply (register_rejects_invalid_fields 1 "salt"
           {| RegisterBody.name := Some "A"; RegisterBody.email := Some "a@example.org";
              RegisterBody.password := Some "secret"; RegisterBody.role := Some "ADMIN" |}
           init).
  right; right; right; right. exact Hr.
Defined.

(** C4 as stated fails for a role that differs from BUYER and SELLER only
    by case: "buyer" is not one of the two strings, and the registration
    succeeds and creates a user with the role BUYER. *)
Lemma register_accepts_lowercase_role :
  ("buyer" ∉ ["BUYER"; "SELLER"])
  /\ exists v w',
       register 1 "salt"
         {| RegisterBody.name := Some "B"; RegisterBody.email := Some "b@example.org";
            RegisterBody.password := Some "secret"; RegisterBody.role := Some "buyer" |}
         (init : World Z)
       = (Return v, w')
       /\ PublicUser.role (user v) = BUYER
       /\ users (db w') !! "id0"
          = Some (User.mk "b@example.org" "secret$salt" "B" BUYER None 1 1).
Proof.
  split.
  - intros Hin. apply list_elem_of_In in Hin. simpl in Hin.
    destruct Hin as [Hin|[Hin|[]]]; discriminate Hin.
  - eexists _, _. split; [vm_compute; reflexivity|].
    split; vm_compute; reflexivity.
Qed.

(** In the scenario nobody has the email of the first login and B has the
    email of the second one, whose password is wrong: both logins get the
    same answer. *)
Lemma login_failures_indistinguishable_witness :
  login 7 {| LoginBody.email := Some "nobody@example.org";
             LoginBody.password := Some "secret" |} Demo.w_users
  = (Throw (http_error UNAUTHORIZED 401 "Invalid credentials"), Demo.w_users)
  /\ login 8 {| LoginBody.email := Some "b@example.org";
                LoginBody.password := Some "wrong" |} Demo.w_users
     = (Throw (http_error UNAUTHORIZED 401 "Invalid credentials"), Demo.w_users)
  /\ (login 7 {| LoginBody.email := Some "nobody@example.org";
                 LoginBody.password := Some "secret" |} Demo.w_users).1
     = (login 8 {| LoginBody.email := Some "b@example.org";
                   LoginBody.password := Some "wrong" |} Demo.w_users).1
  /\ errorHandler (http_error UNAUTHORIZED 401 "Invalid credentials")
     = {| response_status := 401; response_message := "Invalid credentials" |}.
Proof.
  apply (login_failures_indistinguishable 7 8
           {| LoginBody.email := Some "nobody@example.org";
              LoginBody.password := Some "secret" |}
           {| LoginBody.email := Some "b@example.org"; LoginBody.password := Some "wrong" |}
           Demo.w_users Demo.w_users); try reflexivity.
  - apply (bool_decide_unpack
             (map_Forall (fun _ u => User.email u <> "nobody@example.org")
                (users (db Demo.w_users)))).
    vm_compute. exact I.
  - exists "id0", (User.mk "b@example.org" "secret$salt" "B" BUYER None 1 1).
    split; vm_compute; reflexivity.
  - apply (bool_decide_unpack
             (map_Forall (fun _ u => User.email u = "b@example.org" ->
                                     bcrypt_compare "wrong" (User.password u) = false)
                (users (db Demo.w_users)))).
    vm_compute. exact I.
Defined.




Lemma reachable_w_third : reachable Demo.w_third.
Proof.
  unfold Demo.w_third, Demo.w_bids, Demo.w_project, Demo.w_users, Demo.after.
  repeat apply reachable_serve. apply reachable_init.
Qed.

(** In the scenario, once S3 has registered: B sees the two bids of the
    project with the sellers' emails, the bidder S1 sees them without the
    emails, and S3, who has no bid on the project, is refused. *)
Lemma getProjectBids_visibility_witness :
  reachable Demo.w_third
  /\ (exists views,
        getProjectBids Demo.B "id3" Demo.w_third = (Return views, Demo.w_third)
        /\ lists_bids (db Demo.w_third) "id3" true views)
  /\ (exists views,
        getProjectBids Demo.S1 "id3" Demo.w_third = (Return views, Demo.w_third)
        /\ lists_bids (db Demo.w_third) "id3" false views)
  /\ getProjectBids Demo.S3 "id3" Demo.w_third
     = (Throw (http_error FORBIDDEN 403 "You are not authorized to view these bids"),
        Demo.w_third).
Proof.
  assert (projects (db Demo.w_third) !! "id3"
          = Some (Project.mk "Logo" "A logo" 100 200 10 ProjectStatus.PENDING 2 2 "id0" None))
    as Hp by (vm_compute; reflexivity).
  assert (forall user name email role,
            users (db Demo.w_third) !! ReqUser.id user
            = Some (User.mk email "secret$salt" name role None 1 1) ->
            ReqUser.role user = role -> ReqUser.email user = email ->
            ReqUser.name user = name ->
            authenticated (db Demo.w_third) user) as Hauth.
  { intros user name email role Hu Hr He Hn. eexists. split; [exact Hu|].
    repeat split; assumption. }
  split; [exact reachable_w_third|].
  split; [|split].
  - apply (proj1 (getProjectBids_visibility Demo.B "id3" Demo.w_third _ reachable_w_third
                    (Hauth Demo.B "B" "b@example.org" BUYER
                       ltac:(vm_compute; reflexivity) eq_refl eq_refl eq_refl) Hp)).
    reflexivity.
  - apply (proj1 (proj2 (getProjectBids_visibility Demo.S1 "id3" Demo.w_third _
                           reachable_w_third
                           (Hauth Demo.S1 "S1" "s1@example.org" SELLER
                              ltac:(vm_compute; reflexivity) eq_refl eq_refl eq_refl) Hp)));
      [reflexivity|].
    exists "id4", (Bid.mk 150 3 "I can do it" BidStatus.PENDING 3 3 "id3" "id1").
    split; [vm_compute; reflexivity|split; reflexivity].
  - apply (proj2 (proj2 (getProjectBids_visibility Demo.S3 "id3" Demo.w_third _
                           reachable_w_third
                           (Hauth Demo.S3 "S3" "s3@example.org" SELLER
                              ltac:(vm_compute; reflexivity) eq_refl eq_refl eq_refl) Hp)));
      [reflexivity|discriminate|].
    apply (bool_decide_unpack
             (map_Forall (fun _ b => Bid.projectId b = "id3" -> Bid.sellerId b <> "id6")
                (bids (db Demo.w_third)))).
    vm_compute. exact I.
Defined.

(** In the scenario B renames the PENDING project: the title is the new
    one and the other columns keep their values. *)
Lemma updateProject_changes_only_provided_fields_witness :
  exists p r w' p',
    projects (db Demo.w_bids) !! "id3" = Some p
    /\ Project.buyerId p = ReqUser.id Demo.B
    /\ Project.status p = ProjectStatus.PENDING
    /\ updateProject 7 Demo.B "id3" Demo.rename_body Demo.w_bids = (r, w')
    /\ projects (db w') !! "id3" = Some p'
    /\ Project.title p' = "Logo v2"
    /\ Project.description p' = Project.description p
    /\ Project.budgetMin p' = Project.budgetMin p
    /\ Project.budgetMax p' = Project.budgetMax p
    /\ Project.deadline p' = Project.deadline p
    /\ Project.status p' = Project.status p
    /\ Project.sellerId p' = Project.sellerId p.
Proof.
  assert (projects (db Demo.w_bids) !! "id3"
          = Some (Project.mk "Logo" "A logo" 100 200 10 ProjectStatus.PENDING 2 2 "id0" None))
    as Hp by (vm_compute; reflexivity).
  destruct (updateProject 7 Demo.B "id3" Demo.rename_body Demo.w_bids) as [r w'] eqn:E.
  assert (exists v, r = Return v) as [v Hv].
  { assert (exists v, (updateProject 7 Demo.B "id3" Demo.rename_body Demo.w_bids).1
                      = Return v) as [v Hv] by (eexists; vm_compute; reflexivity).
    exists v. by rewrite E in Hv. }
  destruct (proj1 (updateProject_changes_only_provided_fields 7 Demo.B "id3"
                     Demo.rename_body Demo.w_bids _ Hp eq_refl) eq_refl r w' E)
    as (p' & Hp' & _ & Hd & Hb & Hdl & Hst & _ & Hsl & _ & _ & _ & _ & _ & _ & Hnew).
  destruct (Hb eq_refl) as [Hb1 Hb2].
  eexists _, r, w', p'. split; [exact Hp|]. split; [reflexivity|]. split; [reflexivity|].
  split; [reflexivity|]. split; [exact Hp'|].
  split; [apply (proj1 (Hnew v Hv) "Logo v2" eq_refl); discriminate|].
  split; [exact (Hd eq_refl)|]. split; [exact Hb1|]. split; [exact Hb2|].
  split; [exact (Hdl eq_refl)|]. split; [exact Hst|exact Hsl].
Defined.
(** A second bid of S1 in the scenario is an error result (CONFLICT): the
    world after it is the world before it. *)
Lemma error_leaves_store_unchanged_witness :
  exists e w',
    controller Demo.S1 (CreateBid 7 (Demo.bid_body 140 2)) Demo.w_bids = (Throw e, w')
    /\ listed_kind (kind e) = true
    /\ w' = Demo.w_bids.
Proof.
  destruct (controller Demo.S1 (CreateBid 7 (Demo.bid_body 140 2)) Demo.w_bids)
    as [r w'] eqn:E.
  assert (r = Throw (http_error CONFLICT 400 "You have already placed a bid on this project"))
    as ->.
  { change r with (r, w').1. rewrite <- E. vm_compute. reflexivity. }
  eexists _, w'. split; [reflexivity|]. split; [reflexivity|].
  exact (proj1 (proj2 (@error_leaves_store_unchanged Z Demo.externals))
           Demo.S1 (CreateBid 7 (Demo.bid_body 140 2)) Demo.w_bids _ w' E eq_refl).
Defined.

(** * Further properties

    What the code shows beyond the claims above: the routes and their
    guards, the lifecycle of projects and bids over the reachable states,
    and the handlers that only read. *)

Section Further.

Context {Num : Type} `{!Externals Num} `{!QueryExternals Num}.

#[local] Abbreviation M := (Handler Num).

Implicit Types (w : World Num) (s : Store Num) (user : ReqUser.t) (e : JsError).
Implicit Types (now : Z) (projectId bidId : string).

(** ** Authentication *)

Lemma authenticate_refuses now authorization w :
  (truthy authorization = false
   \/ String.prefix "Bearer " (str authorization) = false
   \/ forall userId,
        jwt_verify (second_segment (str authorization)) now = JwtOk userId ->
        users (db w) !! userId = None) ->
  exists e,
    authenticate now authorization w = (Throw e, w)
    /\ (truthy authorization = false
        \/ String.prefix "Bearer " (str authorization) = false
        \/ jwt_verify (second_segment (str authorization)) now = JsonWebTokenError
        \/ jwt_verify (second_segment (str authorization)) now = TokenExpiredError
        \/ (exists userId,
              jwt_verify (second_segment (str authorization)) now = JwtOk userId) ->
        kind e = UNAUTHORIZED /\ statusCode e = Some 401)
    /\ (truthy authorization = true ->
        String.prefix "Bearer " (str authorization) = true ->
        jwt_verify (second_segment (str authorization)) now = NotBeforeError
        \/ jwt_verify (second_segment (str authorization)) now = JwtNoUserId ->
        statusCode e = None /\ response_status (errorHandler e) = 500).
Proof.
  intros Hbad. unfold authenticate. munfold.
  destruct (truthy authorization) eqn:Ht; simpl;
    [|eexists; split; [done|]; split; [done|]; by intros ?].
  destruct (String.prefix "Bearer " (str authorization)) eqn:Hp; simpl;
    [|eexists; split; [done|]; split; [done|]; by intros ? ?].
  destruct Hbad as [?|[?|Hbad]]; [done..|].
  destruct (jwt_verify _ now) as [userId| | | |] eqn:Hv; simpl.
  - rewrite (Hbad userId eq_refl). simpl.
    eexists. split; [done|]. split; [done|]. by intros _ _ [?|?].
  - eexists. split; [done|]. split; [|done].
    by intros [?|[?|[?|[?|[? ?]]]]].
  - eexists. split; [done|]. split; [done|]. by intros _ _ [?|?].
  - eexists. split; [done|]. split; [done|]. by intros _ _ [?|?].
  - eexists. split; [done|]. split; [|done].
    by intros [?|[?|[?|[?|[? ?]]]]].
Qed.

(** X1. A request to a protected route without a usable token is
    refused before anything is touched: when the [Authorization] header
    is missing, empty or does not start with [Bearer ], or when its token
    does not verify to the id of a stored user, every route behind
    [authenticate], writing or reading, throws the same error and leaves
    the world as it was.  The error is UNAUTHORIZED (401) for a missing
    or malformed header, for a token that [jwt.verify] rejects as invalid
    or expired and for a token that names no stored user.  The
    middleware recognises no other failure by name: a token that is not
    valid yet ([NotBeforeError]) or whose payload holds no [userId] is
    refused with an error that carries no status code, which the error
    middleware answers 500. *)
Theorem protected_routes_require_valid_token now authorization w :
  (truthy authorization = false
   \/ String.prefix "Bearer " (str authorization) = false
   \/ forall userId,
        jwt_verify (second_segment (str authorization)) now = JwtOk userId ->
        users (db w) !! userId = None) ->
  exists e,
    (forall op : ProtectedOp,
       serve (Protected now authorization op) w = (Throw e, w))
    /\ (forall op : ReadOp, serve_read now authorization op w = (Throw e, w))
    /\ (truthy authorization = false
        \/ String.prefix "Bearer " (str authorization) = false
        \/ jwt_verify (second_segment (str authorization)) now = JsonWebTokenError
        \/ jwt_verify (second_segment (str authorization)) now = TokenExpiredError
        \/ (exists userId,
              jwt_verify (second_segment (str authorization)) now = JwtOk userId) ->
        kind e = UNAUTHORIZED /\ statusCode e = Some 401)
    /\ (truthy authorization = true ->
        String.prefix "Bearer " (str authorization) = true ->
        jwt_verify (second_segment (str authorization)) now = NotBeforeError
        \/ jwt_verify (second_segment (str authorization)) now = JwtNoUserId ->
        statusCode e = None /\ response_status (errorHandler e) = 500).
Proof.
  intros (e & Ha & H401 & H500)%authenticate_refuses. exists e.
  split; [|split; [|by split]]; intros op; simpl; unfold serve_read; munfold;
    by rewrite Ha.
Qed.

(** X2. The token only names the user: the role, the name and the email
    that a protected route works with are those of the stored row of the
    user whose id the token verifies to, whatever role the token was
    signed with. *)
Theorem authenticate_reads_role_from_store now authorization w user :
  authenticate now authorization w = (Return user, w) ->
  jwt_verify (second_segment (str authorization)) now = JwtOk (ReqUser.id user)
  /\ exists u, users (db w) !! ReqUser.id user = Some u
               /\ ReqUser.role user = User.role u
               /\ ReqUser.name user = User.name u
               /\ ReqUser.email user = User.email u
               /\ ReqUser.avatar user = User.avatar u.
Proof.
  unfold authenticate. munfold. intros H0. mcases.
  split; [done|]. by eexists.
Qed.

(** ** Who can write what *)

(** X3. No request changes or removes a user: a row of the user table,
    and with it the role, the email and the password hash, stays as it is
    through every request that is served. *)
Theorem user_rows_are_permanent (rq : Request) w i u :
  users (db w) !! i = Some u -> users (db (serve rq w).2) !! i = Some u.
Proof.
  intros Hi. destruct (serve rq w) as [r w'] eqn:E.
  apply serve_refines in E as [E|(user & _ & E)]; simpl.
  - by eapply public_effect_users.
  - by rewrite (effect_users _ _ _ E).
Qed.

Lemma effect_project_actor user s s' i :
  effect user s s' -> projects s' !! i <> projects s !! i ->
  match projects s !! i with
  | Some p => Project.buyerId p = ReqUser.id user
  | None => exists p', projects s' !! i = Some p'
                       /\ Project.buyerId p' = ReqUser.id user
                       /\ ReqUser.role user = BUYER
  end.
Proof.
  intros He Hne.
  destruct (effect_projects user s s' i He)
    as [E|[(p' & E & E' & _ & ? & ?)|[(p & p' & E & E' & _ & ? & _)|(p & E & E' & ? & _)]]];
    [done|rewrite E..]; [by eexists|done..].
Qed.

(** X4. Only its owner writes a project: when a request creates, changes
    or removes a project row, the request went through a protected route,
    its token authenticated a stored user, and that user is the buyer of
    the row (for a new row: a BUYER who becomes its buyer). *)
Theorem project_written_only_by_owner (rq : Request) w i :
  projects (db (serve rq w).2) !! i <> projects (db w) !! i ->
  exists now authorization op user,
    rq = Protected now authorization op
    /\ authenticate now authorization w = (Return user, w)
    /\ match projects (db w) !! i with
       | Some p => Project.buyerId p = ReqUser.id user
       | None => exists p', projects (db (serve rq w).2) !! i = Some p'
                            /\ Project.buyerId p' = ReqUser.id user
                            /\ ReqUser.role user = BUYER
       end.
Proof.
  destruct rq as [op|now authorization op].
  - intros Hne. exfalso. apply Hne.
    destruct (serve (Public op) w) as [r w'] eqn:E. simpl in *.
    apply public_refines in E. by rewrite (public_effect_projects _ _ E).
  - simpl. munfold.
    destruct (authenticate now authorization w) as [[user|e] w1] eqn:Ha;
      pose proof Ha as [-> _]%authenticate_spec; [|done].
    destruct (middleware user op w) as [[[]|e] w1] eqn:Hm;
      apply middleware_reads in Hm as ->; [|done].
    destruct (controller user op w) as [r w'] eqn:Hc. simpl.
    apply controller_refines in Hc. intros Hne.
    exists now, authorization, op, user. do 2 (split; [done|]).
    by apply effect_project_actor.
Qed.

Lemma effect_bid_actor user s s' i :
  effect user s s' -> bids s' !! i <> bids s !! i ->
  match bids s !! i with
  | Some b =>
      Bid.sellerId b = ReqUser.id user
      \/ exists p, projects s !! Bid.projectId b = Some p
                   /\ Project.buyerId p = ReqUser.id user
  | None => exists b', bids s' !! i = Some b'
                       /\ Bid.sellerId b' = ReqUser.id user
                       /\ ReqUser.role user = SELLER
  end.
Proof.
  destruct 1; simpl; try done.
  - rewrite lookup_imap_total.
    destruct (decide (i = bid)) as [->|Hne].
    + intros _.
      match goal with H : bids s !! bid = Some _ |- _ => rewrite H end.
      right. subst. by eexists.
    + rewrite lookup_insert_ne by done.
      destruct (bids s !! i) as [b0|] eqn:E; [|done]. simpl.
      unfold other_bids_of.
      destruct (bool_decide (Bid.projectId b0 = projectId)) eqn:Hp; [|simpl; done].
      apply bool_decide_eq_true in Hp. intros _. right. rewrite Hp. by eexists.
  - destruct (decide (i = uuid now s)) as [->|Hne].
    + intros _. rewrite lookup_insert_eq.
      match goal with H : bids s !! uuid now s = None |- _ => rewrite H end.
      by eexists.
    + by rewrite lookup_insert_ne.
  - destruct (decide (i = bidId)) as [->|Hne].
    + intros _.
      match goal with H : bids s !! bidId = Some _ |- _ => rewrite H end. by left.
    + by rewrite lookup_insert_ne.
  - destruct (decide (i = bidId)) as [->|Hne].
    + intros _.
      match goal with H : bids s !! bidId = Some _ |- _ => rewrite H end. by left.
    + by rewrite lookup_delete_ne.
Qed.

(** X5. Only its seller or the owner of its project writes a bid: when a
    request creates, changes or removes a bid row, the request went
    through a protected route as a stored user who is the seller of the
    bid (for a new row: a SELLER who becomes its seller) or the buyer of
    the project that the bid is on. *)
Theorem bid_written_only_by_seller_or_project_owner (rq : Request) w i :
  bids (db (serve rq w).2) !! i <> bids (db w) !! i ->
  exists now authorization op user,
    rq = Protected now authorization op
    /\ authenticate now authorization w = (Return user, w)
    /\ match bids (db w) !! i with
       | Some b =>
           Bid.sellerId b = ReqUser.id user
           \/ exists p, projects (db w) !! Bid.projectId b = Some p
                        /\ Project.buyerId p = ReqUser.id user
       | None => exists b', bids (db (serve rq w).2) !! i = Some b'
                            /\ Bid.sellerId b' = ReqUser.id user
                            /\ ReqUser.role user = SELLER
       end.
Proof.
  destruct rq as [op|now authorization op].
  - intros Hne. exfalso. apply Hne.
    destruct (serve (Public op) w) as [r w'] eqn:E. simpl in *.
    apply public_refines in E. by rewrite (public_effect_bids _ _ E).
  - simpl. munfold.
    destruct (authenticate now authorization w) as [[user|e] w1] eqn:Ha;
      pose proof Ha as [-> _]%authenticate_spec; [|done].
    destruct (middleware user op w) as [[[]|e] w1] eqn:Hm;
      apply middleware_reads in Hm as ->; [|done].
    destruct (controller user op w) as [r w'] eqn:Hc. simpl.
    apply controller_refines in Hc. intros Hne.
    exists now, authorization, op, user. do 2 (split; [done|]).
    by apply effect_bid_actor.
Qed.

(** ** The lifecycle over the reachable states *)

Lemma select_lookup now projectId bid (b : Bid.t Num) (bs : gmap string (Bid.t Num)) i :
  map_imap (fun i b' =>
      Some (if other_bids_of projectId bid i b'
            then bid_set now (bid_status_data BidStatus.REJECTED) b' else b'))
    (<[bid := bid_set now (bid_status_data BidStatus.ACCEPTED) b]> bs) !! i
  = if decide (i = bid) then Some (bid_set now (bid_status_data BidStatus.ACCEPTED) b)
    else (fun b' => if bool_decide (Bid.projectId b' = projectId)
                    then bid_set now (bid_status_data BidStatus.REJECTED) b' else b')
         <$> bs !! i.
Proof.
  rewrite lookup_imap_total. destruct (decide (i = bid)) as [->|Hne].
  - rewrite lookup_insert_eq. simpl. unfold other_bids_of.
    rewrite (bool_decide_eq_false_2 (bid ≠ bid)) by (intros ?; done).
    by rewrite andb_false_r.
  - rewrite lookup_insert_ne by done. destruct (bs !! i); [|done]. simpl.
    unfold other_bids_of. rewrite (bool_decide_eq_true_2 (i ≠ bid)) by done.
    by rewrite andb_true_r.
Qed.

Lemma lifecycle_init : lifecycle (db (init : World Num)).
Proof. repeat split; intros ?; intros; simpl in *; by simplify_map_eq. Qed.

Lemma public_effect_lifecycle s s' : public_effect s s' -> lifecycle s -> lifecycle s'.
Proof. by destruct 1. Qed.

Lemma effect_lifecycle user s s' : effect user s s' -> lifecycle s -> lifecycle s'.
Proof.
  unfold lifecycle, seller_iff_started, bid_project_exists, bids_follow_project,
    accepted_is_assigned, started_has_accepted.
  intros He (Hs & Hx & Hf & Ha & Hh).
  destruct He as [ | now p Hr Hu Hfresh Hst Hb Hsl
                   | now projectId body p Hp Hb Hst
                   | projectId p Hp Hb Hst Hnone
                   | now projectId bid seller p b Hp Hb Hst Hbid Hbp Hbs Hu
                   | now projectId p Hp Hb Hst
                   | fs
                   | now projectId p b Hr Hp Hst Hnone Hu Hfresh Hbst Hbp Hbs
                   | now bidId body b p Hbid Hbs Hbst Hp Hst
                   | bidId b p Hbid Hbs Hbst Hp Hst ].
  - done.
  - (* createProject *)
    assert (Hnew : forall i b, bids s !! i = Some b -> Bid.projectId b <> uuid now s).
    { intros i b Hi E. destruct (Hx i b Hi) as [q Hq]. congruence. }
    split; [|split; [|split; [|split]]]; simpl.
    + intros i q. destruct (decide (i = uuid now s)) as [->|Hne].
      * rewrite lookup_insert_eq. intros [= <-]. by rewrite Hsl, Hst.
      * rewrite lookup_insert_ne by done. apply Hs.
    + intros i b0 Hi. rewrite lookup_insert_ne by (symmetry; by eapply Hnew). by eapply Hx.
    + intros i b0 q Hi. rewrite lookup_insert_ne by (symmetry; by eapply Hnew). by apply (Hf i).
    + intros i b0 q Hi. rewrite lookup_insert_ne by (symmetry; by eapply Hnew). by apply (Ha i).
    + intros i q. destruct (decide (i = uuid now s)) as [->|Hne].
      * rewrite lookup_insert_eq. intros [= <-]. by rewrite Hst.
      * rewrite lookup_insert_ne by done. apply Hh.
  - (* updateProject *)
    split; [|split; [|split; [|split]]]; simpl.
    + intros i q. destruct (decide (i = projectId)) as [->|Hne].
      * rewrite lookup_insert_eq. intros [= <-]. simpl. by apply Hs in Hp.
      * rewrite lookup_insert_ne by done. apply Hs.
    + intros i b0 Hi. apply lookup_insert_is_Some'. right. by eapply Hx.
    + intros i b0 q Hi. destruct (decide (Bid.projectId b0 = projectId)) as [E|Hne].
      * rewrite E, lookup_insert_eq. intros [= <-]. simpl. apply (Hf i b0); congruence.
      * rewrite lookup_insert_ne by done. by apply (Hf i).
    + intros i b0 q Hi. destruct (decide (Bid.projectId b0 = projectId)) as [E|Hne].
      * rewrite E, lookup_insert_eq. intros [= <-]. simpl. apply (Ha i b0); congruence.
      * rewrite lookup_insert_ne by done. by apply (Ha i).
    + intros i q. destruct (decide (i = projectId)) as [->|Hne].
      * rewrite lookup_insert_eq. intros [= <-]. simpl. by apply Hh.
      * rewrite lookup_insert_ne by done. apply Hh.
  - (* deleteProject *)
    assert (Hnew : forall i b, bids s !! i = Some b -> Bid.projectId b <> projectId).
    { intros i b Hi E.
      pose proof (proj1 (find_first_None _ _) Hnone i b Hi) as Hc. simpl in Hc.
      by rewrite bool_decide_eq_true_2 in Hc. }
    split; [|split; [|split; [|split]]]; simpl.
    + intros i q Hi. apply lookup_delete_Some in Hi as [_ Hi]. by eapply Hs.
    + intros i b0 Hi. rewrite lookup_delete_ne by (symmetry; by eapply Hnew). by eapply Hx.
    + intros i b0 q Hi. rewrite lookup_delete_ne by (symmetry; by eapply Hnew). by apply (Hf i).
    + intros i b0 q Hi. rewrite lookup_delete_ne by (symmetry; by eapply Hnew). by apply (Ha i).
    + intros i q Hi. apply lookup_delete_Some in Hi as [_ Hi]. by eapply Hh.
  - (* selectBid *)
    split; [|split; [|split; [|split]]]; simpl.
    + intros i q. destruct (decide (i = projectId)) as [->|Hne].
      * rewrite lookup_insert_eq. intros [= <-]. simpl. by split.
      * rewrite lookup_insert_ne by done. apply Hs.
    + intros i b0. rewrite select_lookup. destruct (decide (i = bid)) as [->|Hne].
      * intros [= <-]. simpl. apply lookup_insert_is_Some'. right. by eapply Hx.
      * destruct (bids s !! i) as [b1|] eqn:E; [|done]. simpl. intros [= <-].
        apply lookup_insert_is_Some'. right.
        destruct (bool_decide _); simpl; by eapply Hx.
    + intros i b0 q. rewrite select_lookup. destruct (decide (i = bid)) as [->|Hne].
      * intros [= <-]. simpl. rewrite Hbp, lookup_insert_eq. intros [= <-]. simpl.
        by split.
      * destruct (bids s !! i) as [b1|] eqn:E; [|done]. simpl. intros [= <-].
        destruct (bool_decide (Bid.projectId b1 = projectId)) eqn:Hd.
        -- apply bool_decide_eq_true in Hd. simpl.
           rewrite Hd, lookup_insert_eq. intros [= <-]. simpl. by split.
        -- apply bool_decide_eq_false in Hd. rewrite lookup_insert_ne by done.
           by apply (Hf i).
    + intros i b0 q. rewrite select_lookup. destruct (decide (i = bid)) as [->|Hne].
      * intros [= <-]. simpl. rewrite Hbp, lookup_insert_eq. intros [= <-] _. simpl.
        by rewrite Hbs.
      * destruct (bids s !! i) as [b1|] eqn:E; [|done]. simpl. intros [= <-].
        destruct (bool_decide (Bid.projectId b1 = projectId)) eqn:Hd; [done|].
        apply bool_decide_eq_false in Hd. rewrite lookup_insert_ne by done.
        by apply (Ha i).
    + intros i q. destruct (decide (i = projectId)) as [->|Hne].
      * rewrite lookup_insert_eq. intros _ _. exists bid. eexists.
        rewrite select_lookup, decide_True by done. by split.
      * rewrite lookup_insert_ne by done. intros Hi Hq.
        destruct (Hh i q Hi Hq) as (j & b1 & Hj & Hjp & Hjs).
        exists j, b1. rewrite select_lookup.
        destruct (decide (j = bid)) as [->|Hjb]; [congruence|].
        rewrite Hj. simpl. rewrite bool_decide_eq_false_2 by congruence. done.
  - (* completeProject *)
    split; [|split; [|split; [|split]]]; simpl.
    + intros i q. destruct (decide (i = projectId)) as [->|Hne].
      * rewrite lookup_insert_eq. intros [= <-]. simpl.
        apply Hs in Hp. rewrite Hst in Hp. split; [|done]. intros E. by apply Hp in E.
      * rewrite lookup_insert_ne by done. apply Hs.
    + intros i b0 Hi. apply lookup_insert_is_Some'. right. by eapply Hx.
    + intros i b0 q Hi. destruct (decide (Bid.projectId b0 = projectId)) as [E|Hne].
      * rewrite E, lookup_insert_eq. intros [= <-]. simpl.
        rewrite <- E in Hp. apply (Hf i b0) in Hp; [|done]. rewrite Hst in Hp.
        split; [|done]. intros E'. by apply Hp in E'.
      * rewrite lookup_insert_ne by done. by apply (Hf i).
    + intros i b0 q Hi. destruct (decide (Bid.projectId b0 = projectId)) as [E|Hne].
      * rewrite E, lookup_insert_eq. intros [= <-]. simpl. apply (Ha i b0); congruence.
      * rewrite lookup_insert_ne by done. by apply (Ha i).
    + intros i q. destruct (decide (i = projectId)) as [->|Hne].
      * rewrite lookup_insert_eq. intros _ _. apply (Hh projectId p Hp). by rewrite Hst.
      * rewrite lookup_insert_ne by done. apply Hh.
  - (* uploadProjectFiles *)
    done.
  - (* createBid *)
    split; [|split; [|split; [|split]]]; simpl.
    + done.
    + intros i b0. destruct (decide (i = uuid now s)) as [->|Hne].
      * rewrite lookup_insert_eq. intros [= <-]. by rewrite Hbp, Hp.
      * rewrite lookup_insert_ne by done. apply Hx.
    + intros i b0 q. destruct (decide (i = uuid now s)) as [->|Hne].
      * rewrite lookup_insert_eq. intros [= <-]. rewrite Hbp, Hp. intros [= <-].
        by rewrite Hbst, Hst.
      * rewrite lookup_insert_ne by done. apply Hf.
    + intros i b0 q. destruct (decide (i = uuid now s)) as [->|Hne].
      * rewrite lookup_insert_eq. intros [= <-]. by rewrite Hbst.
      * rewrite lookup_insert_ne by done. apply Ha.
    + intros i q Hi Hq. destruct (Hh i q Hi Hq) as (j & b1 & Hj & Hjp & Hjs).
      exists j, b1. rewrite lookup_insert_ne by (intros <-; congruence). done.
  - (* updateBid *)
    split; [|split; [|split; [|split]]]; simpl.
    + done.
    + intros i b0. destruct (decide (i = bidId)) as [->|Hne].
      * rewrite lookup_insert_eq. intros [= <-]. simpl. by eapply Hx.
      * rewrite lookup_insert_ne by done. apply Hx.
    + intros i b0 q. destruct (decide (i = bidId)) as [->|Hne].
      * rewrite lookup_insert_eq. intros [= <-]. simpl. by apply (Hf bidId).
      * rewrite lookup_insert_ne by done. apply Hf.
    + intros i b0 q. destruct (decide (i = bidId)) as [->|Hne].
      * rewrite lookup_insert_eq. intros [= <-]. simpl. by apply (Ha bidId).
      * rewrite lookup_insert_ne by done. apply Ha.
    + intros i q Hi Hq. destruct (Hh i q Hi Hq) as (j & b1 & Hj & Hjp & Hjs).
      exists j, b1. rewrite lookup_insert_ne by (intros <-; congruence). done.
  - (* deleteBid *)
    split; [|split; [|split; [|split]]]; simpl.
    + done.
    + intros i b0 Hi. apply lookup_delete_Some in Hi as [_ Hi]. by eapply Hx.
    + intros i b0 q Hi. apply lookup_delete_Some in Hi as [_ Hi]. by apply (Hf i).
    + intros i b0 q Hi. apply lookup_delete_Some in Hi as [_ Hi]. by apply (Ha i).
    + intros i q Hi Hq. destruct (Hh i q Hi Hq) as (j & b1 & Hj & Hjp & Hjs).
      exists j, b1. rewrite lookup_delete_ne by (intros <-; congruence). done.
Qed.

Lemma reachable_lifecycle w : reachable w -> lifecycle (db w).
Proof.
  induction 1 as [|w rq Hw IH]; [apply lifecycle_init|].
  destruct (serve rq w) as [r w'] eqn:E. simpl.
  apply serve_refines in E as [He|(user & _ & He)].
  - by eapply public_effect_lifecycle.
  - by eapply effect_lifecycle.
Qed.

(** X6. On every reachable state a project has an assigned seller exactly
    when it has left PENDING: [sellerId] is null on a PENDING project and
    set on a project IN_PROGRESS or COMPLETED. *)
Theorem seller_assigned_iff_started w i p :
  reachable w -> projects (db w) !! i = Some p ->
  (Project.sellerId p = None <-> Project.status p = ProjectStatus.PENDING).
Proof.
  intros Hw Hp. destruct (reachable_lifecycle w Hw) as (Hs & _). exact (Hs i p Hp).
Qed.



Lemma effect_started_project user s s' i p :
  effect user s s' -> projects s !! i = Some p ->
  Project.status p <> ProjectStatus.PENDING ->
  exists p', projects s' !! i = Some p'
             /\ Project.sellerId p' = Project.sellerId p
             /\ Project.buyerId p' = Project.buyerId p
             /\ Project.title p' = Project.title p
             /\ Project.description p' = Project.description p
             /\ Project.budgetMin p' = Project.budgetMin p
             /\ Project.budgetMax p' = Project.budgetMax p
             /\ Project.deadline p' = Project.deadline p
             /\ Project.createdAt p' = Project.createdAt p.
Proof.
  intros He Hi Hst.
  destruct He as [ | now p0 Hr Hu Hfresh Hst0 Hb Hsl
                   | now projectId body p0 Hp Hb Hst0
                   | projectId p0 Hp Hb Hst0 Hnone
                   | now projectId bid seller p0 b Hp Hb Hst0 Hbid Hbp Hbs Hu
                   | now projectId p0 Hp Hb Hst0
                   | fs
                   | now projectId p0 b Hr Hp Hst0 Hnone Hu Hfresh Hbst Hbp Hbs
                   | now bidId body b p0 Hbid Hbs Hbst Hp Hst0
                   | bidId b p0 Hbid Hbs Hbst Hp Hst0 ]; simpl;
    try (by exists p).
  - rewrite lookup_insert_ne by congruence. by exists p.
  - rewrite lookup_insert_ne by congruence. by exists p.
  - rewrite lookup_delete_ne by congruence. by exists p.
  - rewrite lookup_insert_ne by congruence. by exists p.
  - destruct (decide (i = projectId)) as [->|Hne].
    + rewrite lookup_insert_eq. eexists. split; [done|]. simplify_eq. done.
    + rewrite lookup_insert_ne by done. by exists p.
Qed.

(** X9. Once a seller is assigned, the assignment stays: on a reachable
    state, whatever request is served next, a project that has a seller
    is still in the store afterwards with the same seller and the same
    buyer, title, description, budget and deadline. *)
Theorem assigned_seller_is_fixed (rq : Request) w i p sl :
  reachable w -> projects (db w) !! i = Some p -> Project.sellerId p = Some sl ->
  exists p', projects (db (serve rq w).2) !! i = Some p'
             /\ Project.sellerId p' = Some sl
             /\ Project.buyerId p' = Project.buyerId p
             /\ Project.title p' = Project.title p
             /\ Project.description p' = Project.description p
             /\ Project.budgetMin p' = Project.budgetMin p
             /\ Project.budgetMax p' = Project.budgetMax p
             /\ Project.deadline p' = Project.deadline p.
Proof.
  intros (Hs & _)%reachable_lifecycle Hi Hsl.
  assert (Hst : Project.status p <> ProjectStatus.PENDING).
  { intros E. apply (Hs i p Hi) in E. congruence. }
  destruct (serve rq w) as [r w'] eqn:E. simpl.
  apply serve_refines in E as [He|(user & _ & He)].
  - rewrite (public_effect_projects _ _ He). by exists p.
  - destruct (effect_started_project user _ _ i p He Hi Hst)
      as (p' & ? & ? & ? & ? & ? & ? & ? & ? & ?).
    exists p'. repeat split; congruence.
Qed.

Lemma effect_completed_frozen user s s' i p :
  effect user s s' -> projects s !! i = Some p ->
  Project.status p = ProjectStatus.COMPLETED ->
  projects s' !! i = Some p
  /\ forall j b, Bid.projectId b = i -> bids s' !! j = Some b <-> bids s !! j = Some b.
Proof.
  intros He Hi Hst.
  destruct He as [ | now p0 Hr Hu Hfresh Hst0 Hb Hsl
                   | now projectId body p0 Hp Hb Hst0
                   | projectId p0 Hp Hb Hst0 Hnone
                   | now projectId bid seller p0 b Hp Hb Hst0 Hbid Hbp Hbs Hu
                   | now projectId p0 Hp Hb Hst0
                   | fs
                   | now projectId p0 b Hr Hp Hst0 Hnone Hu Hfresh Hbst Hbp Hbs
                   | now bidId body b p0 Hbid Hbs Hbst Hp Hst0
                   | bidId b p0 Hbid Hbs Hbst Hp Hst0 ]; simpl;
    try done.
  - by rewrite lookup_insert_ne by congruence.
  - by rewrite lookup_insert_ne by congruence.
  - by rewrite lookup_delete_ne by congruence.
  - assert (Hne : i <> projectId) by congruence.
    rewrite lookup_insert_ne by done. split; [done|].
    intros j b0 Hb0. rewrite select_lookup.
    destruct (decide (j = bid)) as [->|Hj].
    + split; intros E; simplify_eq; simpl in *; congruence.
    + destruct (bids s !! j) as [b1|] eqn:E1; simpl; [|done].
      destruct (bool_decide (Bid.projectId b1 = projectId)) eqn:Hd.
      * apply bool_decide_eq_true in Hd. split; intros E; simplify_eq; simpl in *; congruence.
      * done.
  - by rewrite lookup_insert_ne by congruence.
  - split; [done|]. intros j b0 Hb0.
    destruct (decide (j = uuid now s)) as [->|Hj].
    + rewrite lookup_insert_eq, Hfresh. split; intros E; simplify_eq; simpl in *; congruence.
    + by rewrite lookup_insert_ne.
  - split; [done|]. intros j b0 Hb0.
    destruct (decide (j = bidId)) as [->|Hj].
    + rewrite lookup_insert_eq, Hbid. split; intros E; simplify_eq; simpl in *; congruence.
    + by rewrite lookup_insert_ne.
  - split; [done|]. intros j b0 Hb0.
    destruct (decide (j = bidId)) as [->|Hj].
    + rewrite lookup_delete_eq, Hbid. split; intros E; simplify_eq; simpl in *; congruence.
    + by rewrite lookup_delete_ne.
Qed.

(** X10. COMPLETED is terminal: whatever request is served next, a
    COMPLETED project keeps its row unchanged, none of its bids is
    changed or removed, and no bid is added to it. *)
Theorem completed_project_is_frozen (rq : Request) w i p :
  projects (db w) !! i = Some p -> Project.status p = ProjectStatus.COMPLETED ->
  projects (db (serve rq w).2) !! i = Some p
  /\ forall j b, Bid.projectId b = i ->
       bids (db (serve rq w).2) !! j = Some b <-> bids (db w) !! j = Some b.
Proof.
  intros Hi Hst. destruct (serve rq w) as [r w'] eqn:E. simpl.
  apply serve_refines in E as [He|(user & _ & He)].
  - by rewrite (public_effect_projects _ _ He), (public_effect_bids _ _ He).
  - by eapply effect_completed_frozen.
Qed.

(** ** Users *)

Lemma public_effect_email_unique s s' :
  public_effect s s' -> email_unique s -> email_unique s'.
Proof.
  destruct 1 as [|now u Hfresh Hnone _]; [done|].
  intros Hu i j ui uj. simpl.
  assert (Hother : forall k uk, users s !! k = Some uk -> User.email uk <> User.email u).
  { intros k uk Hk E.
    pose proof (proj1 (find_first_None _ _) Hnone k uk Hk) as Hc. simpl in Hc.
    by rewrite bool_decide_eq_true_2 in Hc. }
  destruct (decide (i = uuid now s)) as [->|Hi], (decide (j = uuid now s)) as [->|Hj];
    rewrite ?lookup_insert_eq, ?lookup_insert_ne by done; [done| | |apply Hu].
  - intros [= <-] Hj' E. symmetry in E. by apply (Hother j) in E.
  - intros Hi' [= <-] E. by apply (Hother i) in E.
Qed.

(** X11. On every reachable state no two users share an email: the
    check of [register] and the unique index keep the emails of the user
    table pairwise distinct. *)
Theorem emails_are_unique w i j ui uj :
  reachable w -> users (db w) !! i = Some ui -> users (db w) !! j = Some uj ->
  User.email ui = User.email uj -> i = j.
Proof.
  intros Hw. revert i j ui uj. fold (email_unique (db w)).
  induction Hw as [|w rq Hw IH].
  - intros i j ui uj Hi. simpl in Hi. by simplify_map_eq.
  - destruct (serve rq w) as [r w'] eqn:E. simpl.
    apply serve_refines in E as [He|(user & _ & He)].
    + by eapply public_effect_email_unique.
    + unfold email_unique. by rewrite (effect_users _ _ _ He).
Qed.

Lemma reachable_bid_by_seller w :
  reachable w ->
  forall i b, bids (db w) !! i = Some b ->
    exists u, users (db w) !! Bid.sellerId b = Some u /\ User.role u = SELLER.
Proof.
  induction 1 as [|w rq Hw IH].
  - intros i b Hi. simpl in Hi. by simplify_map_eq.
  - intros i b'. destruct (serve rq w) as [r w'] eqn:E. simpl in *.
    apply serve_refines in E as [He|(user & (u & Hu & Hr & _) & He)].
    + rewrite (public_effect_bids _ _ He). intros Hi.
      destruct (IH i b' Hi) as (u & Hu & Hr). exists u.
      split; [by eapply public_effect_users|done].
    + rewrite (effect_users _ _ _ He). intros Hi.
      destruct (bids (db w) !! i) as [b|] eqn:Hb.
      * destruct (bid_origin _ _ _ _ _ He Hi) as [(b0 & Hb0 & _ & Hsl)|(Hn & _)];
          [|congruence].
        rewrite Hsl. by apply (IH i b0).
      * pose proof (effect_bid_actor user _ _ i He) as Hact. rewrite Hb in Hact.
        destruct Hact as (b'' & Hb'' & Hsl & Hrole); [congruence|].
        rewrite Hi in Hb''. simplify_eq. exists u. rewrite Hsl.
        split; [done|congruence].
Qed.

(** X12. The roles are respected on every reachable state: the buyer of
    a project is a stored user with role BUYER, the seller of a bid is a
    stored user with role SELLER, and so is the seller assigned to a
    project. *)
Theorem roles_are_respected w :
  reachable w ->
  (forall i p, projects (db w) !! i = Some p ->
     exists u, users (db w) !! Project.buyerId p = Some u /\ User.role u = BUYER)
  /\ (forall i b, bids (db w) !! i = Some b ->
        exists u, users (db w) !! Bid.sellerId b = Some u /\ User.role u = SELLER)
  /\ (forall i p sl, projects (db w) !! i = Some p -> Project.sellerId p = Some sl ->
        exists u, users (db w) !! sl = Some u /\ User.role u = SELLER).
Proof.
  intros Hw. split; [|split].
  - by destruct (reachable_consistent w Hw) as (Ho & _).
  - by apply reachable_bid_by_seller.
  - intros i p sl Hp Hsl.
    destruct (reachable_lifecycle w Hw) as (Hs & _ & _ & Ha & Hh).
    assert (Hst : Project.status p <> ProjectStatus.PENDING).
    { intros E. apply (Hs i p Hp) in E. congruence. }
    destruct (Hh i p Hp Hst) as (j & b & Hj & Hjp & Hjs). subst i.
    pose proof (Ha j b p Hj Hp Hjs) as E. rewrite Hsl in E. simplify_eq.
    by eapply reachable_bid_by_seller.
Qed.

(** ** Project controller *)

(** X13. A project that has a bid cannot be deleted: the foreign key of
    the bid table is ON DELETE RESTRICT, so [deleteProject] by the owner
    of a PENDING project on which a bid was placed fails in the ORM, the
    error middleware answers 500, and the project, its bids and its files
    stay. *)
Theorem deleteProject_refused_while_bids_exist user projectId w p i b :
  projects (db w) !! projectId = Some p ->
  Project.buyerId p = ReqUser.id user ->
  Project.status p = ProjectStatus.PENDING ->
  bids (db w) !! i = Some b -> Bid.projectId b = projectId ->
  exists e, deleteProject user projectId w = (Throw e, w)
            /\ kind e = INTERNAL
            /\ response_status (errorHandler e) = 500.
Proof.
  intros Hp Hb Hst Hi Hbp. unfold deleteProject. munfold. rewrite Hp. simpl.
  rewrite (bool_decide_eq_false_2 (Project.buyerId p ≠ ReqUser.id user)) by (intros ?; done).
  rewrite (bool_decide_eq_false_2 (Project.status p ≠ ProjectStatus.PENDING))
    by (intros ?; done).
  simpl. rewrite Hp. simpl.
  rewrite bool_decide_eq_true_2; [by eexists|].
  apply (find_first_is_Some _ _ i b Hi). simpl. by apply bool_decide_eq_true_2.
Qed.

(** X14. A successful [deleteProject] removes the project and its file
    rows and nothing else: the project had no bid, the bid and user
    tables are as before, the other projects stay, a file row stays
    exactly when it belongs to another project, and no mail is sent. *)
Theorem deleteProject_removes_project_and_files_only user projectId w v w' :
  deleteProject user projectId w = (Return v, w') ->
  projects (db w') = delete projectId (projects (db w))
  /\ users (db w') = users (db w)
  /\ bids (db w') = bids (db w)
  /\ (forall j b, bids (db w) !! j = Some b -> Bid.projectId b <> projectId)
  /\ (forall j f, files (db w') !! j = Some f
                  <-> files (db w) !! j = Some f /\ File.projectId f <> projectId)
  /\ outbox w' = outbox w.
Proof.
  intros [(e & ? & _)|(v0 & p & _ & _ & _ & _ & Hnone & ->)]%deleteProject_spec; [done|].
  simpl. do 3 (split; [done|]). split; [|split; [|done]].
  - intros j b Hj E.
    pose proof (proj1 (find_first_None _ _) Hnone j b Hj) as Hc. simpl in Hc.
    by rewrite bool_decide_eq_true_2 in Hc.
  - intros j f. rewrite map_lookup_filter_Some. simpl. done.
Qed.

(** The mail that [completeProject] sends to the seller of the project. *)
Lemma completeProject_run now user projectId w p :
  projects (db w) !! projectId = Some p ->
  Project.buyerId p = ReqUser.id user ->
  Project.status p = ProjectStatus.IN_PROGRESS ->
  exists v mails,
    completeProject now user projectId w
    = (Return v,
       {| db := with_projects
                  (insert projectId
                     (project_set now (project_status_data ProjectStatus.COMPLETED None) p))
                  (db w);
          outbox := outbox w ++ mails |})
    /\ ProjectView.row v
       = project_set now (project_status_data ProjectStatus.COMPLETED None) p
    /\ mails
       = match Project.sellerId p ≫= (fun sl => users (db w) !! sl) with
         | Some sl =>
             if String.eqb (User.email sl) "" then []
             else [ {| to := User.email sl;
                       subject := "Project " ++ dquote ++ Project.title p ++ dquote
                                  ++ " has been marked as completed";
                       text := "The project " ++ dquote ++ Project.title p ++ dquote
                               ++ " has been marked as completed by the client. Thank you for your work!" |} ]
         | None => []
         end.
Proof.
  intros Hp Hb Hst. unfold completeProject. munfold. rewrite Hp. simpl.
  rewrite (bool_decide_eq_false_2 (Project.buyerId p ≠ ReqUser.id user)) by (intros ?; done).
  rewrite (bool_decide_eq_false_2 (Project.status p ≠ ProjectStatus.IN_PROGRESS))
    by (intros ?; done).
  simpl. rewrite Hp. simpl.
  destruct (Project.sellerId p) as [sl|] eqn:Hsl; simpl.
  - destruct (users (db w) !! sl) as [u|] eqn:Hu; simpl.
    + destruct (String.eqb (User.email u) "") eqn:He; simpl.
      * eexists _, []. rewrite app_nil_r. split; [reflexivity|]. by split.
      * eexists _, [_]. split; [reflexivity|]. by split.
    + eexists _, []. rewrite app_nil_r. split; [reflexivity|]. by split.
  - eexists _, []. rewrite app_nil_r. split; [reflexivity|]. by split.
Qed.

(** X15. [completeProject] by the owner of a project IN_PROGRESS always
    succeeds: the project becomes COMPLETED and keeps its seller, buyer,
    title, description, budget and deadline, every other row of the store
    stays, and the seller of the project, when the store has the user and
    an email for them, is sent one mail. *)
Theorem completeProject_completes now user projectId w p :
  projects (db w) !! projectId = Some p ->
  Project.buyerId p = ReqUser.id user ->
  Project.status p = ProjectStatus.IN_PROGRESS ->
  exists v w' p',
    completeProject now user projectId w = (Return v, w')
    /\ projects (db w') = <[projectId := p']> (projects (db w))
    /\ ProjectView.row v = p'
    /\ Project.status p' = ProjectStatus.COMPLETED
    /\ Project.sellerId p' = Project.sellerId p
    /\ Project.buyerId p' = Project.buyerId p
    /\ Project.title p' = Project.title p
    /\ Project.description p' = Project.description p
    /\ Project.budgetMin p' = Project.budgetMin p
    /\ Project.budgetMax p' = Project.budgetMax p
    /\ Project.deadline p' = Project.deadline p
    /\ Project.updatedAt p' = now
    /\ users (db w') = users (db w) /\ bids (db w') = bids (db w)
    /\ files (db w') = files (db w)
    /\ exists mails,
         outbox w' = (outbox w ++ mails)%list
         /\ match Project.sellerId p ≫= (fun sl => users (db w) !! sl) with
            | Some sl =>
                if String.eqb (User.email sl) "" then mails = []
                else exists m, mails = [m] /\ to m = User.email sl
            | None => mails = []
            end.
Proof.
  intros Hp Hb Hst.
  destruct (completeProject_run now user projectId w p Hp Hb Hst)
    as (v & mails & E & Hv & Hm).
  do 3 eexists. split; [exact E|]. simpl. repeat (split; [done|]).
  exists mails. split; [done|]. rewrite Hm.
  destruct (Project.sellerId p ≫= _) as [sl|]; [|done].
  destruct (String.eqb (User.email sl) ""); [done|]. by eexists.
Qed.

(** X16. Only the buyer of a project and its assigned seller can attach
    files to it: for any other user [uploadProjectFiles] answers 403
    FORBIDDEN, whatever files are sent, and writes nothing. *)
Theorem upload_requires_buyer_or_assigned_seller now user projectId reqFiles w p :
  projects (db w) !! projectId = Some p ->
  ReqUser.id user <> Project.buyerId p ->
  Project.sellerId p <> Some (ReqUser.id user) ->
  uploadProjectFiles now user projectId reqFiles w
  = (Throw (http_error FORBIDDEN 403
              "You are not authorized to upload files to this project"), w).
Proof.
  intros Hp Hb Hs. unfold uploadProjectFiles. munfold. rewrite Hp. simpl.
  rewrite (bool_decide_eq_false_2 (ReqUser.id user = Project.buyerId p)) by done.
  rewrite (bool_decide_eq_false_2 (Some (ReqUser.id user) = Project.sellerId p))
    by (intros E; by apply Hs).
  by rewrite andb_false_r.
Qed.

Lemma save_files_adds now projectId (fs : list (Upload.t Num)) w vs w' :
  save_files now projectId fs w = (Return vs, w') ->
  length vs = length fs
  /\ files (db w) ⊆ files (db w')
  /\ size (files (db w')) = (size (files (db w)) + length fs)%nat
  /\ forall j f, files (db w') !! j = Some f -> files (db w) !! j = None ->
       File.projectId f = projectId /\ File.createdAt f = now.
Proof.
  revert w vs w'. induction fs as [|f fs IH]; intros w vs w' H0.
  - simpl in H0. munfold. simplify_eq. simpl.
    repeat split; [done|by rewrite Nat.add_0_r|congruence..].
  - simpl in H0. munfold.
    destruct (negb (fits_Int (Upload.size f))); [by simplify_eq|].
    simpl in H0.
    destruct (bool_decide (projects (db w) !! projectId = None)); [by simplify_eq|].
    destruct (bool_decide (is_Some (files (db w) !! uuid now (db w)))) eqn:Hfresh;
      [by simplify_eq|].
    apply bool_decide_eq_false in Hfresh. apply eq_None_not_Some in Hfresh.
    simpl in H0.
    destruct (save_files now projectId fs _) as [[vs1|e1] w1] eqn:E1; [|by simplify_eq].
    apply IH in E1 as (Hl & Hsub & Hsz & Hnew). simpl in *.
    injection H0 as <- <-. simpl.
    split; [by rewrite Hl|]. split; [|split].
    + etrans; [|exact Hsub]. by apply insert_subseteq.
    + rewrite Hsz, map_size_insert_None by done. lia.
    + intros j f0 Hj Hn.
      destruct (decide (j = uuid now (db w))) as [->|Hne].
      * assert (E : files (db w1) !! uuid now (db w)
                    = Some {| File.name := Upload.originalname f;
                              File.path := Upload.path f; File.size := Upload.size f;
                              File.mimeType := Upload.mimetype f;
                              File.createdAt := now; File.projectId := projectId |}).
        { eapply lookup_weaken; [|exact Hsub]. by rewrite lookup_insert_eq. }
        rewrite E in Hj. by simplify_eq.
      * apply (Hnew j f0 Hj). by rewrite lookup_insert_ne.
Qed.

(** X17. A successful [uploadProjectFiles] records one row per uploaded
    file: the caller is the buyer of the project or its assigned seller,
    at least one file was sent, every file row that existed stays as it
    was, the file table grows by exactly as many rows as files were sent,
    each new row belongs to the project, and the response lists all the
    file rows of the project. *)
Theorem upload_adds_one_row_per_file now user projectId reqFiles w v w' :
  uploadProjectFiles now user projectId reqFiles w = (Return v, w') ->
  exists p fs,
    projects (db w) !! projectId = Some p
    /\ (ReqUser.id user = Project.buyerId p
        \/ Project.sellerId p = Some (ReqUser.id user))
    /\ reqFiles = Some fs /\ fs <> []
    /\ files (db w) ⊆ files (db w')
    /\ size (files (db w')) = (size (files (db w)) + length fs)%nat
    /\ (forall j f, files (db w') !! j = Some f -> files (db w) !! j = None ->
          File.projectId f = projectId)
    /\ exists listed,
         ProjectView.files v = Some listed
         /\ forall j f, files (db w') !! j = Some f -> File.projectId f = projectId ->
              file_view j f ∈ listed.
Proof.
  unfold uploadProjectFiles. munfold. intros H0.
  destruct (projects (db w) !! projectId) as [p|] eqn:Hp; [|by simplify_eq].
  simpl in H0.
  destruct (bool_decide (ReqUser.id user = Project.buyerId p)
            || truthy (Project.sellerId p)
               && bool_decide (Some (ReqUser.id user) = Project.sellerId p)) eqn:Hauth;
    [|by simplify_eq].
  simpl in H0.
  destruct (match reqFiles with Some (_ :: _) => false | _ => true end) eqn:Hfiles;
    [by simplify_eq|].
  simpl in H0.
  destruct (save_files now projectId (default [] reqFiles) w) as [[vs|e1] w1] eqn:E1;
    [|by simplify_eq].
  apply save_files_adds in E1 as (_ & Hsub & Hsz & Hnew).
  destruct (projects (db w1) !! projectId) as [t|]; simpl in H0; [|by simplify_eq].
  exists p, (default [] reqFiles). split; [done|].
  assert (Hw : w' = w1 /\ exists listed, ProjectView.files v = Some listed
                /\ listed = List.map (fun kv => file_view kv.1 kv.2)
                              (List.filter
                                 (fun kv => bool_decide (File.projectId kv.2 = projectId))
                                 (map_to_list (files (db w1))))).
  { destruct (Project.sellerId t); simpl in H0; simplify_eq; simpl;
      (split; [done|]); by eexists. }
  destruct Hw as (-> & listed & Hv & Hl).
  split.
  { apply orb_prop in Hauth as [E|E].
    - left. by apply bool_decide_eq_true in E.
    - right. apply andb_prop in E as [_ E]. by apply bool_decide_eq_true in E. }
  split; [by destruct reqFiles as [[|f fs]|]|].
  split; [by destruct reqFiles as [[|f fs]|]|].
  do 2 (split; [done|]).
  split; [intros j f0 Hj Hn; by apply (Hnew j f0)|].
  exists listed. split; [done|]. intros j f0 Hj Hpj. rewrite Hl.
  apply (list_elem_of_fmap_2 (fun kv => file_view kv.1 kv.2) _ (j, f0)).
  apply list_elem_of_In, List.filter_In. split.
  - apply list_elem_of_In. by apply elem_of_map_to_list.
  - simpl. by apply bool_decide_eq_true_2.
Qed.

(** ** Bid controller *)

(** X18. A successful [updateBid] changes only the fields that the body
    provides: the amount, the delivery time and the message are replaced
    when the body holds a truthy value for them (so an amount of 0 is not
    written) and kept otherwise; the status, the project, the seller and
    the creation time of the bid are never changed, whatever else the
    body holds; every other row of the store stays and no mail is sent. *)
Theorem updateBid_changes_only_provided_fields now user bidId body w v w' :
  updateBid now user bidId body w = (Return v, w') ->
  exists b b',
    bids (db w) !! bidId = Some b
    /\ bids (db w') = <[bidId := b']> (bids (db w))
    /\ BidView.row v = b'
    /\ Bid.amount b'
       = (if js_truthy (BidBody.amount body) then parseFloat (BidBody.amount body)
          else Bid.amount b)
    /\ Bid.deliveryTime b'
       = (if js_truthy (BidBody.deliveryTime body)
          then parseInt (BidBody.deliveryTime body) else Bid.deliveryTime b)
    /\ Bid.message b'
       = (if truthy (BidBody.message body) then str (BidBody.message body)
          else Bid.message b)
    /\ Bid.status b' = Bid.status b
    /\ Bid.projectId b' = Bid.projectId b
    /\ Bid.sellerId b' = Bid.sellerId b
    /\ Bid.createdAt b' = Bid.createdAt b
    /\ Bid.updatedAt b' = now
    /\ users (db w') = users (db w)
    /\ projects (db w') = projects (db w)
    /\ files (db w') = files (db w)
    /\ outbox w' = outbox w.
Proof.
  unfold updateBid. munfold. intros H0.
  destruct (bids (db w) !! bidId) as [b|] eqn:Hb; [|by simplify_eq].
  simpl in H0.
  destruct (bool_decide (Bid.sellerId b ≠ ReqUser.id user)); [by simplify_eq|].
  simpl in H0.
  destruct (bool_decide (Bid.status b ≠ BidStatus.PENDING)); [by simplify_eq|].
  simpl in H0.
  destruct (projects (db w) !! Bid.projectId b) as [p|]; [|by simplify_eq].
  simpl in H0.
  destruct (bool_decide (Project.status p ≠ ProjectStatus.PENDING)); [by simplify_eq|].
  simpl in H0.
  destruct (negb (bid_data_fits (bid_updateData body))); [by simplify_eq|].
  simpl in H0. rewrite Hb in H0. simpl in H0. injection H0 as <- <-.
  exists b, (bid_set now (bid_updateData body) b). simpl.
  repeat (split; [done|]).
  split; [by destruct (js_truthy (BidBody.amount body))|].
  split; [by destruct (js_truthy (BidBody.deliveryTime body))|].
  split; [|done].
  destruct (BidBody.message body) as [m|]; [|done]. simpl.
  by destruct (negb (String.eqb m "")).
Qed.

(** ** Auth controller *)

Lemma find_first_unique {A : Type} (P : string -> A -> bool) (t : gmap string A) k v :
  t !! k = Some v -> P k v = true ->
  (forall k' v', t !! k' = Some v' -> P k' v' = true -> k' = k) ->
  find_first P t = Some (k, v).
Proof.
  intros Hk HP Hu. destruct (find_first P t) as [[k' v']|] eqn:E.
  - apply find_first_Some in E as [Hk' HP']. pose proof (Hu k' v' Hk' HP') as ->.
    congruence.
  - rewrite (proj1 (find_first_None P t) E k v Hk) in HP. discriminate.
Qed.

(** X19. Registration and login agree: after a successful [register],
    [login] with the same email and password succeeds, writes nothing and
    returns the user that was registered, provided that [bcrypt.compare]
    accepts the password against the hash that [bcrypt.hash] made of it. *)
Theorem register_then_login now salt body w v w' now' :
  register now salt body w = (Return v, w') ->
  bcrypt_compare (str (RegisterBody.password body))
    (bcrypt_hash (str (RegisterBody.password body)) salt) = true ->
  exists v',
    login now' {| LoginBody.email := RegisterBody.email body;
                  LoginBody.password := RegisterBody.password body |} w'
    = (Return v', w')
    /\ PublicUser.id (user v') = PublicUser.id (user v)
    /\ PublicUser.name (user v') = PublicUser.name (user v)
    /\ PublicUser.email (user v') = PublicUser.email (user v)
    /\ PublicUser.role (user v') = PublicUser.role (user v)
    /\ token v' = generateToken now' (PublicUser.id (user v)) (PublicUser.role (user v)).
Proof.
  unfold register. munfold. intros H0 Hpw.
  destruct (negb (truthy (RegisterBody.name body)) || negb (truthy (RegisterBody.email body))
            || negb (truthy (RegisterBody.password body))
            || negb (truthy (RegisterBody.role body))) eqn:Hf; [by simplify_eq|].
  simpl in H0.
  destruct (negb (bool_decide _)); [by simplify_eq|]. simpl in H0.
  destruct (bool_decide (is_Some (find_first _ (users (db w))))) eqn:Hex;
    [by simplify_eq|].
  simpl in H0.
  destruct (role_of_string _) as [role|]; [|by simplify_eq]. simpl in H0.
  destruct (bool_decide (is_Some (users (db w) !! uuid now (db w)))) eqn:Hid;
    [by simplify_eq|].
  simpl in H0. rewrite Hex in H0. simpl in H0. injection H0 as <- <-.
  apply bool_decide_eq_false in Hex, Hid.
  apply eq_None_not_Some in Hex, Hid.
  repeat match goal with
         | H : _ || _ = false |- _ => apply orb_false_elim in H as [? ?]
         | H : negb _ = false |- _ => apply negb_false_iff in H
         end.
  unfold login. munfold. simpl.
  replace (negb (truthy (RegisterBody.email body))
           || negb (truthy (RegisterBody.password body))) with false
    by (symmetry; apply orb_false_intro; by apply negb_false_iff).
  simpl.
  erewrite (find_first_unique _ _ (uuid now (db w))); cycle 1.
  - apply lookup_insert_eq.
  - simpl. by apply bool_decide_eq_true_2.
  - intros k' u'. destruct (decide (k' = uuid now (db w))) as [->|Hne]; [done|].
    rewrite lookup_insert_ne by done. intros Hk' Hm. simpl in Hm.
    rewrite (proj1 (find_first_None _ _) Hex k' u' Hk') in Hm. discriminate.
  - simpl. rewrite Hpw. simpl. by eexists.
Qed.

(** X20. A token issued for a stored user opens the protected routes for
    that user: when [jwt.verify] decodes the token that [generateToken]
    signed for the id and role of a user of the store, and the token has
    no space in it, [authenticate] with the header [Bearer <token>]
    attaches the row of that user to the request and writes nothing. *)
Theorem issued_token_authenticates now now' w i u :
  users (db w) !! i = Some u ->
  jwt_verify (generateToken now i (User.role u)) now' = JwtOk i ->
  first_segment (generateToken now i (User.role u)) = generateToken now i (User.role u) ->
  authenticate now' (Some ("Bearer " ++ generateToken now i (User.role u))) w
  = (Return {| ReqUser.id := i; ReqUser.email := User.email u;
               ReqUser.name := User.name u; ReqUser.role := User.role u;
               ReqUser.avatar := User.avatar u |}, w).
Proof.
  intros Hi Hv Hs. unfold authenticate, generateToken in *. munfold. simpl.
  cbv [String.append]. simpl. rewrite Hs, Hv.
  replace (String.prefix "" (jwt_sign i (User.role u) now)) with true
    by (by destruct (jwt_sign i (User.role u) now)).
  simpl.
  by rewrite Hi.
Qed.

(** ** What a failed request is answered *)







(** ** Mail *)

Lemma selectBid_outbox now user projectId body w r w' :
  selectBid now user projectId body w = (r, w') ->
  outbox w' = outbox w
  \/ exists m v, r = Return v /\ outbox w' = (outbox w ++ [m])%list.
Proof.
  unfold selectBid. munfold. intros H0.
  mcases; try (by left); right; by do 2 eexists.
Qed.

Lemma completeProject_outbox now user projectId w r w' :
  completeProject now user projectId w = (r, w') ->
  outbox w' = outbox w
  \/ exists m v, r = Return v /\ outbox w' = (outbox w ++ [m])%list.
Proof.
  unfold completeProject. munfold. intros H0.
  mcases; try (by left); right; by do 2 eexists.
Qed.

Lemma createBid_outbox now user body w r w' :
  createBid now user body w = (r, w') ->
  outbox w' = outbox w
  \/ exists m v, r = Return v /\ outbox w' = (outbox w ++ [m])%list.
Proof.
  unfold createBid. munfold. intros H0.
  mcases; try (by left); right; by do 2 eexists.
Qed.

(** The routes whose handler notifies by mail. *)
Lemma controller_outbox user (op : ProtectedOp) w r w' :
  controller user op w = (r, w') ->
  outbox w' = outbox w
  \/ exists m, r = Return tt /\ outbox w' = (outbox w ++ [m])%list
               /\ match op with
                  | SelectBid _ _ _ | CompleteProject _ _ | CreateBid _ _ => True
                  | _ => False
                  end.
Proof.
  destruct op; simpl; intros (r0 & H0 & Hr)%done_spec.
  - apply createProject_spec in H0 as [(e & -> & ->)|(v & p & -> & _ & _ & _ & _ & _ & _ & ->)];
      by left.
  - apply updateProject_spec in H0 as [(e & -> & ->)|(v & p & -> & _ & _ & _ & _ & ->)];
      by left.
  - apply deleteProject_spec in H0 as [(e & -> & ->)|(v & p & -> & _ & _ & _ & _ & ->)];
      by left.
  - apply getProjectBids_reads in H0 as ->. by left.
  - apply selectBid_outbox in H0 as [?|(m & v & -> & ?)]; [by left|].
    right. by exists m.
  - apply completeProject_outbox in H0 as [?|(m & v & -> & ?)]; [by left|].
    right. by exists m.
  - apply uploadProjectFiles_spec in H0 as (_ & _ & _ & ? & _). by left.
  - apply createBid_outbox in H0 as [?|(m & v & -> & ?)]; [by left|].
    right. by exists m.
  - apply updateBid_spec in H0 as [(e & -> & ->)|(v & b & p & -> & _ & _ & _ & _ & _ & ->)];
      by left.
  - apply deleteBid_spec in H0 as [(e & -> & ->)|(v & b & p & -> & _ & _ & _ & _ & _ & ->)];
      by left.
Qed.

(** X22. A request sends at most one mail, and only on success: the
    outbox is never shortened or rewritten, and it grows, by exactly one
    message, only when an authenticated request to select a bid, to
    complete a project or to place a bid has succeeded; registration,
    login and every failed request send nothing. *)
Theorem mail_is_sent_once_and_only_on_success (rq : Request) w :
  outbox (serve rq w).2 = outbox w
  \/ exists now authorization op m,
       rq = Protected now authorization op
       /\ (serve rq w).1 = Return tt
       /\ outbox (serve rq w).2 = (outbox w ++ [m])%list
       /\ match op with
          | SelectBid _ _ _ | CompleteProject _ _ | CreateBid _ _ => True
          | _ => False
          end.
Proof.
  destruct rq as [op|now authorization op]; simpl.
  - left. destruct op; simpl;
      match goal with |- context [done_ ?m w] => destruct (done_ m w) as [r w'] eqn:E end;
      apply done_spec in E as (r0 & H0 & _); simpl.
    + by apply register_spec in H0
        as [(e & -> & ->)|(v & u & -> & _ & _ & _ & _ & _ & _ & _ & _ & _ & _ & ->)].
    + by apply login_spec in H0 as ->.
  - munfold.
    destruct (authenticate now authorization w) as [[user|e0] w1] eqn:Ha;
      pose proof Ha as [-> _]%authenticate_spec; [|by left].
    destruct (middleware user op w) as [[[]|e1] w2] eqn:Hm;
      apply middleware_reads in Hm as ->; [|by left].
    destruct (controller user op w) as [r w'] eqn:Hc. simpl.
    apply controller_outbox in Hc as [?|(m & -> & ? & ?)]; [by left|].
    right. by exists now, authorization, op, m.
Qed.

(** ** The handlers that only read *)

Lemma project_findMany_spec wh orderBy w r w' :
  project_findMany wh orderBy w = (r, w') ->
  w' = w
  /\ match r with
     | Return l =>
         exists leb,
           project_order orderBy = Some leb
           /\ l = merge_sort (fun a b => Is_true (leb a b))
                    (List.filter (project_matches wh) (map_to_list (projects (db w))))
     | Throw e => statusCode e = None
     end.
Proof.
  unfold project_findMany. munfold. intros H0.
  destruct (match pw_status wh with
            | Some st => bool_decide (status_of_string st = None)
            | None => false
            end); [by simplify_eq|].
  simpl in H0. destruct (project_order orderBy) as [leb|]; [|by simplify_eq].
  simpl in H0. simplify_eq. split; [done|]. by exists leb.
Qed.

Lemma getAllProjects_reads user query w r w' :
  getAllProjects user query w = (r, w') ->
  w' = w /\ forall e, r = Throw e -> statusCode e = None.
Proof.
  unfold getAllProjects. intros H0.
  destruct (bool_decide (ReqUser.role user = BUYER)).
  - unfold mbind, M_bind in H0.
    destruct (project_findMany _ _ w) as [[l|e0] w1] eqn:E;
      apply project_findMany_spec in E as [-> E]; munfold; simplify_eq;
      (split; [done|]); by intros ? [= <-].
  - destruct (bool_decide (ReqUser.role user = SELLER)).
    + unfold mbind, M_bind in H0.
      destruct (project_findMany _ _ w) as [[l|e0] w1] eqn:E;
        apply project_findMany_spec in E as [-> E];
        [|simplify_eq; (split; [done|]); by intros ? [= <-]].
      destruct (project_findMany _ _ w) as [[l2|e0] w1] eqn:E2;
        apply project_findMany_spec in E2 as [-> E2]; munfold; simplify_eq;
        (split; [done|]); by intros ? [= <-].
    + munfold. by simplify_eq.
Qed.

Lemma getProjectById_reads projectId w r w' :
  getProjectById projectId w = (r, w') ->
  w' = w /\ forall e, r = Throw e -> statusCode e = Some 404.
Proof.
  unfold getProjectById. munfold. intros H0.
  mcases; (split; [done|]); by intros ? [= <-].
Qed.

Lemma getSellerBids_reads user w r w' :
  getSellerBids user w = (r, w') ->
  w' = w /\ forall e, r = Throw e -> statusCode e = Some 403 \/ statusCode e = None.
Proof.
  unfold getSellerBids. munfold. intros H0.
  destruct (bool_decide (ReqUser.role user ≠ SELLER)).
  - simplify_eq. split; [done|]. intros ? [= <-]. by left.
  - simpl in H0. destruct (mapM _ _); simplify_eq; (split; [done|]); [done|].
    intros ? [= <-]. by right.
Qed.

Lemma getBidById_reads user bidId w r w' :
  getBidById user bidId w = (r, w') ->
  w' = w
  /\ forall e, r = Throw e ->
       statusCode e = Some 404 \/ statusCode e = Some 403 \/ statusCode e = None.
Proof.
  unfold getBidById. munfold. intros H0.
  mcases; (split; [done|]); try done; intros ? [= <-]; simpl; auto.
Qed.

(** X23. The routes that only read change nothing: whatever the
    request, the project listing, the lookup of a project or of a bid,
    the listing of the bids of a seller and the profile leave the store
    and the outbox as they were, and a failure of theirs is answered 401,
    403, 404 or 500. *)
Theorem read_routes_never_write now authorization (op : ReadOp) w :
  (serve_read now authorization op w).2 = w
  /\ forall e, (serve_read now authorization op w).1 = Throw e ->
       response_status (errorHandler e) ∈ [401; 403; 404; 500].
Proof.
  unfold serve_read. munfold.
  destruct (authenticate now authorization w) as [[user|e0] w1] eqn:Ha;
    pose proof Ha as [-> _]%authenticate_spec; simpl.
  2:{ split; [done|]. intros e [= <-].
      unfold authenticate in Ha. munfold. mcases; simpl; set_solver. }
  assert (Hctl : forall r w',
    read_controller user op w = (r, w') ->
    w' = w /\ forall e, r = Throw e ->
                response_status (errorHandler e) ∈ [401; 403; 404; 500]).
  { intros r w'. destruct op; simpl; intros (r0 & H0 & Hr)%done_spec.
    - apply getAllProjects_reads in H0 as [-> He]. split; [done|].
      intros e ->. destruct r0 as [|e0]; simplify_eq.
      unfold errorHandler. rewrite (He e0 eq_refl). simpl. set_solver.
    - apply getProjectById_reads in H0 as [-> He]. split; [done|].
      intros e ->. destruct r0 as [|e0]; simplify_eq.
      unfold errorHandler. rewrite (He e0 eq_refl). simpl. set_solver.
    - apply getSellerBids_reads in H0 as [-> He]. split; [done|].
      intros e ->. destruct r0 as [|e0]; simplify_eq.
      unfold errorHandler. destruct (He e0 eq_refl) as [->| ->]; simpl; set_solver.
    - apply getBidById_reads in H0 as [-> He]. split; [done|].
      intros e ->. destruct r0 as [|e0]; simplify_eq.
      unfold errorHandler. destruct (He e0 eq_refl) as [->|[->| ->]]; simpl; set_solver.
    - unfold getProfile in H0. munfold. simplify_eq. done. }
  destruct (read_middleware user op w) as [[[]|e1] w2] eqn:Hm.
  - assert (w2 = w) as ->.
    { destruct op; simpl in Hm; unfold requireSeller in Hm; munfold; by mcases. }
    destruct (read_controller user op w) as [r w'] eqn:Hc. by apply Hctl.
  - assert (w2 = w /\ statusCode e1 = Some 403) as [-> He].
    { destruct op; simpl in Hm; unfold requireSeller in Hm; munfold; by mcases. }
    simpl. split; [done|]. intros e [= <-].
    unfold errorHandler. rewrite He. simpl. set_solver.
Qed.

(** X24. A bid can be read by its seller and by the owner of its
    project, and by nobody else: for a bid of the store whose project is
    in the store, [getBidById] returns the bid, with the name and email of
    its seller and the id, title, owner and status of its project, to
    these two users and writes nothing; every other user is answered 403
    FORBIDDEN. *)
Theorem getBidById_visibility user bidId w b p :
  bids (db w) !! bidId = Some b ->
  projects (db w) !! Bid.projectId b = Some p ->
  (Bid.sellerId b = ReqUser.id user \/ Project.buyerId p = ReqUser.id user ->
   exists v,
     getBidById user bidId w = (Return v, w)
     /\ BidDetail.id v = bidId /\ BidDetail.row v = b
     /\ BidDetail.seller v = included_user true (db w) (Bid.sellerId b)
     /\ ProjectSummary.id (BidDetail.project v) = Bid.projectId b
     /\ ProjectSummary.title (BidDetail.project v) = Project.title p
     /\ ProjectSummary.buyerId (BidDetail.project v) = Project.buyerId p
     /\ ProjectSummary.status (BidDetail.project v) = Project.status p)
  /\ (Bid.sellerId b <> ReqUser.id user -> Project.buyerId p <> ReqUser.id user ->
      getBidById user bidId w
      = (Throw (http_error FORBIDDEN 403 "You are not authorized to view this bid"), w)).
Proof.
  intros Hb Hp. unfold getBidById. munfold. rewrite Hb. simpl. rewrite Hp. simpl.
  split.
  - intros Hor.
    assert (negb (bool_decide (Bid.sellerId b = ReqUser.id user))
            && negb (bool_decide (Project.buyerId p = ReqUser.id user)) = false) as ->.
    { destruct Hor as [E|E]; rewrite (bool_decide_eq_true_2 _ E); simpl; [done|].
      apply andb_false_r. }
    simpl. by eexists.
  - intros H1 H2. by rewrite !bool_decide_eq_false_2 by done.
Qed.

(** *** Listings *)

Lemma filter_fst_NoDup {A : Type} (f : string * A -> bool) (l : list (string * A)) :
  NoDup l.*1 -> NoDup (List.filter f l).*1.
Proof.
  induction l as [|x l IH]; simpl; [done|].
  intros [Hx Hl]%NoDup_cons. destruct (f x); simpl; [|by apply IH].
  apply NoDup_cons. split; [|by apply IH].
  intros (y & Hy & Hin)%list_elem_of_fmap. apply Hx.
  apply list_elem_of_fmap. exists y. split; [done|].
  apply list_elem_of_In. apply list_elem_of_In, List.filter_In in Hin. tauto.
Qed.

Lemma sorted_rows_NoDup {A : Type} (R : relation (string * A))
    `{!forall x y, Decision (R x y)} (f : string * A -> bool) (m : gmap string A) :
  NoDup (merge_sort R (List.filter f (map_to_list m))).*1.
Proof.
  rewrite merge_sort_Permutation. apply filter_fst_NoDup, NoDup_fst_map_to_list.
Qed.

Lemma sorted_rows_elem {A : Type} (R : relation (string * A))
    `{!forall x y, Decision (R x y)} (f : string * A -> bool) (m : gmap string A) x :
  x ∈ merge_sort R (List.filter f (map_to_list m)) <-> m !! x.1 = Some x.2 /\ f x = true.
Proof.
  rewrite merge_sort_Permutation, list_elem_of_In, List.filter_In, <- list_elem_of_In.
  destruct x as [k v]. by rewrite elem_of_map_to_list.
Qed.

#[local] Instance createdAt_desc_total : Total (@createdAt_desc Num).
Proof. intros a b. unfold createdAt_desc. lia. Qed.

Lemma Sorted_Forall2 {A B : Type} (R1 : relation A) (R2 : relation B)
    (P : A -> B -> Prop) l k :
  (forall x y x' y', P x x' -> P y y' -> R1 x y -> R2 x' y') ->
  Forall2 P l k -> Sorted R1 l -> Sorted R2 k.
Proof.
  intros HR. induction 1 as [|x x' l k Hx Hlk IH]; [constructor|].
  intros [Hs Hh]%Sorted_inv. constructor; [by apply IH|].
  destruct Hlk as [|y y' l k Hy _]; constructor.
  apply HdRel_inv in Hh. by eapply HR.
Qed.

(** X25. On every reachable state [getSellerBids] of a seller succeeds,
    writes nothing and lists exactly the bids that the seller placed,
    each once and the newest first, each with the title, the status, the
    owner, the deadline and the budget of its project. *)
Theorem getSellerBids_lists_own_bids_newest_first user w :
  reachable w -> ReqUser.role user = SELLER ->
  exists views,
    getSellerBids user w = (Return views, w)
    /\ NoDup (BidDetail.id <$> views)
    /\ Sorted (fun a b => Bid.createdAt (BidDetail.row b) <= Bid.createdAt (BidDetail.row a))
         views
    /\ (forall i b, bids (db w) !! i = Some b -> Bid.sellerId b = ReqUser.id user ->
          exists v, v ∈ views /\ BidDetail.id v = i /\ BidDetail.row v = b)
    /\ (forall v, v ∈ views ->
          bids (db w) !! BidDetail.id v = Some (BidDetail.row v)
          /\ Bid.sellerId (BidDetail.row v) = ReqUser.id user
          /\ exists p,
               projects (db w) !! Bid.projectId (BidDetail.row v) = Some p
               /\ ProjectSummary.id (BidDetail.project v) = Bid.projectId (BidDetail.row v)
               /\ ProjectSummary.title (BidDetail.project v) = Project.title p
               /\ ProjectSummary.status (BidDetail.project v) = Project.status p
               /\ ProjectSummary.buyerId (BidDetail.project v) = Project.buyerId p
               /\ ProjectSummary.deadline (BidDetail.project v) = Some (Project.deadline p)
               /\ ProjectSummary.budgetMin (BidDetail.project v)
                  = Some (Project.budgetMin p)
               /\ ProjectSummary.budgetMax (BidDetail.project v)
                  = Some (Project.budgetMax p)).
Proof.
  intros (_ & Hx & _)%reachable_lifecycle Hr.
  unfold getSellerBids. munfold.
  rewrite (bool_decide_eq_false_2 (ReqUser.role user ≠ SELLER)) by (intros ?; done).
  simpl.
  set (own := fun kv : string * Bid.t Num =>
                bool_decide (Bid.sellerId kv.2 = ReqUser.id user)).
  set (l := merge_sort createdAt_desc (List.filter own (map_to_list (bids (db w))))).
  assert (Hl : forall x, x ∈ l <-> bids (db w) !! x.1 = Some x.2
                                   /\ Bid.sellerId x.2 = ReqUser.id user).
  { intros x. unfold l. rewrite sorted_rows_elem. unfold own.
    by rewrite bool_decide_eq_true. }
  destruct (mapM (seller_bid (db w)) l) as [views|] eqn:E.
  2:{ exfalso. apply eq_None_not_Some in E. apply E, mapM_is_Some, Forall_forall.
      intros x [Hx1 _]%Hl. simpl. unfold seller_bid.
      destruct (Hx _ _ Hx1) as [p ->]. by eexists. }
  simpl. exists views. split; [done|].
  apply mapM_Some in E.
  assert (Hview : forall x v, seller_bid (db w) x = Some v ->
            BidDetail.id v = x.1 /\ BidDetail.row v = x.2).
  { intros x v. unfold seller_bid. destruct (projects (db w) !! _); [|done]. simpl.
    by intros [= <-]. }
  split; [|split; [|split]].
  - replace (BidDetail.id <$> views) with (l.*1); [apply sorted_rows_NoDup|].
    clear Hl. induction E as [|x v l' k Hv _ IH]; [done|]. simpl.
    f_equal; [|done]. symmetry. by apply Hview.
  - eapply (Sorted_Forall2 createdAt_desc _ _ l views); [|exact E|apply Sorted_merge_sort, _].
    intros x y x' y' [_ Hx']%Hview [_ Hy']%Hview. unfold createdAt_desc.
    by rewrite Hx', Hy'.
  - intros i b Hi Hs.
    assert (Hin : (i, b) ∈ l) by (by apply Hl).
    apply list_elem_of_lookup in Hin as [n Hn].
    destruct (Forall2_lookup_l _ _ _ _ _ E Hn) as (v & Hv & Hsb).
    exists v. split; [by eapply list_elem_of_lookup_2|]. by apply Hview in Hsb.
  - intros v Hv. apply list_elem_of_lookup in Hv as [n Hn].
    destruct (Forall2_lookup_r _ _ _ _ _ E Hn) as (x & Hx' & Hsb).
    pose proof (Hview _ _ Hsb) as [Hid Hrow].
    apply list_elem_of_lookup_2, Hl in Hx' as [Hx1 Hx2].
    rewrite Hid, Hrow. do 2 (split; [done|]).
    unfold seller_bid in Hsb.
    destruct (projects (db w) !! Bid.projectId x.2) as [p|]; [|done].
    simpl in Hsb. injection Hsb as <-. by exists p.
Qed.

(** X26. The bids of a project are listed each once and the newest
    first: the views that [getProjectBids] returns are ordered by
    decreasing creation time and no bid appears twice. *)
Theorem getProjectBids_newest_first user projectId w views w' :
  getProjectBids user projectId w = (Return views, w') ->
  NoDup (BidView.id <$> views)
  /\ Sorted (fun a b => Bid.createdAt (BidView.row b) <= Bid.createdAt (BidView.row a))
       views.
Proof.
  unfold getProjectBids. munfold. intros H0.
  assert (exists withEmail,
    views = bid_with_seller withEmail (db w)
              <$> merge_sort createdAt_desc
                    (List.filter (fun kv => bool_decide (Bid.projectId kv.2 = projectId))
                       (map_to_list (bids (db w))))) as [withEmail ->].
  { mcases; by eexists. }
  split.
  - rewrite <- list_fmap_compose.
    apply (sorted_rows_NoDup createdAt_desc
             (fun kv => bool_decide (Bid.projectId kv.2 = projectId))).
  - apply (Sorted_fmap _ createdAt_desc); [|apply Sorted_merge_sort, _].
    by intros x y.
Qed.

(** *** The project listing *)

Lemma map_set_elem {A : Type} k (v : A) l x :
  x ∈ map_set k v l -> x = (k, v) \/ x ∈ l.
Proof.
  induction l as [|[k' v'] l IH]; simpl.
  - intros ->%list_elem_of_singleton. by left.
  - destruct (String.eqb k' k).
    + intros [->|?]%elem_of_cons; [by left|]. right. by apply elem_of_cons; right.
    + intros [->|[->|?]%IH]%elem_of_cons; [right; by apply elem_of_cons; left|by left|].
      right. by apply elem_of_cons; right.
Qed.

Lemma map_set_keys {A : Type} k (v : A) l k' :
  k' ∈ (map_set k v l).*1 <-> k' = k \/ k' ∈ l.*1.
Proof.
  induction l as [|[k0 v0] l IH]; simpl.
  - rewrite list_elem_of_singleton. set_solver.
  - destruct (String.eqb_spec k0 k) as [->|Hne]; simpl.
    + rewrite !elem_of_cons. tauto.
    + rewrite !elem_of_cons, IH. tauto.
Qed.

Lemma map_set_NoDup {A : Type} k (v : A) l :
  NoDup l.*1 -> NoDup (map_set k v l).*1.
Proof.
  induction l as [|[k0 v0] l IH]; simpl.
  - intros _. apply NoDup_singleton.
  - intros [Hk0 Hl]%NoDup_cons. destruct (String.eqb_spec k0 k) as [->|Hne]; simpl.
    + by apply NoDup_cons.
    + apply NoDup_cons. split; [|by apply IH].
      rewrite map_set_keys. intros [?|?]; [congruence|done].
Qed.

Lemma js_Map_spec {A : Type} (entries : list (string * A)) :
  NoDup (js_Map entries).*1
  /\ (forall x, x ∈ js_Map entries -> x ∈ entries)
  /\ (forall k, k ∈ entries.*1 -> k ∈ (js_Map entries).*1).
Proof.
  unfold js_Map.
  assert (forall acc : list (string * A),
    NoDup acc.*1 ->
    NoDup (fold_left (fun acc kv => map_set kv.1 kv.2 acc) entries acc).*1
    /\ (forall x, x ∈ fold_left (fun acc kv => map_set kv.1 kv.2 acc) entries acc ->
          x ∈ acc \/ x ∈ entries)
    /\ (forall k, k ∈ acc.*1 \/ k ∈ entries.*1 ->
          k ∈ (fold_left (fun acc kv => map_set kv.1 kv.2 acc) entries acc).*1)) as H.
  { induction entries as [|[k v] entries IH]; intros acc Hacc; simpl.
    - split; [done|]. split; [by left|]. intros k [?|?%elem_of_nil]; done.
    - destruct (IH (map_set k v acc) (map_set_NoDup k v acc Hacc)) as (H1 & H2 & H3).
      split; [done|]. split.
      + intros x [[->|?]%map_set_elem|?]%H2.
        * right. by apply elem_of_cons; left.
        * by left.
        * right. by apply elem_of_cons; right.
      + intros k0 Hk0. apply H3. rewrite map_set_keys.
        rewrite elem_of_cons in Hk0. tauto. }
  destruct (H [] (NoDup_nil_2)) as (H1 & H2 & H3).
  split; [done|]. split.
  - intros x [?%elem_of_nil|?]%H2; done.
  - intros k Hk. apply H3. by right.
Qed.

Lemma project_matches_spec wh (kv : string * Project.t Num) :
  project_matches wh kv = true <->
  (forall st, pw_status wh = Some st -> status_of_string st = Some (Project.status kv.2))
  /\ (forall q, pw_search wh = Some q ->
        contains_insensitive (Project.title kv.2) q
        || contains_insensitive (Project.description kv.2) q = true)
  /\ (forall b, pw_buyerId wh = Some b -> Project.buyerId kv.2 = b)
  /\ (forall sl, pw_sellerId wh = Some sl -> Project.sellerId kv.2 = Some sl).
Proof.
  unfold project_matches, holds_if. rewrite !andb_true_iff.
  destruct (pw_status wh), (pw_search wh), (pw_buyerId wh), (pw_sellerId wh);
    rewrite ?bool_decide_eq_true; naive_solver.
Qed.

#[local] Instance newest_first_total :
  Total (fun a b : string * Project.t Num =>
           Is_true (Project.createdAt b.2 <=? Project.createdAt a.2)).
Proof.
  intros a b. rewrite !Is_true_true, !Z.leb_le. lia.
Qed.

(** X27. A buyer is listed their own projects and nothing else:
    [getAllProjects] for a BUYER writes nothing and returns, each once,
    exactly the projects that the buyer owns and that pass the status and
    search filters of the query, each with the number of its bids and its
    file rows; without a [sort] parameter the newest project comes
    first. *)
Theorem getAllProjects_buyer_lists_own_projects user query w items w' :
  ReqUser.role user = BUYER ->
  getAllProjects user query w = (Return items, w') ->
  w' = w
  /\ NoDup (ProjectItem.id <$> items)
  /\ (forall it, it ∈ items ->
        projects (db w) !! ProjectItem.id it = Some (ProjectItem.row it)
        /\ Project.buyerId (ProjectItem.row it) = ReqUser.id user
        /\ ProjectItem.bidCount it = Some (bid_count (db w) (ProjectItem.id it))
        /\ ProjectItem.files it = Some (project_files (db w) (ProjectItem.id it)))
  /\ (forall i p,
        (exists it, it ∈ items /\ ProjectItem.id it = i /\ ProjectItem.row it = p)
        <-> projects (db w) !! i = Some p
            /\ Project.buyerId p = ReqUser.id user
            /\ (truthy (ProjectQuery.status query) = true ->
                status_of_string (toUpperCase (str (ProjectQuery.status query)))
                = Some (Project.status p))
            /\ (truthy (ProjectQuery.search query) = true ->
                contains_insensitive (Project.title p) (str (ProjectQuery.search query))
                || contains_insensitive (Project.description p)
                     (str (ProjectQuery.search query)) = true))
  /\ (ProjectQuery.sort query = None ->
      Sorted (fun a b => Project.createdAt (ProjectItem.row b)
                         <= Project.createdAt (ProjectItem.row a)) items).
Proof.
  intros Hr. unfold getAllProjects.
  rewrite (bool_decide_eq_true_2 _ Hr). unfold mbind, M_bind.
  set (wh := {| pw_status := _ |}).
  destruct (project_findMany wh _ w) as [[l|e0] w1] eqn:E;
    apply project_findMany_spec in E as [-> E]; munfold; [|done].
  intros [= <- <-]. destruct E as (leb & Hleb & ->).
  set (l := merge_sort _ _).
  assert (Hl : forall x, x ∈ l <-> projects (db w) !! x.1 = Some x.2
                                   /\ project_matches wh x = true).
  { intros x. unfold l. apply sorted_rows_elem. }
  split; [done|]. split; [|split; [|split]].
  - rewrite <- list_fmap_compose. apply (sorted_rows_NoDup _ (project_matches wh)).
  - intros it (x & -> & [Hx Hm]%Hl)%list_elem_of_fmap. simpl.
    apply project_matches_spec in Hm as (_ & _ & Hb & _).
    split; [done|]. split; [by apply Hb|]. done.
  - intros i p. split.
    + intros (it & (x & -> & [Hx Hm]%Hl)%list_elem_of_fmap & <- & <-). simpl.
      apply project_matches_spec in Hm as (Hst & Hq & Hb & _).
      split; [done|]. split; [by apply Hb|]. split.
      * intros Ht. apply Hst. simpl. by rewrite Ht.
      * intros Ht. apply Hq. simpl. rewrite Ht.
        by destruct (ProjectQuery.search query).
    + intros (Hi & Hb & Hst & Hq). exists (buyer_item (db w) (i, p)).
      split; [|done]. apply list_elem_of_fmap. exists (i, p). split; [done|].
      apply Hl. split; [done|]. apply project_matches_spec. simpl.
      split; [|split; [|split]]; [| |by intros ? [= <-]|done].
      * intros st. destruct (truthy (ProjectQuery.status query)); [|done].
        intros [= <-]. by apply Hst.
      * intros q. destruct (truthy (ProjectQuery.search query)) eqn:Ht; [|done].
        intros Hs. rewrite Hs in Hq. by apply Hq.
  - intros Hsort. unfold project_orderBy in Hleb. rewrite Hsort in Hleb.
    simpl in Hleb. injection Hleb as <-.
    apply (Sorted_fmap _ (fun a b : string * Project.t Num =>
             Is_true (Project.createdAt b.2 <=? Project.createdAt a.2)));
      [|apply Sorted_merge_sort, _].
    intros x y Hxy. simpl. apply Is_true_true in Hxy. by apply Z.leb_le.
Qed.

(** X28. A seller is listed the projects open for bidding and the
    projects assigned to them, and nothing else: [getAllProjects] for a
    SELLER writes nothing and returns, each once, exactly the PENDING
    projects that pass the search filter of the query together with the
    projects whose seller is the caller.  A project listed as open comes
    with the number of its bids and without a seller; a project listed as
    assigned comes with its seller and without a bid count; neither comes
    with its files, and no email of a buyer or of a seller is shown. *)
Theorem getAllProjects_seller_lists_open_and_assigned user query w items w' :
  ReqUser.role user = SELLER ->
  getAllProjects user query w = (Return items, w') ->
  w' = w
  /\ NoDup (ProjectItem.id <$> items)
  /\ (forall it, it ∈ items ->
        projects (db w) !! ProjectItem.id it = Some (ProjectItem.row it)
        /\ ProjectItem.buyer it
           = included_user false (db w) (Project.buyerId (ProjectItem.row it))
        /\ ProjectItem.files it = None
        /\ ((Project.status (ProjectItem.row it) = ProjectStatus.PENDING
             /\ (truthy (ProjectQuery.search query) = true ->
                 contains_insensitive (Project.title (ProjectItem.row it))
                   (str (ProjectQuery.search query))
                 || contains_insensitive (Project.description (ProjectItem.row it))
                      (str (ProjectQuery.search query)) = true)
             /\ ProjectItem.seller it = None
             /\ ProjectItem.bidCount it = Some (bid_count (db w) (ProjectItem.id it)))
            \/ (Project.sellerId (ProjectItem.row it) = Some (ReqUser.id user)
                /\ ProjectItem.seller it = included_user false (db w) (ReqUser.id user)
                /\ ProjectItem.bidCount it = None))
        /\ (forall r, ProjectItem.buyer it = Some r \/ ProjectItem.seller it = Some r ->
              UserRef.email r = None))
  /\ (forall i p,
        (exists it, it ∈ items /\ ProjectItem.id it = i /\ ProjectItem.row it = p)
        <-> projects (db w) !! i = Some p
            /\ ((Project.status p = ProjectStatus.PENDING
                 /\ (truthy (ProjectQuery.search query) = true ->
                     contains_insensitive (Project.title p)
                       (str (ProjectQuery.search query))
                     || contains_insensitive (Project.description p)
                          (str (ProjectQuery.search query)) = true))
                \/ Project.sellerId p = Some (ReqUser.id user))).
Proof.
  intros Hr. unfold getAllProjects.
  rewrite (bool_decide_eq_false_2 (ReqUser.role user = BUYER)) by congruence.
  rewrite (bool_decide_eq_true_2 _ Hr). unfold mbind, M_bind.
  set (wh1 := {| pw_status := Some "PENDING" |}).
  set (wh2 := {| pw_status := None |}).
  destruct (project_findMany wh1 _ w) as [[l1|e0] w1] eqn:E1;
    apply project_findMany_spec in E1 as [-> E1]; [|done].
  destruct (project_findMany wh2 _ w) as [[l2|e0] w1] eqn:E2;
    apply project_findMany_spec in E2 as [-> E2]; munfold; [|done].
  intros [= <- <-].
  destruct E1 as (leb & Hleb & ->), E2 as (leb2 & Hleb2 & ->).
  rewrite Hleb in Hleb2. injection Hleb2 as <-.
  set (l1 := merge_sort _ (List.filter (project_matches wh1) _)).
  set (l2 := merge_sort _ (List.filter (project_matches wh2) _)).
  assert (Hl1 : forall x, x ∈ l1 <-> projects (db w) !! x.1 = Some x.2
                                     /\ project_matches wh1 x = true).
  { intros x. unfold l1. apply sorted_rows_elem. }
  assert (Hl2 : forall x, x ∈ l2 <-> projects (db w) !! x.1 = Some x.2
                                     /\ project_matches wh2 x = true).
  { intros x. unfold l2. apply sorted_rows_elem. }
  set (listed := (List.map (pending_item (db w)) l1
                  ++ List.map (assigned_item (db w)) l2)%list).
  set (entries := List.map (fun p => (ProjectItem.id p, p)) listed).
  destruct (js_Map_spec entries) as (Hnd & Hsub & Hkeys).
  assert (Hentry : forall x, x ∈ js_Map entries -> x.2 ∈ listed /\ ProjectItem.id x.2 = x.1).
  { intros x (it & -> & Hit)%Hsub%list_elem_of_fmap. done. }
  assert (Hlisted : forall it, it ∈ listed ->
    projects (db w) !! ProjectItem.id it = Some (ProjectItem.row it)
    /\ ProjectItem.buyer it
       = included_user false (db w) (Project.buyerId (ProjectItem.row it))
    /\ ProjectItem.files it = None
    /\ ((Project.status (ProjectItem.row it) = ProjectStatus.PENDING
         /\ (truthy (ProjectQuery.search query) = true ->
             contains_insensitive (Project.title (ProjectItem.row it))
               (str (ProjectQuery.search query))
             || contains_insensitive (Project.description (ProjectItem.row it))
                  (str (ProjectQuery.search query)) = true)
         /\ ProjectItem.seller it = None
         /\ ProjectItem.bidCount it = Some (bid_count (db w) (ProjectItem.id it)))
        \/ (Project.sellerId (ProjectItem.row it) = Some (ReqUser.id user)
            /\ ProjectItem.seller it = included_user false (db w) (ReqUser.id user)
            /\ ProjectItem.bidCount it = None))
    /\ (forall r, ProjectItem.buyer it = Some r \/ ProjectItem.seller it = Some r ->
          UserRef.email r = None)).
  { intros it [(x & -> & [Hx Hm]%Hl1)%list_elem_of_fmap
              |(x & -> & [Hx Hm]%Hl2)%list_elem_of_fmap]%elem_of_app; simpl.
    - apply project_matches_spec in Hm as (Hst & Hq & _).
      do 3 (split; [done|]). split.
      + left. split.
        { specialize (Hst "PENDING" eq_refl).
          change (status_of_string "PENDING") with (Some ProjectStatus.PENDING) in Hst.
          congruence. }
        split; [|done].
        intros Ht. apply Hq. simpl. rewrite Ht.
        by destruct (ProjectQuery.search query).
      + unfold included_user. intros r [Hb|?]; [|done].
        destruct (users (db w) !! _); simpl in Hb; by simplify_eq.
    - apply project_matches_spec in Hm as (_ & _ & _ & Hsl).
      pose proof (Hsl _ eq_refl) as Hsl'. simpl in Hsl'.
      do 3 (split; [done|]). split.
      + right. split; [done|]. by rewrite Hsl'.
      + unfold included_user. intros r [Hb|Hs].
        * destruct (users (db w) !! _); simpl in Hb; by simplify_eq.
        * destruct (Project.sellerId x.2) as [sl|]; simpl in Hs; [|done].
          destruct (users (db w) !! sl); simpl in Hs; by simplify_eq. }
  split; [done|]. split; [|split].
  - replace (ProjectItem.id <$> List.map snd (js_Map entries)) with (js_Map entries).*1;
      [done|].
    change (List.map snd (js_Map entries)) with ((js_Map entries).*2).
    rewrite <- list_fmap_compose. apply list_fmap_ext.
    intros n x Hx%list_elem_of_lookup_2. simpl. symmetry. by apply Hentry.
  - intros it (x & -> & [Hx _]%Hentry)%list_elem_of_fmap. by apply Hlisted.
  - intros i p. split.
    { intros (it & (x & -> & [Hx _]%Hentry)%list_elem_of_fmap & <- & <-).
      destruct (Hlisted _ Hx) as (Hrow & _ & _ & [(Hst & Hq & _)|(Hsl & _)] & _).
      - split; [done|]. left. by split.
      - split; [done|]. by right. }
    intros (Hi & Hor).
    assert (Hin : exists it, it ∈ listed /\ ProjectItem.id it = i).
    { destruct Hor as [[Hst Hq]|Hsl].
      - exists (pending_item (db w) (i, p)). split; [|done].
        apply elem_of_app. left. apply list_elem_of_fmap. exists (i, p). split; [done|].
        apply Hl1. split; [done|]. apply project_matches_spec. simpl.
        split; [|split; [|split]]; [| |done..].
        + intros st [= <-]. simpl. by rewrite Hst.
        + intros q. destruct (truthy (ProjectQuery.search query)) eqn:Ht; [|done].
          intros Hs. rewrite Hs in Hq. by apply Hq.
      - exists (assigned_item (db w) (i, p)). split; [|done].
        apply elem_of_app. right. apply list_elem_of_fmap. exists (i, p). split; [done|].
        apply Hl2. split; [done|]. apply project_matches_spec. simpl.
        split; [|split; [|split]]; [done..|]. by intros ? [= <-]. }
    destruct Hin as (it0 & Hit0 & Hid0).
    assert (Hk : i ∈ (js_Map entries).*1).
    { apply Hkeys. unfold entries. apply list_elem_of_fmap. exists (i, it0).
      split; [done|]. apply list_elem_of_fmap. exists it0. by rewrite Hid0. }
    apply list_elem_of_fmap in Hk as ([k it] & -> & Hx).
    destruct (Hentry _ Hx) as [Hit Hid]. simpl in *.
    exists it. split; [|split; [done|]].
    + apply list_elem_of_fmap. by exists (k, it).
    + destruct (Hlisted it Hit) as (Hrow & _). rewrite Hid, Hi in Hrow. congruence.
Qed.

(** X29. The [status] parameter of the project listing has no effect
    for a seller: the handler overrides it with PENDING for the open
    projects and does not apply it to the assigned ones, so the listing
    of a SELLER is the same with any status, valid or not, as without
    one. *)
Theorem getAllProjects_seller_ignores_status user status search sort w :
  ReqUser.role user = SELLER ->
  getAllProjects user
    {| ProjectQuery.status := status; ProjectQuery.search := search;
       ProjectQuery.sort := sort |} w
  = getAllProjects user
      {| ProjectQuery.status := None; ProjectQuery.search := search;
         ProjectQuery.sort := sort |} w.
Proof.
  intros Hr. unfold getAllProjects.
  rewrite (bool_decide_eq_false_2 (ReqUser.role user = BUYER)) by congruence.
  by rewrite (bool_decide_eq_true_2 _ Hr).
Qed.

(** *** The [sort] parameter *)

Lemma split_0_append f d :
  split_0 underscore f = f -> split_0 underscore (f ++ "_" ++ d) = f.
Proof.
  induction f as [|c f IH]; simpl; [done|].
  destruct (Ascii.eqb c underscore) eqn:E; [done|].
  intros [= Hf]. f_equal. by apply IH.
Qed.

Lemma split_1_append f d :
  split_0 underscore f = f -> split_1 underscore (f ++ "_" ++ d) = split_0 underscore d.
Proof.
  induction f as [|c f IH]; simpl; [done|].
  destruct (Ascii.eqb c underscore) eqn:E; [done|].
  intros [= Hf]. by apply IH.
Qed.

Lemma split_1_none f : split_0 underscore f = f -> split_1 underscore f = "".
Proof.
  induction f as [|c f IH]; simpl; [done|].
  destruct (Ascii.eqb c underscore) eqn:E; [done|].
  intros [= Hf]. by apply IH.
Qed.

(** X30. How the [sort] parameter of the project listing is read: it is
    split at its underscores, the first segment names the column and the
    second one, lower-cased, the direction, so [<field>_<direction>]
    orders by that column; a parameter that is missing, empty or has no
    underscore leaves the default order, newest first. *)
Theorem project_orderBy_reads_field_and_direction f d :
  f <> "" -> d <> "" ->
  split_0 underscore f = f -> split_0 underscore d = d ->
  project_orderBy (Some (f ++ "_" ++ d)) = (f, toLowerCase d)
  /\ project_orderBy (Some f) = ("createdAt", "desc")
  /\ project_orderBy (Some "") = ("createdAt", "desc")
  /\ project_orderBy None = ("createdAt", "desc").
Proof.
  intros Hf Hd Hf0 Hd0. split; [|split; [|done]].
  - unfold project_orderBy. simpl str.
    rewrite split_0_append, split_1_append, Hd0 by done.
    replace (truthy (Some (f ++ "_" ++ d))) with true
      by (destruct f; [done|reflexivity]).
    apply String.eqb_neq in Hf, Hd. by rewrite Hf, Hd.
  - unfold project_orderBy. simpl str. rewrite split_1_none by done.
    destruct (truthy (Some f)); [|done]. simpl. by rewrite andb_false_r.
Qed.

End Further.

(** * The further properties on the sample deployment *)

Lemma reachable_w_selected : reachable Demo.w_selected.
Proof.
  unfold Demo.w_selected, Demo.w_bids, Demo.w_project, Demo.w_users, Demo.after.
  repeat apply reachable_serve. apply reachable_init.
Qed.

Lemma reachable_w_second : reachable Demo.w_second.
Proof.
  unfold Demo.w_second, Demo.w_selected, Demo.w_bids, Demo.w_project, Demo.w_users,
    Demo.after.
  repeat apply reachable_serve. apply reachable_init.
Qed.

(** On every protected route of the scenario a token that verifies to
    an id that no user has is answered 401, and a token that is not valid
    yet is answered 500; neither touches the world. *)
Lemma protected_routes_require_valid_token_witness :
  (exists e,
     (forall op : @ProtectedOp Z,
        serve (Protected 9 (Some "Bearer nobody") op) Demo.w_bids = (Throw e, Demo.w_bids))
     /\ (forall op : ReadOp,
           serve_read 9 (Some "Bearer nobody") op Demo.w_bids = (Throw e, Demo.w_bids))
     /\ kind e = UNAUTHORIZED /\ statusCode e = Some 401)
  /\ (exists e,
        (forall op : @ProtectedOp Z,
           serve (Protected 9 (Some "Bearer early") op) Demo.w_bids = (Throw e, Demo.w_bids))
        /\ (forall op : ReadOp,
              serve_read 9 (Some "Bearer early") op Demo.w_bids = (Throw e, Demo.w_bids))
        /\ statusCode e = None /\ response_status (errorHandler e) = 500).
Proof.
  split.
  - destruct (protected_routes_require_valid_token 9 (Some "Bearer nobody") Demo.w_bids)
      as (e & Hs & Hr & H401 & _).
    { right; right. intros userId H. vm_compute in H. injection H as <-.
      vm_compute. reflexivity. }
    exists e. split; [exact Hs|]. split; [exact Hr|].
    apply H401. right; right; right; right. eexists. vm_compute. reflexivity.
  - destruct (protected_routes_require_valid_token 9 (Some "Bearer early") Demo.w_bids)
      as (e & Hs & Hr & _ & H500).
    { right; right. intros userId H. vm_compute in H. discriminate H. }
    exists e. split; [exact Hs|]. split; [exact Hr|].
    apply H500; [reflexivity|reflexivity|]. left. vm_compute. reflexivity.
Defined.

(** The token of S1 attaches the stored row of S1, a SELLER. *)
Lemma authenticate_reads_role_from_store_witness :
  authenticate 9 (Some "Bearer id1") Demo.w_bids = (Return Demo.S1, Demo.w_bids)
  /\ exists u, users (db Demo.w_bids) !! "id1" = Some u /\ User.role u = SELLER.
Proof.
  assert (H : authenticate 9 (Some "Bearer id1") Demo.w_bids = (Return Demo.S1, Demo.w_bids))
    by (vm_compute; reflexivity).
  split; [exact H|].
  destruct (authenticate_reads_role_from_store 9 (Some "Bearer id1") Demo.w_bids Demo.S1 H)
    as (_ & u & Hu & Hr & _).
  exists u. split; [exact Hu|]. symmetry. exact Hr.
Defined.

(** The row of S1 is the same after S3 has registered. *)
Lemma user_rows_are_permanent_witness :
  exists u,
    users (db Demo.w_bids) !! "id1" = Some u
    /\ users (db (serve (Demo.registration "S3" "s3@example.org" "SELLER") Demo.w_bids).2)
         !! "id1" = Some u.
Proof.
  eexists. split; [vm_compute; reflexivity|].
  apply (user_rows_are_permanent (Demo.registration "S3" "s3@example.org" "SELLER")
           Demo.w_bids "id1").
  vm_compute. reflexivity.
Defined.

(** The selection of the scenario changes the project [id3]: it was made
    with the token of B, the buyer of the project. *)
Lemma project_written_only_by_owner_witness :
  exists now authorization op user,
    @Protected Z 5 (Some "Bearer id0") (SelectBid 5 "id3" Demo.select_S1)
    = Protected now authorization op
    /\ authenticate now authorization Demo.w_bids = (Return user, Demo.w_bids)
    /\ match projects (db Demo.w_bids) !! "id3" with
       | Some p => Project.buyerId p = ReqUser.id user
       | None =>
           exists p',
             projects (db (serve (Protected 5 (Some "Bearer id0")
                                    (SelectBid 5 "id3" Demo.select_S1)) Demo.w_bids).2)
               !! "id3" = Some p'
             /\ Project.buyerId p' = ReqUser.id user /\ ReqUser.role user = BUYER
       end.
Proof.
  apply (project_written_only_by_owner
           (Protected 5 (Some "Bearer id0") (SelectBid 5 "id3" Demo.select_S1))
           Demo.w_bids "id3").
  vm_compute. discriminate.
Defined.

(** The first bid of the scenario creates the row [id4]: it was placed
    with the token of S1, a SELLER, who is the seller of the bid. *)
Lemma bid_written_only_by_seller_or_project_owner_witness :
  exists now authorization op user,
    @Protected Z 3 (Some "Bearer id1") (CreateBid 3 (Demo.bid_body 150 3))
    = Protected now authorization op
    /\ authenticate now authorization Demo.w_project = (Return user, Demo.w_project)
    /\ match bids (db Demo.w_project) !! "id4" with
       | Some b =>
           Bid.sellerId b = ReqUser.id user
           \/ exists p, projects (db Demo.w_project) !! Bid.projectId b = Some p
                        /\ Project.buyerId p = ReqUser.id user
       | None =>
           exists b',
             bids (db (serve (Protected 3 (Some "Bearer id1")
                                (CreateBid 3 (Demo.bid_body 150 3))) Demo.w_project).2)
               !! "id4" = Some b'
             /\ Bid.sellerId b' = ReqUser.id user /\ ReqUser.role user = SELLER
       end.
Proof.
  apply (bid_written_only_by_seller_or_project_owner
           (Protected 3 (Some "Bearer id1") (CreateBid 3 (Demo.bid_body 150 3)))
           Demo.w_project "id4").
  vm_compute. discriminate.
Defined.

(** After the selection the project of the scenario is IN_PROGRESS and
    has a seller. *)
Lemma seller_assigned_iff_started_witness :
  exists p,
    projects (db Demo.w_selected) !! "id3" = Some p
    /\ Project.status p = ProjectStatus.IN_PROGRESS
    /\ (Project.sellerId p = None <-> Project.status p = ProjectStatus.PENDING).
Proof.
  eexists. split; [vm_compute; reflexivity|]. split; [reflexivity|].
  apply (seller_assigned_iff_started Demo.w_selected "id3" _ reachable_w_selected).
  vm_compute. reflexivity.
Defined.



(** The seller of the project of the scenario is still S1 after the
    project has been completed. *)
Lemma assigned_seller_is_fixed_witness :
  exists p p',
    projects (db Demo.w_selected) !! "id3" = Some p
    /\ Project.sellerId p = Some "id1"
    /\ projects (db Demo.w_completed) !! "id3" = Some p'
    /\ Project.sellerId p' = Some "id1".
Proof.
  assert (Hp : projects (db Demo.w_selected) !! "id3"
               = Some (Project.mk "Logo" "A logo" 100 200 10 ProjectStatus.IN_PROGRESS 2 5
                         "id0" (Some "id1")))
    by (vm_compute; reflexivity).
  destruct (assigned_seller_is_fixed
              (Protected 6 (Some "Bearer id0") (CompleteProject 6 "id3"))
              Demo.w_selected "id3" _ "id1" reachable_w_selected Hp eq_refl)
    as (p' & Hp' & Hsl & _).
  eexists _, p'. split; [exact Hp|]. split; [reflexivity|]. split; [exact Hp'|exact Hsl].
Defined.

(** The completed project of the scenario is as it was after S2 has
    tried to change their bid on it. *)
Lemma completed_project_is_frozen_witness :
  exists p,
    projects (db Demo.w_completed) !! "id3" = Some p
    /\ Project.status p = ProjectStatus.COMPLETED
    /\ projects (db (serve (Protected 7 (Some "Bearer id2")
                              (UpdateBid 7 "id5" (Demo.bid_body 120 4)))
                       Demo.w_completed).2) !! "id3" = Some p.
Proof.
  assert (Hp : projects (db Demo.w_completed) !! "id3"
               = Some (Project.mk "Logo" "A logo" 100 200 10 ProjectStatus.COMPLETED 2 6
                         "id0" (Some "id1")))
    by (vm_compute; reflexivity).
  eexists. split; [exact Hp|]. split; [reflexivity|].
  exact (proj1 (completed_project_is_frozen
                  (Protected 7 (Some "Bearer id2") (UpdateBid 7 "id5" (Demo.bid_body 120 4)))
                  Demo.w_completed "id3" _ Hp eq_refl)).
Defined.

(** In the scenario the email of S1 belongs to one user. *)
Lemma emails_are_unique_witness :
  exists u,
    users (db Demo.w_selected) !! "id1" = Some u
    /\ User.email u = "s1@example.org"
    /\ forall j uj, users (db Demo.w_selected) !! j = Some uj ->
         User.email uj = "s1@example.org" -> j = "id1".
Proof.
  assert (Hu : users (db Demo.w_selected) !! "id1"
               = Some (User.mk "s1@example.org" "secret$salt" "S1" SELLER None 1 1))
    by (vm_compute; reflexivity).
  eexists. split; [exact Hu|]. split; [reflexivity|].
  intros j uj Hj He.
  exact (emails_are_unique Demo.w_selected j "id1" uj _ reachable_w_selected Hj Hu He).
Defined.

(** The roles are respected after the selection of the scenario. *)
Lemma roles_are_respected_witness :
  (forall i p, projects (db Demo.w_selected) !! i = Some p ->
     exists u, users (db Demo.w_selected) !! Project.buyerId p = Some u
               /\ User.role u = BUYER)
  /\ (forall i b, bids (db Demo.w_selected) !! i = Some b ->
        exists u, users (db Demo.w_selected) !! Bid.sellerId b = Some u
                  /\ User.role u = SELLER)
  /\ (forall i p sl, projects (db Demo.w_selected) !! i = Some p ->
        Project.sellerId p = Some sl ->
        exists u, users (db Demo.w_selected) !! sl = Some u /\ User.role u = SELLER).
Proof. exact (roles_are_respected Demo.w_selected reachable_w_selected). Defined.

(** B cannot delete the project of the scenario once S1 has bid on it:
    the request is answered 500 and nothing is removed. *)
Lemma deleteProject_refused_while_bids_exist_witness :
  exists p b e,
    projects (db Demo.w_bids) !! "id3" = Some p
    /\ Project.status p = ProjectStatus.PENDING
    /\ bids (db Demo.w_bids) !! "id4" = Some b
    /\ Bid.projectId b = "id3"
    /\ deleteProject Demo.B "id3" Demo.w_bids = (Throw e, Demo.w_bids)
    /\ kind e = INTERNAL
    /\ response_status (errorHandler e) = 500.
Proof.
  assert (Hp : projects (db Demo.w_bids) !! "id3"
               = Some (Project.mk "Logo" "A logo" 100 200 10 ProjectStatus.PENDING 2 2
                         "id0" None))
    by (vm_compute; reflexivity).
  assert (Hb : bids (db Demo.w_bids) !! "id4"
               = Some (Bid.mk 150 3 "I can do it" BidStatus.PENDING 3 3 "id3" "id1"))
    by (vm_compute; reflexivity).
  destruct (deleteProject_refused_while_bids_exist Demo.B "id3" Demo.w_bids _ "id4" _
              Hp eq_refl eq_refl Hb eq_refl) as (e & He).
  eexists _, _, e. split; [exact Hp|]. split; [reflexivity|]. split; [exact Hb|].
  split; [reflexivity|exact He].
Defined.

(** Before any bid, B deletes the project of the scenario: the project
    table is empty afterwards and the users stay. *)
Lemma deleteProject_removes_project_and_files_only_witness :
  exists v w',
    deleteProject Demo.B "id3" Demo.w_project = (Return v, w')
    /\ projects (db w') = delete "id3" (projects (db Demo.w_project))
    /\ users (db w') = users (db Demo.w_project)
    /\ bids (db w') = bids (db Demo.w_project)
    /\ outbox w' = outbox Demo.w_project.
Proof.
  destruct (deleteProject Demo.B "id3" Demo.w_project) as [r w'] eqn:E.
  assert (r = Return "Project deleted successfully") as ->.
  { change r with (r, w').1. rewrite <- E. vm_compute. reflexivity. }
  destruct (deleteProject_removes_project_and_files_only Demo.B "id3" Demo.w_project _ w' E)
    as (H1 & H2 & H3 & _ & _ & H6).
  eexists _, w'. split; [reflexivity|]. split; [exact H1|]. split; [exact H2|].
  split; [exact H3|exact H6].
Defined.

(** B completes the project of the scenario: it becomes COMPLETED, its
    seller stays S1 and S1 is sent one mail. *)
Lemma completeProject_completes_witness :
  exists v w' p',
    completeProject 6 Demo.B "id3" Demo.w_selected = (Return v, w')
    /\ projects (db w') !! "id3" = Some p'
    /\ Project.status p' = ProjectStatus.COMPLETED
    /\ Project.sellerId p' = Some "id1"
    /\ exists m, outbox w' = (outbox Demo.w_selected ++ [m])%list
                 /\ to m = "s1@example.org".
Proof.
  assert (Hp : projects (db Demo.w_selected) !! "id3"
               = Some (Project.mk "Logo" "A logo" 100 200 10 ProjectStatus.IN_PROGRESS 2 5
                         "id0" (Some "id1")))
    by (vm_compute; reflexivity).
  destruct (completeProject_completes 6 Demo.B "id3" Demo.w_selected _ Hp eq_refl eq_refl)
    as (v & w' & p' & E & Hps & _ & Hst & Hsl & _ & _ & _ & _ & _ & _ & _ & _ & _ & _
        & mails & Ho & Hm).
  exists v, w', p'. split; [exact E|].
  split; [rewrite Hps; apply lookup_insert_eq|]. split; [exact Hst|].
  split; [exact Hsl|].
  assert (Hu : Some "id1" ≫= (fun sl => users (db Demo.w_selected) !! sl)
               = Some (User.mk "s1@example.org" "secret$salt" "S1" SELLER None 1 1))
    by (vm_compute; reflexivity).
  change (Project.sellerId _) with (Some "id1") in Hm. rewrite Hu in Hm.
  destruct Hm as (m & -> & Hto). exists m. split; [exact Ho|exact Hto].
Defined.

(** S2, whose bid was not selected, cannot attach a file to the project
    of the scenario. *)
Lemma upload_requires_buyer_or_assigned_seller_witness :
  exists p,
    projects (db Demo.w_selected) !! "id3" = Some p
    /\ Project.buyerId p = "id0" /\ Project.sellerId p = Some "id1"
    /\ uploadProjectFiles 9 Demo.S2 "id3" (Some [Demo.sketch]) Demo.w_selected
       = (Throw (http_error FORBIDDEN 403
                   "You are not authorized to upload files to this project"),
          Demo.w_selected).
Proof.
  assert (Hp : projects (db Demo.w_selected) !! "id3"
               = Some (Project.mk "Logo" "A logo" 100 200 10 ProjectStatus.IN_PROGRESS 2 5
                         "id0" (Some "id1")))
    by (vm_compute; reflexivity).
  eexists. split; [exact Hp|]. split; [reflexivity|]. split; [reflexivity|].
  apply (upload_requires_buyer_or_assigned_seller 9 Demo.S2 "id3" (Some [Demo.sketch])
           Demo.w_selected _ Hp); discriminate.
Defined.

(** S1, the assigned seller, attaches one file to the project of the
    scenario: the file table grows by one row. *)
Lemma upload_adds_one_row_per_file_witness :
  exists v w',
    uploadProjectFiles 9 Demo.S1 "id3" (Some [Demo.sketch]) Demo.w_selected = (Return v, w')
    /\ size (files (db w')) = (size (files (db Demo.w_selected)) + 1)%nat
    /\ files (db Demo.w_selected) ⊆ files (db w').
Proof.
  destruct (uploadProjectFiles 9 Demo.S1 "id3" (Some [Demo.sketch]) Demo.w_selected)
    as [r w'] eqn:E.
  assert (exists v, r = Return v) as [v ->].
  { assert (exists v, (uploadProjectFiles 9 Demo.S1 "id3" (Some [Demo.sketch])
                         Demo.w_selected).1 = Return v) as [v Hv]
      by (eexists; vm_compute; reflexivity).
    exists v. rewrite E in Hv. exact Hv. }
  destruct (upload_adds_one_row_per_file 9 Demo.S1 "id3" (Some [Demo.sketch])
              Demo.w_selected v w' E)
    as (p & fs & _ & _ & Hfs & _ & Hsub & Hsz & _).
  injection Hfs as <-.
  exists v, w'. split; [reflexivity|]. split; [exact Hsz|exact Hsub].
Defined.

(** S1 rewords their PENDING bid and sends an amount of 0 and another
    project id: the message changes, the amount, the delivery time and
    the project of the bid do not. *)
Lemma updateBid_changes_only_provided_fields_witness :
  exists v w' b b',
    updateBid 9 Demo.S1 "id4" Demo.reword_body Demo.w_bids = (Return v, w')
    /\ bids (db Demo.w_bids) !! "id4" = Some b
    /\ bids (db w') !! "id4" = Some b'
    /\ Bid.message b' = "Two days less"
    /\ Bid.amount b' = Bid.amount b
    /\ Bid.deliveryTime b' = Bid.deliveryTime b
    /\ Bid.projectId b' = "id3"
    /\ Bid.status b' = BidStatus.PENDING.
Proof.
  destruct (updateBid 9 Demo.S1 "id4" Demo.reword_body Demo.w_bids) as [r w'] eqn:E.
  assert (exists v, r = Return v) as [v ->].
  { assert (exists v, (updateBid 9 Demo.S1 "id4" Demo.reword_body Demo.w_bids).1
                      = Return v) as [v Hv] by (eexists; vm_compute; reflexivity).
    exists v. rewrite E in Hv. exact Hv. }
  destruct (updateBid_changes_only_provided_fields 9 Demo.S1 "id4" Demo.reword_body
              Demo.w_bids v w' E)
    as (b & b' & Hb & Hbs & _ & Ha & Hd & Hm & Hst & Hp & _).
  assert (Hb0 : bids (db Demo.w_bids) !! "id4"
                = Some (Bid.mk 150 3 "I can do it" BidStatus.PENDING 3 3 "id3" "id1"))
    by (vm_compute; reflexivity).
  rewrite Hb0 in Hb. injection Hb as <-.
  eexists v, w', _, b'. split; [reflexivity|]. split; [exact Hb0|].
  split; [rewrite Hbs; apply lookup_insert_eq|].
  split; [exact Hm|]. split; [exact Ha|]. split; [exact Hd|].
  split; [exact Hp|exact Hst].
Defined.

(** B registers on the empty store and then logs in with the same
    password. *)
Lemma register_then_login_witness :
  exists v w' v',
    register 1 "salt" Demo.B_body init = (Return v, w')
    /\ login 2 {| LoginBody.email := Some "b@example.org";
                  LoginBody.password := Some "secret" |} w' = (Return v', w')
    /\ PublicUser.id (user v') = PublicUser.id (user v)
    /\ PublicUser.role (user v') = BUYER.
Proof.
  destruct (register 1 "salt" Demo.B_body init) as [r w'] eqn:E.
  assert (exists v, r = Return v /\ PublicUser.role (user v) = BUYER) as (v & -> & Hr).
  { assert (exists v, (register 1 "salt" Demo.B_body init).1 = Return v
                      /\ PublicUser.role (user v) = BUYER) as (v & Hv & Hr)
      by (eexists; split; vm_compute; reflexivity).
    exists v. rewrite E in Hv. split; [exact Hv|exact Hr]. }
  destruct (register_then_login 1 "salt" Demo.B_body init v w' 2 E eq_refl)
    as (v' & Hl & Hid & _ & _ & Hrole & _).
  exists v, w', v'. split; [reflexivity|]. split; [exact Hl|]. split; [exact Hid|].
  rewrite Hrole. exact Hr.
Defined.

(** The token issued for S1 opens the protected routes as S1. *)
Lemma issued_token_authenticates_witness :
  exists u,
    users (db Demo.w_bids) !! "id1" = Some u
    /\ authenticate 9 (Some ("Bearer " ++ generateToken 8 "id1" (User.role u))) Demo.w_bids
       = (Return Demo.S1, Demo.w_bids).
Proof.
  assert (Hu : users (db Demo.w_bids) !! "id1"
               = Some (User.mk "s1@example.org" "secret$salt" "S1" SELLER None 1 1))
    by (vm_compute; reflexivity).
  eexists. split; [exact Hu|].
  exact (issued_token_authenticates 8 9 Demo.w_bids "id1" _ Hu eq_refl eq_refl).
Defined.


(** The bid of S1 in the scenario can be read by S1 and by B, and not by
    S2. *)
Lemma getBidById_visibility_witness :
  exists b p,
    bids (db Demo.w_bids) !! "id4" = Some b
    /\ projects (db Demo.w_bids) !! Bid.projectId b = Some p
    /\ (exists v, getBidById Demo.S1 "id4" Demo.w_bids = (Return v, Demo.w_bids)
                  /\ BidDetail.row v = b)
    /\ (exists v, getBidById Demo.B "id4" Demo.w_bids = (Return v, Demo.w_bids)
                  /\ BidDetail.row v = b)
    /\ getBidById Demo.S2 "id4" Demo.w_bids
       = (Throw (http_error FORBIDDEN 403 "You are not authorized to view this bid"),
          Demo.w_bids).
Proof.
  assert (Hb : bids (db Demo.w_bids) !! "id4"
               = Some (Bid.mk 150 3 "I can do it" BidStatus.PENDING 3 3 "id3" "id1"))
    by (vm_compute; reflexivity).
  assert (Hp : projects (db Demo.w_bids) !! "id3"
               = Some (Project.mk "Logo" "A logo" 100 200 10 ProjectStatus.PENDING 2 2
                         "id0" None))
    by (vm_compute; reflexivity).
  eexists _, _. split; [exact Hb|]. split; [exact Hp|]. split; [|split].
  - destruct (proj1 (getBidById_visibility Demo.S1 "id4" Demo.w_bids _ _ Hb Hp)
                (or_introl eq_refl)) as (v & Hv & _ & Hrow & _).
    exists v. split; [exact Hv|exact Hrow].
  - destruct (proj1 (getBidById_visibility Demo.B "id4" Demo.w_bids _ _ Hb Hp)
                (or_intror eq_refl)) as (v & Hv & _ & Hrow & _).
    exists v. split; [exact Hv|exact Hrow].
  - apply (proj2 (getBidById_visibility Demo.S2 "id4" Demo.w_bids _ _ Hb Hp));
      discriminate.
Defined.

(** S2 lists their two bids, the bid on the second project first. *)
Lemma getSellerBids_lists_own_bids_newest_first_witness :
  exists views,
    getSellerBids Demo.S2 Demo.w_second = (Return views, Demo.w_second)
    /\ BidDetail.id <$> views = ["id7"; "id5"]
    /\ Sorted (fun a b => Bid.createdAt (BidDetail.row b) <= Bid.createdAt (BidDetail.row a))
         views.
Proof.
  destruct (getSellerBids_lists_own_bids_newest_first Demo.S2 Demo.w_second
              reachable_w_second eq_refl) as (views & Hv & _ & Hs & _).
  exists views. split; [exact Hv|]. split; [|exact Hs].
  assert (E : (getSellerBids Demo.S2 Demo.w_second).1 = Return views) by (by rewrite Hv).
  vm_compute in E. injection E as <-. reflexivity.
Defined.

(** B lists the two bids of the project of the scenario, the bid of S2
    first. *)
Lemma getProjectBids_newest_first_witness :
  exists views w',
    getProjectBids Demo.B "id3" Demo.w_bids = (Return views, w')
    /\ BidView.id <$> views = ["id5"; "id4"]
    /\ NoDup (BidView.id <$> views)
    /\ Sorted (fun a b => Bid.createdAt (BidView.row b) <= Bid.createdAt (BidView.row a))
         views.
Proof.
  destruct (getProjectBids Demo.B "id3" Demo.w_bids) as [r w'] eqn:E.
  assert (exists views, r = Return views /\ BidView.id <$> views = ["id5"; "id4"])
    as (views & -> & Hids).
  { assert (exists views, (getProjectBids Demo.B "id3" Demo.w_bids).1 = Return views
                          /\ BidView.id <$> views = ["id5"; "id4"]) as (views & Hv & Hids)
      by (eexists; split; vm_compute; reflexivity).
    exists views. rewrite E in Hv. simpl in Hv. split; [exact Hv|exact Hids]. }
  destruct (getProjectBids_newest_first Demo.B "id3" Demo.w_bids views w' E) as [Hn Hs].
  exists views, w'. split; [reflexivity|]. split; [exact Hids|]. split; [exact Hn|exact Hs].
Defined.

(** B lists their two projects, the second one first, each with the
    number of its bids. *)
Lemma getAllProjects_buyer_lists_own_projects_witness :
  exists items w',
    getAllProjects Demo.B Demo.no_query Demo.w_second = (Return items, w')
    /\ w' = Demo.w_second
    /\ ProjectItem.id <$> items = ["id6"; "id3"]
    /\ ProjectItem.bidCount <$> items = [Some 1%nat; Some 2%nat]
    /\ Sorted (fun a b => Project.createdAt (ProjectItem.row b)
                          <= Project.createdAt (ProjectItem.row a)) items.
Proof.
  destruct (getAllProjects Demo.B Demo.no_query Demo.w_second) as [r w'] eqn:E.
  assert (exists items, r = Return items
                        /\ ProjectItem.id <$> items = ["id6"; "id3"]
                        /\ ProjectItem.bidCount <$> items = [Some 1%nat; Some 2%nat])
    as (items & -> & Hids & Hcount).
  { assert (exists items, (getAllProjects Demo.B Demo.no_query Demo.w_second).1
                          = Return items
                          /\ ProjectItem.id <$> items = ["id6"; "id3"]
                          /\ ProjectItem.bidCount <$> items = [Some 1%nat; Some 2%nat])
      as (items & Hv & Hids & Hcount)
      by (eexists; split; [|split]; vm_compute; reflexivity).
    exists items. rewrite E in Hv. simpl in Hv.
    split; [exact Hv|]. split; [exact Hids|exact Hcount]. }
  destruct (getAllProjects_buyer_lists_own_projects Demo.B Demo.no_query Demo.w_second
              items w' eq_refl E) as (Hw & _ & _ & _ & Hs).
  exists items, w'. split; [reflexivity|]. split; [exact Hw|]. split; [exact Hids|].
  split; [exact Hcount|exact (Hs eq_refl)].
Defined.

(** S1 lists the open second project and the project assigned to them. *)
Lemma getAllProjects_seller_lists_open_and_assigned_witness :
  exists items w',
    getAllProjects Demo.S1 Demo.no_query Demo.w_second = (Return items, w')
    /\ w' = Demo.w_second
    /\ ProjectItem.id <$> items = ["id6"; "id3"]
    /\ NoDup (ProjectItem.id <$> items).
Proof.
  destruct (getAllProjects Demo.S1 Demo.no_query Demo.w_second) as [r w'] eqn:E.
  assert (exists items, r = Return items /\ ProjectItem.id <$> items = ["id6"; "id3"])
    as (items & -> & Hids).
  { assert (exists items, (getAllProjects Demo.S1 Demo.no_query Demo.w_second).1
                          = Return items
                          /\ ProjectItem.id <$> items = ["id6"; "id3"])
      as (items & Hv & Hids) by (eexists; split; vm_compute; reflexivity).
    exists items. rewrite E in Hv. simpl in Hv. split; [exact Hv|exact Hids]. }
  destruct (getAllProjects_seller_lists_open_and_assigned Demo.S1 Demo.no_query
              Demo.w_second items w' eq_refl E) as (Hw & Hn & _).
  exists items, w'. split; [reflexivity|]. split; [exact Hw|]. split; [exact Hids|exact Hn].
Defined.

(** For S1 a listing with a status that is no status of a project is the
    listing without a status. *)
Lemma getAllProjects_seller_ignores_status_witness :
  getAllProjects Demo.S1
    {| ProjectQuery.status := Some "archived"; ProjectQuery.search := None;
       ProjectQuery.sort := None |} Demo.w_second
  = getAllProjects Demo.S1
      {| ProjectQuery.status := None; ProjectQuery.search := None;
         ProjectQuery.sort := None |} Demo.w_second.
Proof.
  exact (getAllProjects_seller_ignores_status Demo.S1 (Some "archived") None None
           Demo.w_second eq_refl).
Defined.

(** [budgetMax_ASC] orders by the column [budgetMax], ascending. *)
Lemma project_orderBy_reads_field_and_direction_witness :
  project_orderBy (Some "budgetMax_ASC") = ("budgetMax", "asc")
  /\ project_orderBy (Some "budgetMax") = ("createdAt", "desc").
Proof.
  destruct (project_orderBy_reads_field_and_direction "budgetMax" "ASC"
              ltac:(discriminate) ltac:(discriminate) eq_refl eq_refl)
    as (H1 & H2 & _).
  split; [exact H1|exact H2].
Defined.
